(** * The ledger engine of the receipt book (app.py)

    A shallow embedding of the parts of [app.py] that read and write the
    shared spreadsheet: the worksheet operations the program calls, the
    account functions ([get_users_worksheet], [check_login], [delete_user]),
    the recognition and save steps of [page_invoice_processing], and the
    loader, owner filter and monthly totals of [page_dashboard].  Further
    on: the avatar crop, the cleaning of the model's answer, [add_user],
    [update_user], and the month list and category sums of the dashboard.

    Modelling conventions.
    - A worksheet is its grid of cells, row-major, row 1 first.  A cell holds
      what the client library hands back for it: an integer or a text.
      Fractional and non-finite numbers are outside the model, and so are
      texts that look like numbers (the client library reads them back as
      numbers).  Where the program writes a text it was given into a cell
      that is read again, the statements assume [reads_as_text] of it.
    - [get_all_records] raises on a header with two equal names and on a
      row wider than the header; the model does not, and the statements
      that depend on it assume [readable].
    - The spreadsheet is threaded explicitly: a function that writes returns
      the new spreadsheet.  [None] for the spreadsheet stands for a failed
      connection ([get_google_sheet] returned [None]).
    - Strings are byte strings (UTF-8).  [strip] removes the white space of
      [str.isspace], the characters beyond the ASCII range included.
      [lower] acts on the ASCII range only, bytes above 127 are left alone:
      it is [str.lower] on ASCII texts.
    - The amounts and quantities of a loaded frame are 64-bit integers, and
      their sums wrap around.  A ledger that held a cell that is not a
      number in such a column is summed in floating point by the data-frame
      library; its sums are the same as long as they stay below 2^53 in
      size, and are outside the model beyond.
    - The client library is the current one: [find] returns [None] when
      nothing matches, and the exception [CellNotFound] that the program
      names no longer exists.
    - SHA-256 and the date parser of the data-frame library are parameters. *)

From Stdlib Require Import List ZArith QArith String Ascii Bool Arith Lia.
From Stdlib Require Import DecimalString Sorted Lqa.
Import ListNotations.

Local Close Scope Q_scope.
Local Open Scope string_scope.
Local Open Scope list_scope.
Local Open Scope nat_scope.

(** ** Python values *)

(** A value read from, or written to, a cell. *)
Inductive value : Type :=
| VInt (z : Z)
| VStr (s : string).

Definition value_eq_dec (a b : value) : {a = b} + {a <> b}.
Proof. decide equality; [apply Z.eq_dec | apply string_dec]. Defined.

Definition value_eqb (a b : value) : bool :=
  if value_eq_dec a b then true else false.

Module Py.

(** [str(v)]. *)
Definition str (v : value) : string :=
  match v with
  | VInt z => NilZero.string_of_int (Z.to_int z)
  | VStr s => s
  end.

(** [str(d.get(k))]: a missing key gives [None], printed as "None". *)
Definition str_opt (v : option value) : string :=
  match v with
  | Some v => str v
  | None => "None"
  end.

(** Truth value of a cell value: [0] and [''] are false. *)
Definition truthy (v : value) : bool :=
  match v with
  | VInt z => negb (Z.eqb z 0)
  | VStr s => negb (String.eqb s "")
  end.

Definition lower_ascii (c : ascii) : ascii :=
  let n := nat_of_ascii c in
  if andb (Nat.leb 65 n) (Nat.leb n 90) then ascii_of_nat (n + 32) else c.

(** [s.lower()], for an ASCII text; bytes above 127 are left alone. *)
Fixpoint lower (s : string) : string :=
  match s with
  | EmptyString => EmptyString
  | String c t => String (lower_ascii c) (lower t)
  end.

(** White space in the sense of [str.isspace], the one-byte characters. *)
Definition is_space (c : ascii) : bool :=
  let n := nat_of_ascii c in
  orb (andb (Nat.leb 9 n) (Nat.leb n 13))
      (orb (andb (Nat.leb 28 n) (Nat.leb n 31)) (Nat.eqb n 32)).

(** The three-byte white-space characters: U+1680, U+2000 to U+200A,
    U+2028, U+2029, U+202F, U+205F and U+3000. *)
Definition is_space3 (b1 b2 b3 : nat) : bool :=
  orb (andb (Nat.eqb b1 225) (andb (Nat.eqb b2 154) (Nat.eqb b3 128)))
 (orb (andb (Nat.eqb b1 226)
            (orb (andb (Nat.eqb b2 128)
                       (orb (andb (Nat.leb 128 b3) (Nat.leb b3 138))
                       (orb (Nat.eqb b3 168)
                       (orb (Nat.eqb b3 169) (Nat.eqb b3 175)))))
                 (andb (Nat.eqb b2 129) (Nat.eqb b3 159))))
      (andb (Nat.eqb b1 227) (andb (Nat.eqb b2 128) (Nat.eqb b3 128)))).

(** The number of bytes of the white-space character the text starts with,
    [0] when it starts with none.  The two-byte ones are U+0085 and
    U+00A0. *)
Definition space_at (s : string) : nat :=
  match s with
  | EmptyString => 0
  | String c1 t1 =>
      if is_space c1 then 1
      else
        match t1 with
        | EmptyString => 0
        | String c2 t2 =>
            let b1 := nat_of_ascii c1 in
            let b2 := nat_of_ascii c2 in
            if andb (Nat.eqb b1 194) (orb (Nat.eqb b2 133) (Nat.eqb b2 160))
            then 2
            else
              match t2 with
              | EmptyString => 0
              | String c3 _ => if is_space3 b1 b2 (nat_of_ascii c3) then 3 else 0
              end
        end
  end.

(** Leave out the white-space characters at the front; [skip] counts the
    bytes of the current character that are still to be left out. *)
Fixpoint lstrip_from (skip : nat) (s : string) : string :=
  match s with
  | EmptyString => EmptyString
  | String c t =>
      match skip with
      | S k => lstrip_from k t
      | O =>
          match space_at s with
          | O => s
          | S k => lstrip_from k t
          end
      end
  end.

Definition lstrip (s : string) : string := lstrip_from 0 s.

(** The text is made of white-space characters only. *)
Fixpoint spaces_from (skip : nat) (s : string) : bool :=
  match s with
  | EmptyString => true
  | String c t =>
      match skip with
      | S k => spaces_from k t
      | O =>
          match space_at s with
          | O => false
          | S k => spaces_from k t
          end
      end
  end.

(** Cut the longest end of the text that is made of white-space
    characters. *)
Fixpoint rstrip (s : string) : string :=
  match s with
  | EmptyString => EmptyString
  | String c t => if spaces_from 0 s then EmptyString else String c (rstrip t)
  end.

(** [s.strip()]. *)
Definition strip (s : string) : string := rstrip (lstrip s).

(** [k in l] for a list of strings. *)
Definition contains (k : string) (l : list string) : bool :=
  existsb (String.eqb k) l.

(** A record of [get_all_records]: a dict from column name to value, in
    header order. *)
Definition dict : Type := list (string * value).

(** [d.get(k)]. *)
Fixpoint get (k : string) (d : dict) : option value :=
  match d with
  | [] => None
  | (k', v) :: t => if String.eqb k k' then Some v else get k t
  end.

End Py.

(** ** Worksheets *)

Definition row : Type := list value.
Definition worksheet : Type := list row.

Definition blank : value := VStr "".

Module Worksheet.

Definition is_blank (v : value) : bool := String.eqb (Py.str v) "".

(** A row as the service returns it: trailing blank cells are cut. *)
Fixpoint rstrip_blank (r : row) : row :=
  match r with
  | [] => []
  | c :: t =>
      match rstrip_blank t with
      | [] => if is_blank c then [] else [c]
      | t' => c :: t'
      end
  end.

(** [ws.row_values(r)]: the displayed texts of row [r] (1-based). *)
Definition row_values (ws : worksheet) (r : nat) : list string :=
  map Py.str (rstrip_blank (nth (r - 1) ws [])).

(** The cell at row [r], column [c] (1-based); blank outside the grid. *)
Definition cell (ws : worksheet) (r c : nat) : value :=
  nth (c - 1) (nth (r - 1) ws []) blank.

(** Write position [n] of a list, padding with [d] when the list is short. *)
Fixpoint set_nth {A : Type} (d : A) (n : nat) (x : A) (l : list A) : list A :=
  match n, l with
  | O, [] => [x]
  | O, _ :: t => x :: t
  | S n', [] => d :: set_nth d n' x []
  | S n', h :: t => h :: set_nth d n' x t
  end.

(** [ws.update_cell(r, c, v)]. *)
Definition update_cell (ws : worksheet) (r c : nat) (v : value) : worksheet :=
  set_nth [] (r - 1) (set_nth blank (c - 1) v (nth (r - 1) ws [])) ws.

Fixpoint find_in_row (query : string) (r : row) (c : nat) : option nat :=
  match r with
  | [] => None
  | v :: t => if String.eqb (Py.str v) query then Some c
              else find_in_row query t (S c)
  end.

Fixpoint find_from (query : string) (ws : worksheet) (r : nat) : option (nat * nat) :=
  match ws with
  | [] => None
  | cells :: rest =>
      match find_in_row query cells 1 with
      | Some c => Some (r, c)
      | None => find_from query rest (S r)
      end
  end.

(** [ws.find(query)]: the first cell of the whole sheet, rows first, whose
    displayed text equals [query]; [None] when no cell matches.  (Old
    releases of the client library raised [CellNotFound] instead; the
    current ones return [None] and no longer have that exception.) *)
Definition find (ws : worksheet) (query : string) : option (nat * nat) :=
  find_from query ws 1.

Fixpoint remove_nth {A : Type} (n : nat) (l : list A) : list A :=
  match n, l with
  | _, [] => []
  | O, _ :: t => t
  | S n', h :: t => h :: remove_nth n' t
  end.

(** [ws.delete_rows(r)]. *)
Definition delete_rows (ws : worksheet) (r : nat) : worksheet :=
  remove_nth (r - 1) ws.

(** [ws.append_row(values)] and [ws.append_rows(values)]: the new rows go
    below the last row of the sheet. *)
Definition append_rows (ws : worksheet) (values : list row) : worksheet :=
  ws ++ values.

Definition append_row (ws : worksheet) (values : row) : worksheet :=
  append_rows ws [values].

(** [ws.clear()]. *)
Definition clear (ws : worksheet) : worksheet := [].

(** Lay [new] over the front of [old]. *)
Fixpoint overlay {A : Type} (new old : list A) : list A :=
  match new, old with
  | [], _ => old
  | x :: t, [] => x :: t
  | x :: t, _ :: t' => x :: overlay t t'
  end.

(** [ws.update(values, 'A1')]: the block [values] is written from the top
    left cell; cells outside the block keep their content. *)
Fixpoint update (ws : worksheet) (values : list row) : worksheet :=
  match values, ws with
  | [], _ => ws
  | r :: t, [] => r :: t
  | r :: t, o :: ws' => overlay r o :: update ws' t
  end.

(** Pair the header keys with the cells of a row; a short row is filled
    with blanks, cells beyond the header are not read. *)
Fixpoint zip_fill (keys : list string) (r : row) : Py.dict :=
  match keys with
  | [] => []
  | k :: ks =>
      match r with
      | [] => (k, blank) :: zip_fill ks []
      | v :: vs => (k, v) :: zip_fill ks vs
      end
  end.

(** [ws.get_all_records()]: one dict per row below the header row, for a
    sheet the client library reads without raising (see [readable]
    below). *)
Definition get_all_records (ws : worksheet) : list Py.dict :=
  match ws with
  | [] => []
  | header :: data => map (zip_fill (map Py.str header)) data
  end.

End Worksheet.

(** The spreadsheet: the two worksheets the program uses, each of which may
    be missing ([WorksheetNotFound]). *)
Record spreadsheet : Type := {
  users_ws : option worksheet;   (* "Users" *)
  data_ws : option worksheet     (* "工作表1", the ledger *)
}.

Definition set_users (sh : spreadsheet) (ws : worksheet) : spreadsheet :=
  {| users_ws := Some ws; data_ws := data_ws sh |}.

Definition set_data (sh : spreadsheet) (ws : worksheet) : spreadsheet :=
  {| users_ws := users_ws sh; data_ws := Some ws |}.

(** ** Accounts *)

Definition ADMIN_USERNAME : string := "jerry".

Definition users_header : row :=
  [VStr "username"; VStr "hashed_password"; VStr "avatar_base64"].

(** The body of the [try] in [get_users_worksheet]: add the avatar column
    to the header when it is not there. *)
Definition ensure_avatar_column (ws : worksheet) : worksheet :=
  let header := Worksheet.row_values ws 1 in
  if Py.contains "avatar_base64" header then ws
  else Worksheet.update_cell ws 1 (List.length header + 1) (VStr "avatar_base64").

(** [get_users_worksheet(sheet)]: the worksheet handed back, and the
    spreadsheet after the call. *)
Definition get_users_worksheet (sh : spreadsheet) : spreadsheet * worksheet :=
  match users_ws sh with
  | Some ws =>
      let ws' := ensure_avatar_column ws in (set_users sh ws', ws')
  | None =>
      let ws' := Worksheet.update [] [users_header] in (set_users sh ws', ws')
  end.

(** What [check_login] returns: the bare [False] of the failed connection,
    or a pair of the flag and the name ([None] printed as [None]). *)
Inductive login_result : Type :=
| LoginFalse
| LoginPair (ok : bool) (name : option value).

(** Session state of the login screen.  [username] is the owner identifier
    every page receives once [logged_in] holds. *)
Record session : Type := {
  logged_in : bool;
  username : option value;
  selected_user : option value
}.

Inductive delete_outcome : Type :=
| DbConnectionFailed     (* "資料庫連線失敗" *)
| UserNotFound           (* "在使用者列表中找不到該使用者" *)
| DeleteRaised           (* no answer: an [AttributeError] leaves the call *)
| LedgerDeleteFailed     (* "刪除消費紀錄時發生錯誤" *)
| Deleted.               (* "已成功刪除使用者…及其所有資料。" *)

(** Column names of the ledger. *)
Definition col_date : string := "日期".
Definition col_name : string := "品項".
Definition col_quantity : string := "數量".
Definition col_category : string := "類別".
Definition col_amount : string := "金額".
Definition col_owner : string := "使用者".

(** [df.columns.values.tolist()] and [df.values.tolist()] of the frame built
    from the records. *)
Definition frame_columns (records : list Py.dict) : row :=
  match records with
  | [] => []
  | d :: _ => map (fun kv => VStr (fst kv)) d
  end.

Definition frame_values (records : list Py.dict) : list row :=
  map (map snd) records.

(** [df[df['使用者'] != username_to_delete]]. *)
Definition rows_not_owned_by (u : string) (records : list Py.dict) : list Py.dict :=
  filter (fun d => negb (match Py.get col_owner d with
                         | Some v => value_eqb v (VStr u)
                         | None => false
                         end)) records.

(** The second [try] of [delete_user], on the ledger worksheet.  [None] is
    the [KeyError] of a ledger without the owner column. *)
Definition delete_records (data : worksheet) (u : string) : option worksheet :=
  match Worksheet.get_all_records data with
  | [] => Some data
  | d :: rest =>
      let all_data := d :: rest in
      match Py.get col_owner d with
      | None => None
      | Some _ =>
          let df_remaining := rows_not_owned_by u all_data in
          let cleared := Worksheet.clear data in
          match df_remaining with
          | _ :: _ =>
              Some (Worksheet.update cleared
                      (frame_columns df_remaining :: frame_values df_remaining))
          | [] => Some (Worksheet.update cleared [frame_columns all_data])
          end
      end
  end.

(** [delete_user(username_to_delete)].  When [find] returns [None],
    [cell.row] raises [AttributeError] inside the first [try]; its first
    handler names [gspread.CellNotFound], which does not exist, so looking
    it up raises [AttributeError] again and that one leaves the function:
    the answer of the handler, [UserNotFound], is never given. *)
Definition delete_user (sheet : option spreadsheet) (u : string)
  : option spreadsheet * delete_outcome :=
  match sheet with
  | None => (None, DbConnectionFailed)
  | Some sh =>
      let '(sh1, users) := get_users_worksheet sh in
      match Worksheet.find users u with
      | None => (Some sh1, DeleteRaised)
      | Some (r, _) =>
          let sh2 := set_users sh1 (Worksheet.delete_rows users r) in
          match data_ws sh2 with
          | None => (Some sh2, Deleted)
          | Some data =>
              match delete_records data u with
              | None => (Some sh2, LedgerDeleteFailed)
              | Some data' => (Some (set_data sh2 data'), Deleted)
              end
          end
      end
  end.

Section Login.

(** [hash_password]: the hexadecimal SHA-256 digest. *)
Variable hash_password : string -> string.

(** The loop of [check_login] over the records. *)
Fixpoint check_users (users : list Py.dict) (u : string) (hashed : string)
  : login_result :=
  match users with
  | [] => LoginPair false None
  | user :: rest =>
      if andb (String.eqb (Py.lower (Py.str_opt (Py.get "username" user)))
                          (Py.lower u))
              (match Py.get "hashed_password" user with
               | Some v => value_eqb v (VStr hashed)
               | None => false
               end)
      then LoginPair true (Py.get "username" user)
      else check_users rest u hashed
  end.

(** [check_login(username, password)]. *)
Definition check_login (sheet : option spreadsheet) (u password : string)
  : option spreadsheet * login_result :=
  match sheet with
  | None => (None, LoginFalse)
  | Some sh =>
      let '(sh1, users_ws) := get_users_worksheet sh in
      let users := Worksheet.get_all_records users_ws in
      (Some sh1, check_users users u (hash_password password))
  end.

Inductive add_outcome : Type :=
| AddNotConnected    (* "資料庫連線失敗" *)
| NameReserved       (* "這個使用者名稱為管理員保留，請選擇其他名稱。" *)
| NameTaken          (* "這個使用者名稱已經被註冊了！" *)
| Registered.        (* "註冊成功！現在您可以用新帳號登入。" *)

(** [add_user(username, password, avatar_file)]; [avatar_base64] is the
    encoded picture, empty without a file or when the picture could not be
    processed. *)
Definition add_user (sheet : option spreadsheet) (u password avatar_base64 : string)
  : option spreadsheet * add_outcome :=
  match sheet with
  | None => (None, AddNotConnected)
  | Some sh =>
      let '(sh1, users_ws) := get_users_worksheet sh in
      let users := Worksheet.get_all_records users_ws in
      if String.eqb (Py.lower u) (Py.lower ADMIN_USERNAME)
      then (Some sh1, NameReserved)
      else if existsb (fun user =>
                         String.eqb (Py.lower (Py.str_opt (Py.get "username" user)))
                                    (Py.lower u)) users
      then (Some sh1, NameTaken)
      else (Some (set_users sh1
                    (Worksheet.append_row users_ws
                       [VStr u; VStr (hash_password password);
                        VStr avatar_base64])),
            Registered)
  end.

(** What the password form does on submit.  The form is only shown for a
    truthy [selected_user]; [None] for the result is an uncaught exception
    ([.lower()] on a number, or unpacking the bare [False]). *)
Definition password_form_submit (sheet : option spreadsheet) (st : session)
    (password : string) : option (option spreadsheet * session) :=
  match selected_user st with
  | Some (VStr u) =>
      if Py.truthy (VStr u) then
        match check_login sheet u password with
        | (_, LoginFalse) => None
        | (sheet', LoginPair true correct_username) =>
            Some (sheet',
                  {| logged_in := true;
                     username := correct_username;
                     selected_user := None |})
        | (sheet', LoginPair false _) => Some (sheet', st)
        end
      else Some (sheet, st)
  | Some (VInt z) =>
      if Py.truthy (VInt z) then None else Some (sheet, st)
  | None => Some (sheet, st)
  end.

End Login.

(** ** Recognition: from the model's answer to the table to correct *)

#[local] Set Warnings "-register-all".

(** A JSON document as [json.loads] builds it: an object is its members
    under distinct keys.  Numbers are integers. *)
Inductive json : Type :=
| JNull
| JBool (b : bool)
| JNum (z : Z)
| JStr (s : string)
| JArr (items : list json)
| JObj (members : list (string * json)).

(** Truth value of a JSON document in a condition. *)
Definition json_truthy (j : json) : bool :=
  match j with
  | JNull => false
  | JBool b => b
  | JNum z => negb (Z.eqb z 0)
  | JStr s => negb (String.eqb s "")
  | JArr items => match items with [] => false | _ => true end
  | JObj members => match members with [] => false | _ => true end
  end.

Fixpoint members_get (k : string) (members : list (string * json)) : option json :=
  match members with
  | [] => None
  | (k', v) :: t => if String.eqb k k' then Some v else members_get k t
  end.

(** One line of the table shown for correction; [None] is a missing
    value. *)
Record parsed_row : Type := {
  p_date : option json;
  p_name : option json;
  p_quantity : option json;
  p_category : option json;
  p_amount : option json
}.

(** The single line offered when nothing was recognised. *)
Definition placeholder_row (today : string) : parsed_row :=
  {| p_date := Some (JStr today);
     p_name := Some (JStr "");
     p_quantity := Some (JNum 1);
     p_category := Some (JStr "其他");
     p_amount := Some (JNum 0) |}.

(** What the recognition step ends in: the table shown for correction, an
    exception that leaves the page, or, for the two shapes of answer named
    below, an outcome that is not modelled. *)
Inductive recognised : Type :=
| Table (lines : list parsed_row)
| Raised
| Unmodelled.

(** A JSON value that is neither a list nor an object. *)
Definition is_scalar (j : json) : bool :=
  match j with
  | JArr _ | JObj _ => false
  | _ => true
  end.

(** The members of every item when [items] is a list of objects. *)
Fixpoint item_members (items : list json) : option (list (list (string * json))) :=
  match items with
  | [] => Some []
  | JObj members :: t =>
      match item_members t with
      | Some l => Some (members :: l)
      | None => None
      end
  | _ :: _ => None
  end.

Definition has_column (k : string) (items : list (list (string * json))) : bool :=
  existsb (fun members => match members_get k members with
                          | Some _ => true
                          | None => false
                          end) items.

(** Lines 258 to 268 of [page_invoice_processing], on the answer
    [parsed_data] of [parse_with_gemini] ([None] when it gave up).  In the
    second branch:
    - [items] that is a number or [true] makes [len] raise, and a text
      makes [pd.DataFrame] raise;
    - [items] that is a list holding anything but objects ends in an
      exception, in the frame constructor or, the columns being numbered
      then, in the selection of the five columns;
    - for a list of objects the frame has the keys of the objects for
      columns, a key an object lacks giving a missing value; the selection
      of the columns raises [KeyError] when no object has one of them;
    - the date of the document is written to every line when it is a text, a
      number or [true].
    Two shapes are left to the data-frame library and not modelled: [items]
    that is an object, and a date that is a list or an object and is not
    empty. *)
Definition recognise (today : string) (parsed_data : option json) : recognised :=
  match parsed_data with
  | None => Table [placeholder_row today]
  | Some data =>
      if negb (json_truthy data) then Table [placeholder_row today]
      else
        match data with
        | JObj members =>
            match members_get "items" members with
            | None => Table [placeholder_row today]
            | Some items =>
                if negb (json_truthy items) then Table [placeholder_row today]
                else
                  let invoice_date :=
                    match members_get "invoice_date" members with
                    | Some d => if json_truthy d then d else JStr today
                    | None => JStr today
                    end in
                  match items with
                  | JArr parsed_items =>
                      match item_members parsed_items with
                      | Some dicts =>
                          if forallb (fun k => has_column k dicts)
                               [col_name; col_quantity; col_category; col_amount]
                          then
                            if is_scalar invoice_date
                            then Table (map (fun m =>
                                   {| p_date := Some invoice_date;
                                      p_name := members_get col_name m;
                                      p_quantity := members_get col_quantity m;
                                      p_category := members_get col_category m;
                                      p_amount := members_get col_amount m |}) dicts)
                            else Unmodelled
                          else Raised
                      | None => Raised
                      end
                  | JObj _ => Unmodelled
                  | _ => Raised
                  end
            end
        | _ => Table [placeholder_row today]
        end
  end.

(** ** Saving the corrected table *)

(** A line of the corrected table: the three columns the save step checks
    may be null; the number columns hold finite numbers. *)
Record edited_row : Type := {
  e_date : option string;
  e_name : option string;
  e_quantity : option Q;
  e_category : option string;
  e_amount : option Q
}.

(** [astype(int)] of a finite number, a cast to a 64-bit integer: the
    fraction is cut, and a number that does not fit becomes the smallest
    64-bit integer. *)
Definition int64_min : Z := (- 2 ^ 63)%Z.
Definition int64_max : Z := (2 ^ 63 - 1)%Z.

Definition astype_int (q : Q) : Z :=
  let z := Z.quot (Qnum q) (Z.pos (Qden q)) in
  if andb (Z.leb int64_min z) (Z.leb z int64_max) then z else int64_min.

(** A line of [final_df_to_save]. *)
Record saved_row : Type := {
  s_date : option string;
  s_name : string;
  s_quantity : Z;
  s_category : option string;
  s_amount : Z;
  s_owner : value
}.

(** Lines 280 to 284: drop the lines with a null amount, name or quantity,
    drop the lines whose trimmed name is empty, cast, stamp the owner. *)
Definition check_row (owner : value) (e : edited_row) : option saved_row :=
  match e_amount e, e_name e, e_quantity e with
  | Some amount, Some name, Some quantity =>
      if negb (String.eqb (Py.strip name) "")
      then Some {| s_date := e_date e;
                   s_name := name;
                   s_quantity := astype_int quantity;
                   s_category := e_category e;
                   s_amount := astype_int amount;
                   s_owner := owner |}
      else None
  | _, _, _ => None
  end.

Fixpoint final_df_to_save (owner : value) (edited_df : list edited_row)
  : list saved_row :=
  match edited_df with
  | [] => []
  | e :: t =>
      match check_row owner e with
      | Some r => r :: final_df_to_save owner t
      | None => final_df_to_save owner t
      end
  end.

Definition text_cell (s : option string) : value :=
  match s with
  | Some s => VStr s
  | None => blank
  end.

(** [final_df_to_save.columns.values.tolist()] and one line of
    [final_df_to_save.values.tolist()]. *)
Definition ledger_header : row :=
  [VStr col_date; VStr col_name; VStr col_quantity; VStr col_category;
   VStr col_amount; VStr col_owner].

Definition to_cells (r : saved_row) : row :=
  [text_cell (s_date r); VStr (s_name r); VInt (s_quantity r);
   text_cell (s_category r); VInt (s_amount r); s_owner r].

(** Lines 289 to 294: write the lines to the ledger worksheet. *)
Definition write_rows (ws : worksheet) (values : list row) : worksheet :=
  let header_daily := Worksheet.row_values ws 1 in
  if orb (match header_daily with [] => true | _ => false end)
         (negb (Py.contains col_owner header_daily))
  then Worksheet.update (Worksheet.clear ws) (ledger_header :: values)
  else Worksheet.append_rows ws values.

Inductive save_outcome : Type :=
| TableEmpty        (* "表格中沒有資料，無法儲存。" *)
| NothingValid      (* "校正後的資料無效或不完整，無法儲存。" *)
| NotConnected      (* [get_google_sheet] reported the failure *)
| SaveRaised        (* "儲存過程中發生錯誤" *)
| Saved.            (* "資料已成功寫入您的記帳本！" *)

(** The save button of [page_invoice_processing(username)]. *)
Definition save_button (sheet : option spreadsheet) (owner : value)
    (edited_df : list edited_row) : option spreadsheet * save_outcome :=
  match edited_df with
  | [] => (sheet, TableEmpty)
  | _ :: _ =>
      match final_df_to_save owner edited_df with
      | [] => (sheet, NothingValid)
      | final =>
          match sheet with
          | None => (None, NotConnected)
          | Some sh =>
              match data_ws sh with
              | None => (Some sh, SaveRaised)
              | Some ws =>
                  (Some (set_data sh (write_rows ws (map to_cells final))), Saved)
              end
          end
      end
  end.

(** ** The dashboard: loading, owner filter, totals *)

(** A calendar date as the loader keeps it. *)
Record Date : Type := { year : Z; month : Z; day : Z }.

Definition Date_eq_dec (a b : Date) : {a = b} + {a <> b}.
Proof. decide equality; apply Z.eq_dec. Defined.

(** A line of the frame after [dropna]: the five required columns, typed,
    and the record it was read from (which carries the other columns). *)
Record ledger_row : Type := {
  date : Date;
  name : value;
  quantity : Z;
  amount : Z;
  owner : value;
  fields : Py.dict
}.

(** The columns [drop_duplicates] compares. *)
Definition key : Type := Date * value * Z * Z * value.

Definition key_of (r : ledger_row) : key :=
  (date r, name r, quantity r, amount r, owner r).

Definition key_eq_dec (a b : key) : {a = b} + {a <> b}.
Proof.
  repeat decide equality; try apply Z.eq_dec; apply string_dec.
Defined.

Definition key_in (k : key) (seen : list key) : bool :=
  existsb (fun k' => if key_eq_dec k k' then true else false) seen.

(** [df.duplicated(subset, keep='first')]: a line is marked when its key
    was met on an earlier line. *)
Fixpoint duplicated_from (seen : list key) (df : list ledger_row) : list bool :=
  match df with
  | [] => []
  | r :: t =>
      if key_in (key_of r) seen then true :: duplicated_from seen t
      else false :: duplicated_from (key_of r :: seen) t
  end.

Definition duplicated (df : list ledger_row) : list bool :=
  duplicated_from [] df.

(** [df[mask]]. *)
Fixpoint select {A : Type} (df : list A) (mask : list bool) : list A :=
  match df, mask with
  | r :: t, b :: m => if b then r :: select t m else select t m
  | _, _ => []
  end.

(** [df.drop_duplicates(subset=required_cols, keep='first')]. *)
Definition drop_duplicates (df : list ledger_row) : list ledger_row :=
  select df (map negb (duplicated df)).

Definition required_cols : list string :=
  [col_date; col_name; col_quantity; col_amount; col_owner].

(** [pd.to_numeric(_, errors='coerce')] on a cell: a text is not a
    number. *)
Definition to_numeric (v : value) : option Z :=
  match v with
  | VInt z => Some z
  | VStr _ => None
  end.

Section Loader.

(** [pd.to_datetime(_, errors='coerce')] on a cell. *)
Variable to_datetime : value -> option Date.

(** Lines 320 to 323 on one record: coerce, then [dropna] on the required
    columns.  [None] is a dropped line. *)
Definition coerce (d : Py.dict) : option ledger_row :=
  match Py.get col_date d, Py.get col_name d, Py.get col_quantity d,
        Py.get col_amount d, Py.get col_owner d with
  | Some dt, Some nm, Some qty, Some amt, Some own =>
      match to_datetime dt, to_numeric qty, to_numeric amt with
      | Some dt', Some qty', Some amt' =>
          Some {| date := dt'; name := nm; quantity := qty'; amount := amt';
                  owner := own; fields := d |}
      | _, _, _ => None
      end
  | _, _, _, _, _ => None
  end.

Fixpoint dropna (data : list Py.dict) : list ledger_row :=
  match data with
  | [] => []
  | d :: t =>
      match coerce d with
      | Some r => r :: dropna t
      | None => dropna t
      end
  end.

(** [load_data()]: the frame and [deduplicated_rows]. *)
Definition load_data (sheet : option spreadsheet) : list ledger_row * nat :=
  match sheet with
  | None => ([], 0)
  | Some sh =>
      match data_ws sh with
      | None => ([], 0)
      | Some ws =>
          match Worksheet.get_all_records ws with
          | [] => ([], 0)
          | d :: rest =>
              let data := d :: rest in
              if negb (forallb (fun c => Py.contains c (map fst d)) required_cols)
              then ([], 0)
              else
                let original_rows := List.length data in
                let df := drop_duplicates (dropna data) in
                (df, original_rows - List.length df)
          end
      end
  end.

End Loader.

(** [df_all[df_all['使用者'] == username]]. *)
Definition scope_to_owner (df_all : list ledger_row) (username : value)
  : list ledger_row :=
  filter (fun r => value_eqb (owner r) username) df_all.

(** [dt.to_period('M')]: the year and the month. *)
Definition period : Type := Z * Z.

Definition month_of (r : ledger_row) : period :=
  (year (date r), month (date r)).

Definition period_eqb (a b : period) : bool :=
  andb (Z.eqb (fst a) (fst b)) (Z.eqb (snd a) (snd b)).

Definition period_ltb (a b : period) : bool :=
  orb (Z.ltb (fst a) (fst b))
      (andb (Z.eqb (fst a) (fst b)) (Z.ltb (snd a) (snd b))).

(** The amounts are a column of 64-bit integers: a sum that leaves the
    range wraps around. *)
Definition wrap64 (z : Z) : Z := ((z + 2 ^ 63) mod 2 ^ 64 - 2 ^ 63)%Z.

Definition add64 (a b : Z) : Z := wrap64 (a + b).

(** [s.sum()] of a column or series of 64-bit integers. *)
Definition sum64 (l : list Z) : Z := fold_right add64 0%Z l.

(** [df['金額'].sum()]. *)
Definition total_expense (df : list ledger_row) : Z :=
  sum64 (map amount df).

(** Add one amount to the sum of its group, a new group starting from 0;
    the groups stay in ascending order of the month, the order [groupby]
    gives its result. *)
Fixpoint add_to_group (k : period) (v : Z) (groups : list (period * Z))
  : list (period * Z) :=
  match groups with
  | [] => [(k, add64 0 v)]
  | (k', s) :: t =>
      if period_eqb k k' then (k', add64 s v) :: t
      else if period_ltb k k' then (k, add64 0 v) :: groups
      else (k', s) :: add_to_group k v t
  end.

(** [df.groupby('月份')['金額'].sum()]. *)
Definition monthly_total (df : list ledger_row) : list (period * Z) :=
  fold_left (fun groups r => add_to_group (month_of r) (amount r) groups) df [].

(** The sum of a series, [monthly_total.sum()]. *)
Definition series_sum (s : list (period * Z)) : Z :=
  sum64 (map snd s).

(** What [page_dashboard(username)] works on, up to the overview: nothing
    when the ledger or the user's part of it is empty, else the user's lines
    (narrowed by the search box when it is filled), the count reported by
    the loader, the total and the monthly totals. *)
Inductive dashboard : Type :=
| NoData
| NoOwnData
| NoMatch
| Overview (df : list ledger_row) (removed_count : nat) (total : Z)
           (monthly : list (period * Z)).

Section Dashboard.

Variable to_datetime : value -> option Date.

Definition page_dashboard (sheet : option spreadsheet) (username : value)
    (search : option (value -> bool)) : option spreadsheet * dashboard :=
  let '(df_all, removed_count) := load_data to_datetime sheet in
  match df_all with
  | [] => (sheet, NoData)
  | _ :: _ =>
      match scope_to_owner df_all username with
      | [] => (sheet, NoOwnData)
      | df =>
          let df := match search with
                    | Some contains => filter (fun r => contains (name r)) df
                    | None => df
                    end in
          match df with
          | [] => (sheet, NoMatch)
          | _ :: _ =>
              (sheet, Overview df removed_count (total_expense df)
                               (monthly_total df))
          end
      end
  end.

End Dashboard.

(** ** Definitions used in the statements *)

(** [l1] is [l2] with some elements left out, the others in their order. *)
Inductive subseq {A : Type} : list A -> list A -> Prop :=
| subseq_nil : subseq [] []
| subseq_skip : forall x l1 l2, subseq l1 l2 -> subseq l1 (x :: l2)
| subseq_keep : forall x l1 l2, subseq l1 l2 -> subseq (x :: l1) (x :: l2).

(** [drop_duplicates] as one pass that carries the keys met so far. *)
Fixpoint dedup_from (seen : list key) (df : list ledger_row) : list ledger_row :=
  match df with
  | [] => []
  | r :: t =>
      if key_in (key_of r) seen then dedup_from seen t
      else r :: dedup_from (key_of r :: seen) t
  end.

(** A date parser for the examples: the ledger's own format,
    [YYYY-MM-DD], with the calendar checked. *)
Definition digit (c : ascii) : option Z :=
  let n := nat_of_ascii c in
  if andb (Nat.leb 48 n) (Nat.leb n 57) then Some (Z.of_nat (n - 48)) else None.

Definition number (cs : list ascii) : option Z :=
  fold_left (fun acc c =>
               match acc, digit c with
               | Some a, Some d => Some (10 * a + d)%Z
               | _, _ => None
               end) cs (Some 0%Z).

Definition leap (y : Z) : bool :=
  andb (Z.eqb (y mod 4) 0)
       (orb (negb (Z.eqb (y mod 100) 0)) (Z.eqb (y mod 400) 0)).

Definition days_in_month (y m : Z) : Z :=
  if Z.eqb m 2 then (if leap y then 29 else 28)%Z
  else if orb (Z.eqb m 4) (orb (Z.eqb m 6) (orb (Z.eqb m 9) (Z.eqb m 11)))
       then 30%Z else 31%Z.

Definition iso_date (s : string) : option Date :=
  match list_ascii_of_string s with
  | [y1; y2; y3; y4; s1; m1; m2; s2; d1; d2] =>
      if andb (Ascii.eqb s1 "-") (Ascii.eqb s2 "-") then
        match number [y1; y2; y3; y4], number [m1; m2], number [d1; d2] with
        | Some y, Some m, Some d =>
            if andb (andb (Z.leb 1 m) (Z.leb m 12))
                    (andb (Z.leb 1 d) (Z.leb d (days_in_month y m)))
            then Some {| year := y; month := m; day := d |}
            else None
        | _, _, _ => None
        end
      else None
  | _ => None
  end.

Definition iso_datetime (v : value) : option Date :=
  match v with
  | VStr s => iso_date s
  | VInt _ => None
  end.

(** The key in the words of the specification: texts trimmed. *)
Definition trimmed (v : value) : value :=
  match v with
  | VStr s => VStr (Py.strip s)
  | VInt z => VInt z
  end.

Definition spec_key_of (r : ledger_row) : key :=
  (date r, trimmed (name r), quantity r, amount r, trimmed (owner r)).

(** The bounds the specification gives for a stored line. *)
Definition line_item_invariant (r : saved_row) : Prop :=
  (1 <= s_quantity r)%Z /\ (0 < s_amount r)%Z /\
  Py.strip (s_name r) <> "" /\ Py.truthy (s_owner r) = true.

(** The amount of a month in a series, [0] when the month has no group. *)
Fixpoint series_get (p : period) (s : list (period * Z)) : Z :=
  match s with
  | [] => 0%Z
  | (k, v) :: t => if period_eqb p k then v else series_get p t
  end.

(** ** Example data *)

Definition march_1 : Date := {| year := 2024; month := 3; day := 1 |}.

Definition milk_cells (name : string) : row :=
  [VStr "2024-03-01"; VStr name; VInt 2; VStr "Food"; VInt 80; VStr "amy"].

(** A ledger with two lines that differ in a trailing blank of the name. *)
Definition trailing_blank_ledger : spreadsheet :=
  {| users_ws := None;
     data_ws := Some [ledger_header; milk_cells "Milk"; milk_cells "Milk "] |}.

(** A ledger with the same line twice. *)
Definition twice_ledger : spreadsheet :=
  {| users_ws := None;
     data_ws := Some [ledger_header; milk_cells "Milk"; milk_cells "Milk"] |}.

(** A ledger whose only line has a text for its amount. *)
Definition text_amount_ledger : spreadsheet :=
  {| users_ws := None;
     data_ws := Some [ledger_header;
                      [VStr "2024-03-01"; VStr "Milk"; VInt 2; VStr "Food";
                       VStr "abc"; VStr "amy"]] |}.


Definition milk_row : ledger_row :=
  {| date := march_1; name := VStr "Milk"; quantity := 2; amount := 80;
     owner := VStr "amy";
     fields := Worksheet.zip_fill (map Py.str ledger_header) (milk_cells "Milk") |}.

(** A ledger that holds its header and nothing else. *)
Definition fresh_ledger : spreadsheet :=
  {| users_ws := None; data_ws := Some [ledger_header] |}.

(** Two corrected lines: a free bag (quantity 0, amount 0) and a refund
    (amount -5). *)
Definition free_bag : edited_row :=
  {| e_date := Some "2024-03-01"; e_name := Some "Bag";
     e_quantity := Some (0 # 1)%Q; e_category := Some "其他";
     e_amount := Some (0 # 1)%Q |}.

Definition refund : edited_row :=
  {| e_date := Some "2024-03-01"; e_name := Some "Refund";
     e_quantity := Some (1 # 1)%Q; e_category := Some "其他";
     e_amount := Some (-5 # 1)%Q |}.

Definition milk_line : edited_row :=
  {| e_date := Some "2024-03-01"; e_name := Some "Milk";
     e_quantity := Some (2 # 1)%Q; e_category := Some "Food";
     e_amount := Some (161 # 2)%Q |}.


(** The answers caught by the guard of line 258: no answer (none at all,
    or a text that is not JSON), an answer that is not an object, an object
    without [items], an object whose [items] is the empty list or another
    value that counts as false. *)
Inductive unusable : option json -> Prop :=
| unusable_absent : unusable None
| unusable_not_object : forall j, (forall m, j <> JObj m) -> unusable (Some j)
| unusable_no_items : forall m,
    members_get "items" m = None -> unusable (Some (JObj m))
| unusable_zero_items : forall m items,
    members_get "items" m = Some items -> json_truthy items = false ->
    unusable (Some (JObj m)).

(** A ledger from before the owner column existed, with one stored line. *)
Definition old_line : row :=
  [VStr "2024-02-28"; VStr "Rice"; VInt 1; VStr "Food"; VInt 120].

Definition legacy_ledger : worksheet :=
  [[VStr col_date; VStr col_name; VStr col_quantity; VStr col_category;
    VStr col_amount];
   old_line].

(** U+3000, the ideographic space. *)
Definition ideographic_space : string :=
  String (ascii_of_nat 227) (String (ascii_of_nat 128)
    (String (ascii_of_nat 128) EmptyString)).

(** A corrected line whose name is one ideographic space, and one whose
    amount is 10 to the power 30. *)
Definition wide_space_line : edited_row :=
  {| e_date := Some "2024-03-01"; e_name := Some ideographic_space;
     e_quantity := Some (1 # 1)%Q; e_category := Some "Food";
     e_amount := Some (80 # 1)%Q |}.

Definition huge_amount_line : edited_row :=
  {| e_date := Some "2024-03-01"; e_name := Some "Gold";
     e_quantity := Some (1 # 1)%Q; e_category := Some "Food";
     e_amount := Some (inject_Z (10 ^ 30)) |}.

(** The groups of a series are in strictly ascending order of the month. *)
Definition ascending (s : list (period * Z)) : Prop :=
  StronglySorted (fun a b => period_ltb (fst a) (fst b) = true) s.

(** The first user's sheet before the avatar column existed. *)
Definition old_users_sheet : worksheet :=
  [[VStr "username"; VStr "hashed_password"]; [VStr "amy"; VStr "5e88"]].


Definition amy_row (nm : string) (y m d a : Z) : ledger_row :=
  {| date := {| year := y; month := m; day := d |}; name := VStr nm;
     quantity := 1; amount := a; owner := VStr "Amy"; fields := [] |}.


(** A stand-in for the digest in the examples. *)
Definition toy_hash (password : string) : string := "sha:" ++ password.

Definition amy_users : spreadsheet :=
  {| users_ws := Some [users_header;
                       [VStr "Amy"; VStr "sha:secret"; VStr ""]];
     data_ws := Some [ledger_header] |}.

(** The ledger of the next example. *)
Definition header_name_ledger : worksheet :=
  [ledger_header;
   [VStr "2024-03-01"; VStr "Milk"; VInt 2; VStr "Food"; VInt 80;
    VStr "username"];
   [VStr "2024-03-02"; VStr "Tea"; VInt 1; VStr "Food"; VInt 35; VStr "amy"];
   [VStr "2024-03-03"; VStr "Rice"; VInt 1; VStr "Food"; VInt 120;
    VStr "username"]].

(** A user registered under the name of the first header cell, with two
    lines in the ledger, next to a second user with one line. *)
Definition header_name_book : spreadsheet :=
  {| users_ws := Some [users_header;
                       [VStr "username"; VStr "sha:secret"; VStr ""];
                       [VStr "amy"; VStr "sha:other"; VStr ""]];
     data_ws := Some header_name_ledger |}.


(** ** Further functions of the program *)

(** [crop_to_square(image)]: the box handed to [image.crop], from the size
    of the picture.  The halves are exact. *)
Record box : Type := {
  box_left : Q;
  box_top : Q;
  box_right : Q;
  box_bottom : Q
}.

Definition crop_to_square (width height : Z) : box :=
  let new_size := Z.min width height in
  {| box_left := (inject_Z (width - new_size) / inject_Z 2)%Q;
     box_top := (inject_Z (height - new_size) / inject_Z 2)%Q;
     box_right := (inject_Z (width + new_size) / inject_Z 2)%Q;
     box_bottom := (inject_Z (height + new_size) / inject_Z 2)%Q |}.

(** The pattern of [re.sub] in [parse_with_gemini]: at a position of the
    text, the length of what the pattern [```json\n?|```] matches there,
    [0] when it does not match. *)
Definition newline : string := String (ascii_of_nat 10) EmptyString.

Definition fence_at (s : string) : nat :=
  if String.prefix ("```json" ++ newline) s then 8
  else if String.prefix "```json" s then 7
  else if String.prefix "```" s then 3
  else 0.

(** One pass over the text, left to right: a match is left out and the
    scan goes on behind it; [skip] counts the characters of the current
    match that are still to be left out. *)
Fixpoint sub_fences_from (skip : nat) (s : string) : string :=
  match s with
  | EmptyString => EmptyString
  | String c t =>
      match skip with
      | S k => sub_fences_from k t
      | O =>
          match fence_at s with
          | O => String c (sub_fences_from 0 t)
          | S k => sub_fences_from k t
          end
      end
  end.

(** [re.sub(r'```json\n?|```', '', response.text.strip())]. *)
Definition cleaned_response (text : string) : string :=
  sub_fences_from 0 (Py.strip text).

(** Some cell of the text is a backquote. *)
Fixpoint has_backquote (s : string) : bool :=
  match s with
  | EmptyString => false
  | String c t => orb (Ascii.eqb c "`") (has_backquote t)
  end.

(** The text contains three backquotes in a row. *)
Fixpoint has_fence (s : string) : bool :=
  match s with
  | EmptyString => false
  | String c t => orb (String.prefix "```" s) (has_fence t)
  end.

(** The picture handed to [update_user]: none, one that could not be
    processed, or its encoding. *)
Inductive avatar_input : Type :=
| NoAvatar
| AvatarFailed
| Avatar (avatar_base64 : string).

Inductive update_outcome : Type :=
| UpdateNotConnected   (* "資料庫連線失敗" *)
| UpdateNotFound       (* "找不到該使用者" *)
| UpdateRaised         (* no answer: an [AttributeError] leaves the call *)
| UpdateAvatarFailed   (* "頭像更新失敗" *)
| Updated.             (* "帳戶資料更新成功！" *)

Section Update.

Variable hash_password : string -> string.

(** [update_user(username, new_password, new_avatar_file)].  When [find]
    returns [None] nothing is raised inside the [try], and [cell.row], which
    comes after it, raises [AttributeError]: the answer of the handler,
    [UpdateNotFound], is never given. *)
Definition update_user (sheet : option spreadsheet) (u : string)
    (new_password : option string) (new_avatar_file : avatar_input)
  : option spreadsheet * update_outcome :=
  match sheet with
  | None => (None, UpdateNotConnected)
  | Some sh =>
      let '(sh1, users) := get_users_worksheet sh in
      match Worksheet.find users u with
      | None => (Some sh1, UpdateRaised)
      | Some (row_index, _) =>
          match new_avatar_file with
          | AvatarFailed => (Some sh1, UpdateAvatarFailed)
          | _ =>
              let users1 :=
                match new_avatar_file with
                | Avatar avatar_base64 =>
                    Worksheet.update_cell users row_index 3 (VStr avatar_base64)
                | _ => users
                end in
              let users2 :=
                match new_password with
                | Some p =>
                    if Py.truthy (VStr p)
                    then Worksheet.update_cell users1 row_index 2
                           (VStr (hash_password p))
                    else users1
                | None => users1
                end in
              (Some (set_users sh1 users2), Updated)
          end
      end
  end.

End Update.

(** The order in which [groupby] puts the keys of a text column that also
    holds numbers: the numbers first, in their order, then the texts, in
    theirs. *)
Definition value_ltb (a b : value) : bool :=
  match a, b with
  | VInt x, VInt y => Z.ltb x y
  | VInt _, VStr _ => true
  | VStr _, VInt _ => false
  | VStr x, VStr y => String.ltb x y
  end.

Fixpoint add_to_category (k : value) (v : Z) (groups : list (value * Z))
  : list (value * Z) :=
  match groups with
  | [] => [(k, add64 0 v)]
  | (k', s) :: t =>
      if value_eqb k k' then (k', add64 s v) :: t
      else if value_ltb k k' then (k, add64 0 v) :: groups
      else (k', s) :: add_to_category k v t
  end.

(** The column [類別] of a frame; [None] when a line has no such column
    ([KeyError]). *)
Fixpoint category_column (df : list ledger_row) : option (list value) :=
  match df with
  | [] => Some []
  | r :: t =>
      match Py.get col_category (fields r), category_column t with
      | Some c, Some cs => Some (c :: cs)
      | _, _ => None
      end
  end.

(** [df[df['月份'] == selected_month]]. *)
Definition month_df (df : list ledger_row) (selected_month : period)
  : list ledger_row :=
  filter (fun r => period_eqb (month_of r) selected_month) df.

(** [month_df.groupby('類別')['金額'].sum()]. *)
Definition category_summary (df : list ledger_row) (selected_month : period)
  : option (list (value * Z)) :=
  let rows := month_df df selected_month in
  match category_column rows with
  | Some cs =>
      Some (fold_left (fun groups kv => add_to_category (fst kv) (snd kv) groups)
                      (combine cs (map amount rows)) [])
  | None => None
  end.

(** Put a month into a list kept in descending order. *)
Fixpoint insert_desc (p : period) (l : list period) : list period :=
  match l with
  | [] => [p]
  | q :: t => if period_ltb p q then q :: insert_desc p t else p :: l
  end.

(** [df['月份'].unique()]: the months in the order they are first met. *)
Fixpoint unique_periods (seen : list period) (l : list period) : list period :=
  match l with
  | [] => []
  | p :: t =>
      if existsb (period_eqb p) seen then unique_periods seen t
      else p :: unique_periods (p :: seen) t
  end.

(** [sorted(df['月份'].unique(), reverse=True)]. *)
Definition unique_months (df : list ledger_row) : list period :=
  fold_right insert_desc [] (unique_periods [] (map month_of df)).


(** The records every account function reads: those of the Users sheet as
    [get_users_worksheet] hands it back. *)
Definition user_records (sh : spreadsheet) : list Py.dict :=
  Worksheet.get_all_records (snd (get_users_worksheet sh)).

(** The name of a record as the program compares it. *)
Definition lowered_name (user : Py.dict) : string :=
  Py.lower (Py.str_opt (Py.get "username" user)).

(** The condition of the loop of [check_login]. *)
Definition credentials_match (u hashed : string) (user : Py.dict) : Prop :=
  lowered_name user = Py.lower u /\
  Py.get "hashed_password" user = Some (VStr hashed).

(** No two records have the same name up to the case of letters, and none
    has the name of the administrator. *)
Definition well_named (users : list Py.dict) : Prop :=
  NoDup (map lowered_name users) /\
  ~ In (Py.lower ADMIN_USERNAME) (map lowered_name users).


(** A corrected line that the save step keeps: amount, name and quantity
    are not null and the name is not blank. *)
Definition line_is_valid (e : edited_row) : bool :=
  match e_amount e, e_name e, e_quantity e with
  | Some _, Some name, Some _ => negb (String.eqb (Py.strip name) "")
  | _, _, _ => false
  end.

(** A corrected line with a null amount, for the examples. *)
Definition no_amount_line : edited_row :=
  {| e_date := Some "2024-03-01"; e_name := Some "Tea";
     e_quantity := Some (1 # 1)%Q; e_category := Some "Food";
     e_amount := None |}.


(** A list of months in strictly descending order. *)
Definition descending (l : list period) : Prop :=
  StronglySorted (fun a b => period_ltb b a = true) l.


(** An answer with two items, the second without a quantity. *)
Definition two_items : list (string * json) :=
  [("invoice_date", JStr "2024-03-01");
   ("items", JArr [JObj [(col_name, JStr "Milk"); (col_quantity, JNum 2);
                         (col_category, JStr "Food"); (col_amount, JNum 80)];
                   JObj [(col_name, JStr "Tea"); (col_category, JStr "Food");
                         (col_amount, JNum 35)]])].

(** An answer whose item uses other names for its fields. *)
Definition other_names : list (string * json) :=
  [("invoice_date", JStr "2024-03-01");
   ("items", JArr [JObj [("name", JStr "Milk"); ("amount", JNum 80)]])].


(** ** Sheets that are read back as they are modelled *)

(** [get_all_records] hands back a number for a cell whose text [int] or
    [float] accepts, and raises when two names of the header are the same
    or a row is wider than the header.  [str.lower] also changes letters
    beyond the ASCII range.  The definitions below describe the texts and
    the sheets for which none of this comes into play. *)

Definition is_ascii (s : string) : bool :=
  forallb (fun c => Nat.ltb (nat_of_ascii c) 128) (list_ascii_of_string s).

Definition is_letter (c : ascii) : bool :=
  let small := nat_of_ascii (Py.lower_ascii c) in
  andb (Nat.leb 97 small) (Nat.leb small 122).

(** A letter other than [e] and [E], the one letter of a decimal number. *)
Definition is_letter_but_e (c : ascii) : bool :=
  andb (is_letter c) (negb (orb (Ascii.eqb c "e") (Ascii.eqb c "E"))).

(** The text without the sign it starts with, if any. *)
Definition unsigned (s : string) : string :=
  match s with
  | String c t => if orb (Ascii.eqb c "+") (Ascii.eqb c "-") then t else s
  | EmptyString => s
  end.

(** A text that is read back as the text it is: it is ASCII, it has a
    letter other than [e], which no decimal number has, and it is none of
    the words [float] accepts, with or without a sign, white space around
    them, and in whatever case. *)
Definition reads_as_text (s : string) : bool :=
  andb (is_ascii s)
       (andb (existsb is_letter_but_e (list_ascii_of_string s))
             (negb (Py.contains (Py.lower (unsigned (Py.strip s)))
                                ["inf"; "infinity"; "nan"]))).

(** The name of a record is a number, is empty, or is such a text. *)
Definition stored_name_ok (user : Py.dict) : bool :=
  match Py.get "username" user with
  | Some (VStr s) => orb (String.eqb s "") (reads_as_text s)
  | _ => true
  end.

Fixpoint distinct (l : list string) : bool :=
  match l with
  | [] => true
  | k :: t => andb (negb (Py.contains k t)) (distinct t)
  end.

(** A sheet [get_all_records] reads without raising: the names of its
    header are distinct and not blank, and no row is wider than the
    header. *)
Definition readable (ws : worksheet) : bool :=
  match ws with
  | [] => true
  | header :: rows =>
      let keys := map Py.str header in
      andb (distinct keys)
           (andb (negb (Py.contains "" keys))
                 (forallb (fun r => Nat.leb (List.length r) (List.length header))
                          rows))
  end.

(** * Properties *)

(** ** Deduplication *)

Lemma key_in_spec (k : key) (seen : list key) :
  key_in k seen = true <-> In k seen.
Proof.
  unfold key_in. rewrite existsb_exists. split.
  - intros [k' [Hin Hk]]. destruct (key_eq_dec k k'); [subst; exact Hin | discriminate].
  - intros Hin. exists k. split; [exact Hin |].
    destruct (key_eq_dec k k); [reflexivity | contradiction].
Qed.

Lemma key_in_false (k : key) (seen : list key) :
  key_in k seen = false <-> ~ In k seen.
Proof.
  rewrite <- key_in_spec. destruct (key_in k seen); intuition congruence.
Qed.

(** The mask-and-select formulation is the one-pass formulation. *)
Lemma select_duplicated_from (seen : list key) (df : list ledger_row) :
  select df (map negb (duplicated_from seen df)) = dedup_from seen df.
Proof.
  revert seen. induction df as [| r t IH]; intro seen; simpl.
  - reflexivity.
  - destruct (key_in (key_of r) seen); simpl; rewrite IH; reflexivity.
Qed.

Lemma drop_duplicates_dedup (df : list ledger_row) :
  drop_duplicates df = dedup_from [] df.
Proof. apply select_duplicated_from. Qed.

(** Only membership in [seen] matters. *)
Lemma dedup_from_ext (df : list ledger_row) :
  forall s1 s2, (forall k, In k s1 <-> In k s2) ->
                dedup_from s1 df = dedup_from s2 df.
Proof.
  induction df as [| r t IH]; intros s1 s2 Heq; simpl.
  - reflexivity.
  - destruct (key_in (key_of r) s1) eqn:E1; destruct (key_in (key_of r) s2) eqn:E2.
    + apply IH, Heq.
    + apply key_in_spec in E1. apply key_in_false in E2.
      exfalso. apply E2, Heq, E1.
    + apply key_in_spec in E2. apply key_in_false in E1.
      exfalso. apply E1, Heq, E2.
    + f_equal. apply IH. intro k. simpl. rewrite (Heq k). reflexivity.
Qed.

Lemma dedup_from_app (pre post : list ledger_row) :
  forall seen,
    dedup_from seen (pre ++ post) =
    dedup_from seen pre ++ dedup_from (map key_of pre ++ seen) post.
Proof.
  induction pre as [| r t IH]; intro seen; simpl.
  - reflexivity.
  - destruct (key_in (key_of r) seen) eqn:E.
    + rewrite IH. f_equal. apply dedup_from_ext. intro k.
      apply key_in_spec in E. simpl. rewrite !in_app_iff. split.
      * intro H. right. exact H.
      * intros [H | H]; [subst k; right; exact E | exact H].
    + simpl. rewrite IH. f_equal. f_equal. apply dedup_from_ext. intro k.
      simpl. rewrite !in_app_iff. simpl. tauto.
Qed.

Lemma dedup_from_idem (df : list ledger_row) :
  forall seen, dedup_from seen (dedup_from seen df) = dedup_from seen df.
Proof.
  induction df as [| r t IH]; intro seen; simpl.
  - reflexivity.
  - destruct (key_in (key_of r) seen) eqn:E.
    + apply IH.
    + simpl. rewrite E. f_equal. apply IH.
Qed.

Lemma dedup_from_subseq (df : list ledger_row) :
  forall seen, subseq (dedup_from seen df) df.
Proof.
  induction df as [| r t IH]; intro seen; simpl.
  - constructor.
  - destruct (key_in (key_of r) seen); constructor; apply IH.
Qed.

Lemma dedup_from_keys (df : list ledger_row) :
  forall seen k, In k (map key_of (dedup_from seen df)) ->
                 In k (map key_of df) /\ ~ In k seen.
Proof.
  induction df as [| r t IH]; intros seen k; simpl.
  - intros [].
  - destruct (key_in (key_of r) seen) eqn:E.
    + intro H. destruct (IH _ _ H) as [H1 H2]. split; [right; exact H1 | exact H2].
    + simpl. intros [H | H].
      * subst k. split; [left; reflexivity | apply key_in_false, E].
      * destruct (IH _ _ H) as [H1 H2]. split; [right; exact H1 |].
        intro Hs. apply H2. right. exact Hs.
Qed.

Lemma dedup_from_NoDup (df : list ledger_row) :
  forall seen, NoDup (map key_of (dedup_from seen df)).
Proof.
  induction df as [| r t IH]; intro seen; simpl.
  - constructor.
  - destruct (key_in (key_of r) seen) eqn:E.
    + apply IH.
    + simpl. constructor; [| apply IH].
      intro H. apply dedup_from_keys in H. destruct H as [_ H].
      apply H. left. reflexivity.
Qed.

(** C4. Deduplication is idempotent: dropping the duplicates of a frame
    whose duplicates were already dropped gives that frame back. *)
Theorem drop_duplicates_idempotent (df : list ledger_row) :
  drop_duplicates (drop_duplicates df) = drop_duplicates df.
Proof.
  rewrite !drop_duplicates_dedup. apply dedup_from_idem.
Qed.

Section LoaderFacts.

Variable to_datetime : value -> option Date.

Lemma coerce_fields (d : Py.dict) (r : ledger_row) :
  coerce to_datetime d = Some r ->
  Py.get col_name d = Some (name r) /\
  Py.get col_owner d = Some (owner r) /\
  (exists c, Py.get col_date d = Some c /\ to_datetime c = Some (date r)) /\
  (exists c, Py.get col_quantity d = Some c /\ to_numeric c = Some (quantity r)) /\
  (exists c, Py.get col_amount d = Some c /\ to_numeric c = Some (amount r)).
Proof.
  unfold coerce.
  destruct (Py.get col_date d) as [dt |]; [| discriminate].
  destruct (Py.get col_name d) as [nm |]; [| discriminate].
  destruct (Py.get col_quantity d) as [qty |]; [| discriminate].
  destruct (Py.get col_amount d) as [amt |]; [| discriminate].
  destruct (Py.get col_owner d) as [own |]; [| discriminate].
  destruct (to_datetime dt) as [dt' |] eqn:Edt; [| discriminate].
  destruct (to_numeric qty) as [qty' |] eqn:Eqty; [| discriminate].
  destruct (to_numeric amt) as [amt' |] eqn:Eamt; [| discriminate].
  intro H. injection H as <-. simpl.
  repeat split; eauto.
Qed.

(** C3, as the code has it. The loader keeps the name and the owner of a
    line as they were read (no trimming) and coerces its date, quantity and
    amount; two lines are duplicates exactly when these five values agree.
    [drop_duplicates] leaves the lines in their order, leaves no two lines
    with the same key, and keeps a line exactly when no earlier line has its
    key: the lines before it are deduplicated on their own, and the line
    follows them when its key is new. *)
Theorem drop_duplicates_keeps_first_occurrence (df : list ledger_row) :
  (forall d r, coerce to_datetime d = Some r ->
     Py.get col_name d = Some (name r) /\ Py.get col_owner d = Some (owner r) /\
     (exists c, Py.get col_date d = Some c /\ to_datetime c = Some (date r)) /\
     (exists c, Py.get col_quantity d = Some c /\ to_numeric c = Some (quantity r)) /\
     (exists c, Py.get col_amount d = Some c /\ to_numeric c = Some (amount r))) /\
  (forall r1 r2, key_of r1 = key_of r2 <->
     date r1 = date r2 /\ name r1 = name r2 /\ quantity r1 = quantity r2 /\
     amount r1 = amount r2 /\ owner r1 = owner r2) /\
  subseq (drop_duplicates df) df /\
  NoDup (map key_of (drop_duplicates df)) /\
  (forall pre r post, df = pre ++ r :: post ->
     exists post',
       subseq post' post /\
       drop_duplicates df =
         drop_duplicates pre ++
         (if key_in (key_of r) (map key_of pre) then post' else r :: post')).
Proof.
  split; [exact coerce_fields |].
  split.
  { intros r1 r2. unfold key_of. split.
    - intro H. injection H as -> -> -> -> ->. repeat split.
    - intros (-> & -> & -> & -> & ->). reflexivity. }
  rewrite !drop_duplicates_dedup.
  split; [apply dedup_from_subseq |].
  split; [apply dedup_from_NoDup |].
  intros pre r post ->.
  rewrite !drop_duplicates_dedup, dedup_from_app. simpl.
  rewrite app_nil_r.
  destruct (key_in (key_of r) (map key_of pre)).
  - eexists. split; [apply dedup_from_subseq | reflexivity].
  - eexists. split; [apply dedup_from_subseq | reflexivity].
Qed.

Lemma dropna_length (data : list Py.dict) :
  List.length (dropna to_datetime data) <= List.length data.
Proof.
  induction data as [| d t IH]; simpl; [lia |].
  destruct (coerce to_datetime d); simpl; lia.
Qed.

Lemma subseq_length {A : Type} (l1 l2 : list A) :
  subseq l1 l2 -> List.length l1 <= List.length l2.
Proof. induction 1; simpl; lia. Qed.

(** The count the loader reports is the number of lines dropped for a null
    value plus the number of lines dropped as duplicates. *)
Lemma load_data_count (sh : spreadsheet) (ws : worksheet) (d : Py.dict)
      (rest : list Py.dict) :
  data_ws sh = Some ws ->
  Worksheet.get_all_records ws = d :: rest ->
  forallb (fun c => Py.contains c (map fst d)) required_cols = true ->
  let valid := dropna to_datetime (d :: rest) in
  load_data to_datetime (Some sh) =
    (drop_duplicates valid,
     (List.length (d :: rest) - List.length valid)
     + (List.length valid - List.length (drop_duplicates valid))).
Proof.
  intros Hws Hrec Hcols valid. unfold load_data.
  rewrite Hws, Hrec, Hcols. cbn [negb]. fold valid. f_equal.
  pose proof (dropna_length (d :: rest)) as H1. fold valid in H1.
  pose proof (subseq_length _ _ (dedup_from_subseq valid [])) as H2.
  rewrite <- drop_duplicates_dedup in H2. lia.
Qed.

End LoaderFacts.

Lemma drop_duplicates_keeps_first_occurrence_witness :
  (Py.get col_name milk_row.(fields) = Some (VStr "Milk") /\
   Py.get col_owner milk_row.(fields) = Some (VStr "amy")) /\
  (exists post',
     subseq post' [] /\
     drop_duplicates [milk_row; milk_row] = drop_duplicates [milk_row] ++ post').
Proof.
  destruct (drop_duplicates_keeps_first_occurrence iso_datetime
              [milk_row; milk_row]) as (H1 & _ & _ & _ & H5).
  split.
  - destruct (H1 milk_row.(fields) milk_row) as (Hn & Ho & _).
    + vm_compute. reflexivity.
    + split; [exact Hn | exact Ho].
  - destruct (H5 [milk_row] milk_row []) as (post' & Hs & Heq).
    + reflexivity.
    + exists post'. split; [exact Hs | exact Heq].
Defined.

(** C3, as the specification words it, fails: two lines whose names differ
    only in a trailing blank have the same key once texts are trimmed, and
    the loader keeps both. *)
Lemma trimmed_names_are_not_duplicates :
  map spec_key_of (fst (load_data iso_datetime (Some trailing_blank_ledger))) =
    [(march_1, VStr "Milk", 2%Z, 80%Z, VStr "amy");
     (march_1, VStr "Milk", 2%Z, 80%Z, VStr "amy")]
  /\ snd (load_data iso_datetime (Some trailing_blank_ledger)) = 0.
Proof. split; vm_compute; reflexivity. Qed.

(** A ledger that holds the same valid line twice is loaded as one line,
    with a count of one. *)
Example load_data_same_line_twice :
  map key_of (fst (load_data iso_datetime (Some twice_ledger))) =
    [(march_1, VStr "Milk", 2%Z, 80%Z, VStr "amy")]
  /\ snd (load_data iso_datetime (Some twice_ledger)) = 1.
Proof. split; vm_compute; reflexivity. Qed.

(** C6. On a ledger whose only line has a text for its amount the loader
    returns no line and reports a count of one, while no line was dropped
    as a duplicate: the count is taken before the lines with null values
    are dropped. *)
Theorem load_data_counts_null_lines :
  load_data iso_datetime (Some text_amount_ledger) = ([], 1)
  /\ (let valid := dropna iso_datetime
                     (Worksheet.get_all_records
                        [ledger_header;
                         [VStr "2024-03-01"; VStr "Milk"; VInt 2; VStr "Food";
                          VStr "abc"; VStr "amy"]]) in
      List.length valid - List.length (drop_duplicates valid) = 0).
Proof. split; vm_compute; reflexivity. Qed.

(** ** The save step *)

Lemma final_df_to_save_In (owner : value) (edited_df : list edited_row)
      (r : saved_row) :
  In r (final_df_to_save owner edited_df) <->
  exists e, In e edited_df /\ check_row owner e = Some r.
Proof.
  induction edited_df as [| e t IH]; simpl.
  - split; [intros [] | intros (e & [] & _)].
  - destruct (check_row owner e) as [r' |] eqn:E; simpl; rewrite IH.
    + split.
      * intros [<- | (e' & Hin & He)]; [exists e | exists e']; auto.
      * intros (e' & [<- | Hin] & He).
        -- left. congruence.
        -- right. exists e'. auto.
    + split.
      * intros (e' & Hin & He). exists e'. auto.
      * intros (e' & [<- | Hin] & He); [congruence | exists e'; auto].
Qed.

Lemma check_row_Some (owner : value) (e : edited_row) (r : saved_row) :
  check_row owner e = Some r ->
  e_name e = Some (s_name r) /\ Py.strip (s_name r) <> "" /\
  (exists q, e_quantity e = Some q /\ s_quantity r = astype_int q) /\
  (exists a, e_amount e = Some a /\ s_amount r = astype_int a) /\
  s_date r = e_date e /\ s_category r = e_category e /\ s_owner r = owner.
Proof.
  unfold check_row.
  destruct (e_amount e) as [a |]; [| discriminate].
  destruct (e_name e) as [n |]; [| discriminate].
  destruct (e_quantity e) as [q |]; [| discriminate].
  destruct (String.eqb (Py.strip n) "") eqn:E; simpl; [discriminate |].
  intro H. injection H as <-. simpl.
  apply String.eqb_neq in E. repeat split; eauto.
Qed.

Lemma write_rows_cases (ws : worksheet) (values : list row) :
  exists kept, write_rows ws values = kept ++ values /\
               (kept = ws \/ kept = [ledger_header]).
Proof.
  unfold write_rows.
  destruct (orb _ _).
  - exists [ledger_header]. split; [reflexivity | right; reflexivity].
  - exists ws. split; [reflexivity | left; reflexivity].
Qed.

(** C1, as the specification words it, fails: a corrected line with
    quantity 0 and amount 0 and a line with a negative amount pass the
    checks of the save step and are written to the ledger. *)
Lemma lines_out_of_bounds_are_saved :
  save_button (Some fresh_ledger) (VStr "amy") [free_bag; refund] =
    (Some {| users_ws := None;
             data_ws := Some [ledger_header;
                              [VStr "2024-03-01"; VStr "Bag"; VInt 0;
                               VStr "其他"; VInt 0; VStr "amy"];
                              [VStr "2024-03-01"; VStr "Refund"; VInt 1;
                               VStr "其他"; VInt (-5); VStr "amy"]] |},
     Saved)
  /\ ~ Forall line_item_invariant
         (final_df_to_save (VStr "amy") [free_bag; refund]).
Proof.
  split.
  - vm_compute. reflexivity.
  - intro H. inversion H as [| r l Hr _]; subst.
    destruct Hr as (Hq & _). vm_compute in Hq. apply Hq. reflexivity.
Qed.

(** The trimming of the name is that of [str.strip]: a name made of white
    space only, the ideographic space included, is refused.  The cast is
    that of [astype(int)]: an amount that does not fit in 64 bits is stored
    as the smallest 64-bit integer. *)
Example final_df_to_save_examples :
  final_df_to_save (VStr "amy") [wide_space_line] = []
  /\ map to_cells (final_df_to_save (VStr "amy") [huge_amount_line]) =
       [[VStr "2024-03-01"; VStr "Gold"; VInt 1; VStr "Food";
         VInt (-9223372036854775808); VStr "amy"]]
  /\ map to_cells (final_df_to_save (VStr "amy") [milk_line]) =
       [milk_cells "Milk"].
Proof. repeat split; vm_compute; reflexivity. Qed.

(** C1, as the code has it. After a successful save the ledger is what was
    kept of it followed by the lines of [final_df_to_save], and each of
    these comes from a corrected line whose amount, name and quantity are
    not null: its name is the corrected name and is not empty once trimmed,
    its quantity and amount are the corrected numbers cast to 64-bit
    integers, its date and category are the corrected ones, and its owner
    is the user of the page, so it is not empty when that name is not.  No
    bound on the quantity or the amount is part of the check. *)
Theorem save_button_writes_checked_lines
    (sheet : option spreadsheet) (owner : value) (edited_df : list edited_row)
    (sh' : spreadsheet) :
  save_button sheet owner edited_df = (Some sh', Saved) ->
  let final := final_df_to_save owner edited_df in
  (exists sh ws kept,
      sheet = Some sh /\ data_ws sh = Some ws /\
      users_ws sh' = users_ws sh /\
      data_ws sh' = Some (kept ++ map to_cells final) /\
      (kept = ws \/ kept = [ledger_header])) /\
  Forall (fun r =>
            exists e, In e edited_df /\
              e_name e = Some (s_name r) /\ Py.strip (s_name r) <> "" /\
              (exists q, e_quantity e = Some q /\ s_quantity r = astype_int q) /\
              (exists a, e_amount e = Some a /\ s_amount r = astype_int a) /\
              s_date r = e_date e /\ s_category r = e_category e /\
              s_owner r = owner /\
              (Py.truthy owner = true -> Py.truthy (s_owner r) = true))
         final.
Proof.
  intros Hsave. cbv zeta. split.
  - unfold save_button in Hsave.
    destruct edited_df as [| e t]; [discriminate |].
    remember (final_df_to_save owner (e :: t)) as final eqn:Ef.
    destruct final as [| r l]; [discriminate |].
    destruct sheet as [sh |]; [| discriminate].
    destruct (data_ws sh) as [ws |] eqn:Ews; [| discriminate].
    injection Hsave as <-.
    destruct (write_rows_cases ws (map to_cells (r :: l))) as (kept & Hw & Hk).
    exists sh, ws, kept. unfold set_data. cbn [data_ws users_ws].
    cbn [map] in Hw |- *. rewrite Hw. auto.
  - apply Forall_forall. intros r Hin.
    apply final_df_to_save_In in Hin. destruct Hin as (e & Hin & He).
    apply check_row_Some in He.
    destruct He as (Hn & Hs & Hq & Ha & Hd & Hc & Ho).
    exists e. repeat split; auto. intro Ht. rewrite Ho. exact Ht.
Qed.

Lemma save_button_writes_checked_lines_witness :
  save_button (Some fresh_ledger) (VStr "amy") [milk_line] =
    (Some (set_data fresh_ledger [ledger_header; milk_cells "Milk"]), Saved)
  /\ Forall (fun r => Py.strip (s_name r) <> "" /\ s_owner r = VStr "amy")
            (final_df_to_save (VStr "amy") [milk_line]).
Proof.
  split.
  - vm_compute. reflexivity.
  - destruct (save_button_writes_checked_lines (Some fresh_ledger) (VStr "amy")
                [milk_line]
                (set_data fresh_ledger [ledger_header; milk_cells "Milk"]))
      as [_ HF].
    + vm_compute. reflexivity.
    + eapply Forall_impl; [| exact HF].
      intros r (e & _ & _ & Hs & _ & _ & _ & _ & Ho & _). split; assumption.
Defined.

(** ** Worksheet facts *)

Lemma nth_set_nth {A : Type} (d x : A) (n : nat) :
  forall (l : list A) (i : nat),
    nth i (Worksheet.set_nth d n x l) d = if Nat.eqb i n then x else nth i l d.
Proof.
  induction n as [| n IH]; intros l i.
  - destruct l as [| h t]; destruct i as [| i]; simpl; try reflexivity.
    destruct i; reflexivity.
  - destruct l as [| h t]; destruct i as [| i]; simpl; try reflexivity.
    + rewrite IH. destruct (Nat.eqb i n); [reflexivity | destruct i; reflexivity].
    + apply IH.
Qed.

Lemma set_nth_app {A : Type} (d x : A) (h : list A) :
  forall tail, Worksheet.set_nth d (List.length h) x (h ++ tail) = h ++ x :: tl tail.
Proof.
  induction h as [| a h IH]; intro tail; simpl.
  - destruct tail; reflexivity.
  - rewrite IH. reflexivity.
Qed.

Lemma rstrip_blank_split (r : row) :
  exists tail, r = Worksheet.rstrip_blank r ++ tail /\
               Forall (fun v => Worksheet.is_blank v = true) tail.
Proof.
  induction r as [| c t (tail & Heq & Hb)]; simpl.
  - exists []. split; [reflexivity | constructor].
  - destruct (Worksheet.rstrip_blank t) as [| c' t'] eqn:E.
    + destruct (Worksheet.is_blank c) eqn:Ec.
      * exists (c :: tail). simpl in Heq. subst t. split; [reflexivity |].
        constructor; assumption.
      * exists tail. simpl in *. subst t. split; [reflexivity | assumption].
    + exists tail. simpl. rewrite Heq at 1. split; [reflexivity | assumption].
Qed.

Lemma rstrip_blank_blanks (r : row) :
  Forall (fun v => Worksheet.is_blank v = true) r -> Worksheet.rstrip_blank r = [].
Proof.
  induction 1 as [| c t Hc _ IH]; simpl; [reflexivity |].
  rewrite IH, Hc. reflexivity.
Qed.

Lemma rstrip_blank_app (a b : row) :
  Worksheet.rstrip_blank b <> [] ->
  Worksheet.rstrip_blank (a ++ b) = a ++ Worksheet.rstrip_blank b.
Proof.
  intro Hb. induction a as [| x a IH]; simpl; [reflexivity |].
  rewrite IH. destruct (a ++ Worksheet.rstrip_blank b) eqn:E; [| reflexivity].
  apply app_eq_nil in E. destruct E as [_ E]. contradiction.
Qed.

(** The header after [ensure_avatar_column], when the column was missing. *)
Lemma ensure_avatar_column_header (ws : worksheet) :
  Py.contains "avatar_base64" (Worksheet.row_values ws 1) = false ->
  Worksheet.row_values (ensure_avatar_column ws) 1 =
    Worksheet.row_values ws 1 ++ ["avatar_base64"].
Proof.
  intro Hc. unfold ensure_avatar_column. rewrite Hc.
  unfold Worksheet.row_values, Worksheet.update_cell. cbn [Nat.sub].
  rewrite Nat.add_sub.
  rewrite nth_set_nth. cbn [Nat.eqb].
  rewrite length_map.
  destruct (rstrip_blank_split (nth 0 ws [])) as (tail & Heq & Hb).
  rewrite Heq at 2. rewrite set_nth_app.
  assert (Worksheet.rstrip_blank (VStr "avatar_base64" :: tl tail) =
          [VStr "avatar_base64"]) as Ht.
  { simpl. rewrite rstrip_blank_blanks; [reflexivity |].
    destruct tail; simpl; [constructor | inversion Hb; assumption]. }
  rewrite rstrip_blank_app; rewrite Ht; [| discriminate].
  rewrite map_app. reflexivity.
Qed.

(** The cell that receives the new header text was blank. *)
Lemma ensure_avatar_column_target_blank (ws : worksheet) :
  Worksheet.is_blank
    (Worksheet.cell ws 1 (List.length (Worksheet.row_values ws 1) + 1)) = true.
Proof.
  unfold Worksheet.cell, Worksheet.row_values. cbn [Nat.sub].
  rewrite Nat.add_sub, length_map.
  destruct (rstrip_blank_split (nth 0 ws [])) as (tail & Heq & Hb).
  rewrite Heq at 2. rewrite app_nth2, Nat.sub_diag by lia.
  destruct tail as [| v tail]; simpl; [reflexivity |].
  inversion Hb; assumption.
Qed.

(** Every other cell keeps its content. *)
Lemma update_cell_other (ws : worksheet) (r0 c0 : nat) (v : value) (r c : nat) :
  1 <= r0 -> 1 <= c0 -> 1 <= r -> 1 <= c -> (r, c) <> (r0, c0) ->
  Worksheet.cell (Worksheet.update_cell ws r0 c0 v) r c = Worksheet.cell ws r c.
Proof.
  intros Hr0 Hc0 Hr Hc Hne. unfold Worksheet.cell, Worksheet.update_cell.
  rewrite nth_set_nth.
  destruct (Nat.eqb (r - 1) (r0 - 1)) eqn:Er; [| reflexivity].
  apply Nat.eqb_eq in Er. rewrite nth_set_nth.
  destruct (Nat.eqb (c - 1) (c0 - 1)) eqn:Ec.
  - apply Nat.eqb_eq in Ec. exfalso. apply Hne. f_equal; lia.
  - rewrite Er. reflexivity.
Qed.

(** C5, as the specification words it, fails: the lines stored before are
    not always kept.  On a ledger whose header lacks the owner column the
    save step clears the sheet before it writes, and a line stored under
    that header is gone. *)
Lemma stored_lines_are_cleared :
  In old_line legacy_ledger
  /\ write_rows legacy_ledger [milk_cells "Milk"] =
       [ledger_header; milk_cells "Milk"]
  /\ ~ In old_line (write_rows legacy_ledger [milk_cells "Milk"]).
Proof.
  split; [right; left; reflexivity |].
  split; [vm_compute; reflexivity |].
  vm_compute. intros [H | [H | []]]; discriminate H.
Qed.

(** C5, as the code has it. The save step writes the new lines below what
    it keeps of the sheet: the whole sheet, untouched and in its order,
    when the header has the owner column; a fresh header alone, the sheet
    being cleared, when the sheet has no header or its header lacks that
    column.  Adding the avatar column to the Users sheet appends its name
    to the header, writes into a cell that was blank, and changes no other
    cell; a sheet that has the column is left as it is. *)
Theorem write_rows_appends_below (ws : worksheet) (values : list row)
        (users : worksheet) :
  (let header := Worksheet.row_values ws 1 in
   (header <> [] -> Py.contains col_owner header = true ->
    write_rows ws values = ws ++ values) /\
   (header = [] \/ Py.contains col_owner header = false ->
    write_rows ws values = ledger_header :: values)) /\
  (let header := Worksheet.row_values users 1 in
   let users' := ensure_avatar_column users in
   (Py.contains "avatar_base64" header = true -> users' = users) /\
   (Py.contains "avatar_base64" header = false ->
    Worksheet.row_values users' 1 = header ++ ["avatar_base64"] /\
    Worksheet.is_blank (Worksheet.cell users 1 (List.length header + 1)) = true /\
    forall r c, 1 <= r -> 1 <= c -> (r, c) <> (1, List.length header + 1) ->
                Worksheet.cell users' r c = Worksheet.cell users r c)).
Proof.
  cbv zeta. split; [split | split].
  - intros Hne Hc. unfold write_rows. rewrite Hc.
    destruct (Worksheet.row_values ws 1); [contradiction | reflexivity].
  - intros [He | Hc]; unfold write_rows.
    + rewrite He. reflexivity.
    + rewrite Hc. rewrite orb_true_r. reflexivity.
  - intro Hc. unfold ensure_avatar_column. rewrite Hc. reflexivity.
  - intro Hc. split; [apply ensure_avatar_column_header, Hc |].
    split; [apply ensure_avatar_column_target_blank |].
    intros r c Hr Hcc Hne. unfold ensure_avatar_column. rewrite Hc.
    apply update_cell_other; try lia. exact Hne.
Qed.

Lemma write_rows_appends_below_witness :
  write_rows [ledger_header; milk_cells "Milk"] [milk_cells "Tea"] =
    [ledger_header; milk_cells "Milk"; milk_cells "Tea"]
  /\ write_rows [] [milk_cells "Tea"] = [ledger_header; milk_cells "Tea"]
  /\ Worksheet.row_values (ensure_avatar_column old_users_sheet) 1 =
       ["username"; "hashed_password"; "avatar_base64"]
  /\ Worksheet.cell (ensure_avatar_column old_users_sheet) 2 1 = VStr "amy".
Proof.
  destruct (write_rows_appends_below [ledger_header; milk_cells "Milk"]
              [milk_cells "Tea"] old_users_sheet) as [[Ha _] [_ Hb]].
  destruct (write_rows_appends_below [] [milk_cells "Tea"] old_users_sheet)
    as [[_ Hc] _].
  split; [| split; [| split]].
  - apply Ha; [discriminate | reflexivity].
  - apply Hc. left. reflexivity.
  - apply Hb. reflexivity.
  - destruct Hb as (_ & _ & Hcell); [reflexivity |].
    rewrite Hcell; [reflexivity | lia | lia | discriminate].
Defined.

(** ** Recognition *)

(** The guard of line 258.  When the answer of the model is absent, not an
    object, without [items], or with [items] that is empty or counts as
    false, the table offered for correction is one line: today's date, an
    empty name, quantity 1, category "其他", amount 0.  Nothing is raised. *)
Lemma recognise_placeholder (today : string) (parsed_data : option json) :
  unusable parsed_data ->
  recognise today parsed_data =
    Table [{| p_date := Some (JStr today);
              p_name := Some (JStr "");
              p_quantity := Some (JNum 1);
              p_category := Some (JStr "其他");
              p_amount := Some (JNum 0) |}].
Proof.
  intro H. destruct H as [| j Hj | m Hm | m items Hm Hf]; unfold recognise.
  - reflexivity.
  - destruct (negb (json_truthy j)); [reflexivity |].
    destruct j; try reflexivity. exfalso. eapply Hj. reflexivity.
  - destruct (negb (json_truthy (JObj m))); [reflexivity |].
    rewrite Hm. reflexivity.
  - destruct (negb (json_truthy (JObj m))); [reflexivity |].
    rewrite Hm, Hf. reflexivity.
Qed.

Lemma recognise_placeholder_witness :
  recognise "2024-03-05"
    (Some (JObj [("invoice_date", JNull); ("items", JArr [])])) =
    Table [placeholder_row "2024-03-05"].
Proof.
  apply (recognise_placeholder "2024-03-05"
           (Some (JObj [("invoice_date", JNull); ("items", JArr [])]))).
  apply (unusable_zero_items _ (JArr [])); reflexivity.
Defined.

(** C7. An answer that is malformed in its [items] is not turned into the
    placeholder line: the guard of line 258 lets it through, and the page
    raises.  For [{"items": 5}] it is [len] that raises, on line 265; for
    items that carry other names for their fields it is the selection of
    the columns, on line 268. *)
Theorem recognise_raises_on_malformed_items :
  recognise "2024-03-05" (Some (JObj [("items", JNum 5)])) = Raised
  /\ recognise "2024-03-05" (Some (JObj other_names)) = Raised
  /\ recognise "2024-03-05" (Some (JObj [("items", JNum 5)])) <>
       Table [placeholder_row "2024-03-05"].
Proof. repeat split; vm_compute; discriminate || reflexivity. Qed.

(** An answer with one item gives that item, under the date of the
    document. *)
Example recognise_one_item :
  recognise "2024-03-05"
    (Some (JObj [("invoice_date", JStr "2024-03-01");
                 ("items", JArr [JObj [(col_name, JStr "Milk");
                                       (col_quantity, JNum 2);
                                       (col_category, JStr "Food");
                                       (col_amount, JNum 80)]])])) =
    Table [{| p_date := Some (JStr "2024-03-01");
              p_name := Some (JStr "Milk");
              p_quantity := Some (JNum 2);
              p_category := Some (JStr "Food");
              p_amount := Some (JNum 80) |}].
Proof. vm_compute. reflexivity. Qed.

(** ** The owner filter *)

Lemma value_eqb_eq (a b : value) : value_eqb a b = true <-> a = b.
Proof.
  unfold value_eqb. destruct (value_eq_dec a b); split; congruence.
Qed.

Lemma filter_subseq {A : Type} (f : A -> bool) (l : list A) :
  subseq (filter f l) l.
Proof.
  induction l as [| x l IH]; simpl; [constructor |].
  destruct (f x); constructor; exact IH.
Qed.

Section DashboardFacts.

Variable to_datetime : value -> option Date.

Lemma page_dashboard_reads_only (sheet : option spreadsheet) (username : value)
      (search : option (value -> bool)) :
  fst (page_dashboard to_datetime sheet username search) = sheet.
Proof.
  unfold page_dashboard.
  destruct (load_data to_datetime sheet) as [df_all removed].
  destruct df_all as [| r0 df_all]; [reflexivity |].
  destruct (scope_to_owner (r0 :: df_all) username) as [| r df]; [reflexivity |].
  destruct search as [contains |]; [| reflexivity].
  destruct (filter (fun r1 => contains (name r1)) (r :: df)); reflexivity.
Qed.

(** C8. The lines the dashboard works on are exactly the loaded lines
    whose owner is the user's name, the very same value: a line is kept if
    and only if it was loaded with that owner, the kept lines are in their
    order, and a name that differs, be it only in the case of a letter,
    selects none of them.  The page changes neither the spreadsheet nor
    the loaded frame. *)
Theorem scope_to_owner_exact (df_all : list ledger_row) (username : value)
        (sheet : option spreadsheet) (search : option (value -> bool)) :
  (forall r, In r (scope_to_owner df_all username) <->
             In r df_all /\ owner r = username) /\
  subseq (scope_to_owner df_all username) df_all /\
  (forall other, other <> username ->
     Forall (fun r => owner r = username) df_all ->
     scope_to_owner df_all other = []) /\
  fst (page_dashboard to_datetime sheet username search) = sheet /\
  load_data to_datetime (fst (page_dashboard to_datetime sheet username search)) =
    load_data to_datetime sheet.
Proof.
  split; [| split; [| split; [| split]]].
  - intro r. unfold scope_to_owner. rewrite filter_In, value_eqb_eq. reflexivity.
  - apply filter_subseq.
  - intros other Hne Hall. unfold scope_to_owner.
    induction Hall as [| r l Hr _ IH]; simpl; [reflexivity |].
    destruct (value_eqb (owner r) other) eqn:E; [| exact IH].
    apply value_eqb_eq in E. congruence.
  - apply page_dashboard_reads_only.
  - rewrite page_dashboard_reads_only. reflexivity.
Qed.

End DashboardFacts.

Lemma scope_to_owner_exact_witness :
  scope_to_owner [amy_row "Milk" 2024 3 1 80; amy_row "Tea" 2024 4 2 35]
                 (VStr "amy") = []
  /\ scope_to_owner [amy_row "Milk" 2024 3 1 80; amy_row "Tea" 2024 4 2 35]
                    (VStr "Amy") =
     [amy_row "Milk" 2024 3 1 80; amy_row "Tea" 2024 4 2 35].
Proof.
  split; [| reflexivity].
  destruct (scope_to_owner_exact iso_datetime
              [amy_row "Milk" 2024 3 1 80; amy_row "Tea" 2024 4 2 35]
              (VStr "Amy") None None) as (_ & _ & H & _).
  apply H.
  - discriminate.
  - repeat constructor.
Defined.

(** ** Monthly totals *)

Lemma period_eqb_eq (a b : period) : period_eqb a b = true <-> a = b.
Proof.
  destruct a as [ya ma], b as [yb mb]. unfold period_eqb. simpl.
  rewrite andb_true_iff, !Z.eqb_eq. split.
  - intros [-> ->]. reflexivity.
  - intro H. injection H as -> ->. split; reflexivity.
Qed.

Lemma period_ltb_trans (a b c : period) :
  period_ltb a b = true -> period_ltb b c = true -> period_ltb a c = true.
Proof.
  destruct a as [ya ma], b as [yb mb], c as [yc mc]. unfold period_ltb. simpl.
  rewrite !orb_true_iff, !andb_true_iff, !Z.ltb_lt, !Z.eqb_eq. lia.
Qed.

Lemma period_ltb_irrefl (a : period) : period_ltb a a = false.
Proof.
  destruct a as [ya ma]. unfold period_ltb. simpl.
  rewrite Z.ltb_irrefl, Z.eqb_refl, Z.ltb_irrefl. reflexivity.
Qed.

Lemma period_total (a b : period) :
  period_eqb a b = false -> period_ltb a b = false -> period_ltb b a = true.
Proof.
  destruct a as [ya ma], b as [yb mb]. unfold period_eqb, period_ltb. simpl.
  rewrite andb_false_iff, orb_false_iff, andb_false_iff, orb_true_iff,
    andb_true_iff, !Z.eqb_neq, !Z.ltb_ge, !Z.ltb_lt, Z.eqb_eq. lia.
Qed.

Lemma period_eqb_refl (p : period) : period_eqb p p = true.
Proof. apply period_eqb_eq. reflexivity. Qed.

(** *** 64-bit sums *)

Lemma wrap64_add_l (a b : Z) : wrap64 (wrap64 a + b) = wrap64 (a + b).
Proof.
  unfold wrap64.
  replace ((a + 2 ^ 63) mod 2 ^ 64 - 2 ^ 63 + b + 2 ^ 63)%Z
    with ((a + 2 ^ 63) mod 2 ^ 64 + b)%Z by lia.
  rewrite Zplus_mod_idemp_l. do 2 f_equal. lia.
Qed.

Lemma wrap64_add_r (a b : Z) : wrap64 (a + wrap64 b) = wrap64 (a + b).
Proof. rewrite Z.add_comm, wrap64_add_l, Z.add_comm. reflexivity. Qed.

Lemma wrap64_idem (a : Z) : wrap64 (wrap64 a) = wrap64 a.
Proof.
  pose proof (wrap64_add_l a 0) as H. rewrite !Z.add_0_r in H. exact H.
Qed.

Lemma wrap64_small (z : Z) :
  (int64_min <= z <= int64_max)%Z -> wrap64 z = z.
Proof.
  unfold int64_min, int64_max, wrap64. intro H.
  rewrite Z.mod_small; lia.
Qed.

Ltac norm64 :=
  unfold add64;
  repeat (rewrite wrap64_add_l || rewrite wrap64_add_r);
  try (f_equal; lia).

Lemma add64_comm (a b : Z) : add64 a b = add64 b a.
Proof. unfold add64. rewrite Z.add_comm. reflexivity. Qed.

Lemma add64_assoc (a b c : Z) : add64 (add64 a b) c = add64 a (add64 b c).
Proof.
  unfold add64. rewrite wrap64_add_l, wrap64_add_r, Z.add_assoc. reflexivity.
Qed.

Lemma add64_wrapped (a b : Z) : wrap64 (add64 a b) = add64 a b.
Proof. apply wrap64_idem. Qed.

Lemma add64_0_l (a b : Z) : add64 0 (add64 a b) = add64 a b.
Proof. unfold add64 at 1. apply add64_wrapped. Qed.

Lemma add64_0_r (a b : Z) : add64 (add64 a b) 0 = add64 a b.
Proof. rewrite add64_comm. apply add64_0_l. Qed.

Lemma sum64_wrapped (l : list Z) : wrap64 (sum64 l) = sum64 l.
Proof. destruct l as [| a l]; [reflexivity | apply add64_wrapped]. Qed.

Lemma sum64_app (l1 l2 : list Z) :
  sum64 (l1 ++ l2) = add64 (sum64 l1) (sum64 l2).
Proof.
  induction l1 as [| a l1 IH]; simpl.
  - unfold add64. rewrite Z.add_0_l, sum64_wrapped. reflexivity.
  - rewrite IH, add64_assoc. reflexivity.
Qed.

(** Amounts that are not negative and whose plain sum fits are summed
    without wrapping. *)
Lemma sum_nonneg (l : list Z) :
  Forall (fun a => (0 <= a)%Z) l -> (0 <= fold_right Z.add 0 l)%Z.
Proof. induction 1; simpl; lia. Qed.

Lemma sum64_exact (l : list Z) :
  Forall (fun a => (0 <= a)%Z) l ->
  (fold_right Z.add 0 l <= int64_max)%Z ->
  sum64 l = fold_right Z.add 0%Z l.
Proof.
  induction 1 as [| a l Ha Hl IH]; simpl; intro Hmax; [reflexivity |].
  pose proof (sum_nonneg l Hl) as H0.
  rewrite IH by lia. unfold add64. apply wrap64_small.
  unfold int64_min. lia.
Qed.

(** *** The groups *)

Lemma series_sum_add_to_group (k : period) (v : Z) (groups : list (period * Z)) :
  series_sum (add_to_group k v groups) = add64 (series_sum groups) v.
Proof.
  unfold series_sum. induction groups as [| [k' s] t IH]; simpl.
  - norm64.
  - destruct (period_eqb k k'); simpl; [norm64 |].
    destruct (period_ltb k k'); simpl; [norm64 |].
    rewrite IH. norm64.
Qed.

Lemma series_get_above (p : period) (groups : list (period * Z)) :
  Forall (fun b => period_ltb p (fst b) = true) groups ->
  series_get p groups = 0%Z.
Proof.
  induction 1 as [| [k s] t Hk _ IH]; simpl; [reflexivity |].
  simpl in Hk. destruct (period_eqb p k) eqn:E; [| exact IH].
  apply period_eqb_eq in E. subst k. rewrite period_ltb_irrefl in Hk. discriminate.
Qed.

Lemma add_to_group_ascending (k : period) (v : Z) (groups : list (period * Z)) :
  ascending groups -> ascending (add_to_group k v groups).
Proof.
  unfold ascending. induction 1 as [| [k' s] t Ht IH Hall]; simpl.
  - repeat constructor.
  - destruct (period_eqb k k') eqn:Ee.
    + constructor; assumption.
    + destruct (period_ltb k k') eqn:El.
      * constructor; [constructor; assumption |].
        constructor; [exact El |].
        eapply Forall_impl; [| exact Hall].
        intros b Hb. eapply period_ltb_trans; [exact El | exact Hb].
      * constructor; [exact IH |].
        assert (period_ltb k' k = true) as Hk
            by (apply period_total; assumption).
        clear IH Ht. induction Hall as [| [k2 s2] t2 H2 Hall2 IH2]; simpl.
        -- repeat constructor. exact Hk.
        -- destruct (period_eqb k k2); [constructor; [exact H2 | exact Hall2] |].
           destruct (period_ltb k k2).
           ++ constructor; [exact Hk |]. constructor; [exact H2 | exact Hall2].
           ++ constructor; [exact H2 | exact IH2].
Qed.

Lemma series_get_add_to_group (p k : period) (v : Z) (groups : list (period * Z)) :
  ascending groups ->
  series_get p (add_to_group k v groups) =
    if period_eqb p k then add64 (series_get p groups) v else series_get p groups.
Proof.
  unfold ascending. induction 1 as [| [k' s] t Ht IH Hall]; simpl.
  - destruct (period_eqb p k); reflexivity.
  - destruct (period_eqb k k') eqn:Ee.
    + apply period_eqb_eq in Ee. subst k'. simpl.
      destruct (period_eqb p k); reflexivity.
    + destruct (period_ltb k k') eqn:El; simpl.
      * destruct (period_eqb p k) eqn:Ep; [| reflexivity].
        apply period_eqb_eq in Ep. subst p. rewrite Ee.
        rewrite series_get_above; [reflexivity |].
        eapply Forall_impl; [| exact Hall].
        intros b Hb. eapply period_ltb_trans; [exact El | exact Hb].
      * destruct (period_eqb p k') eqn:Ep'.
        -- destruct (period_eqb p k) eqn:Ep; [| reflexivity].
           apply period_eqb_eq in Ep, Ep'. subst.
           rewrite period_eqb_refl in Ee. discriminate.
        -- exact IH.
Qed.

(** Every sum held by a group is a 64-bit integer. *)
Lemma add_to_group_wrapped (k : period) (v : Z) (groups : list (period * Z)) :
  Forall (fun g => wrap64 (snd g) = snd g) groups ->
  Forall (fun g => wrap64 (snd g) = snd g) (add_to_group k v groups).
Proof.
  induction 1 as [| [k' s] t Hs Ht IH]; simpl.
  - repeat constructor. apply add64_wrapped.
  - destruct (period_eqb k k').
    + constructor; [apply add64_wrapped | exact Ht].
    + destruct (period_ltb k k').
      * constructor; [apply add64_wrapped |]. constructor; assumption.
      * constructor; assumption.
Qed.

Lemma series_get_wrapped (p : period) (groups : list (period * Z)) :
  Forall (fun g => wrap64 (snd g) = snd g) groups ->
  wrap64 (series_get p groups) = series_get p groups.
Proof.
  induction 1 as [| [k s] t Hs _ IH]; simpl; [reflexivity |].
  destruct (period_eqb p k); assumption.
Qed.

Lemma monthly_total_from (df : list ledger_row) :
  forall groups,
    ascending groups ->
    Forall (fun g => wrap64 (snd g) = snd g) groups ->
    let result := fold_left (fun g r => add_to_group (month_of r) (amount r) g)
                            df groups in
    ascending result /\
    series_sum result = add64 (series_sum groups) (total_expense df) /\
    forall p, series_get p result =
              add64 (series_get p groups)
                    (total_expense (filter (fun r => period_eqb (month_of r) p) df)).
Proof.
  induction df as [| r t IH]; intros groups Hasc Hw; cbv zeta; simpl.
  - split; [exact Hasc |]. unfold total_expense, add64. simpl. split.
    + rewrite Z.add_0_r. symmetry. apply sum64_wrapped.
    + intro p. rewrite Z.add_0_r. symmetry. apply series_get_wrapped, Hw.
  - destruct (IH (add_to_group (month_of r) (amount r) groups)
                 (add_to_group_ascending _ _ _ Hasc)
                 (add_to_group_wrapped _ _ _ Hw)) as (H1 & H2 & H3).
    split; [exact H1 |]. split.
    + rewrite H2, series_sum_add_to_group. unfold total_expense. simpl.
      apply add64_assoc.
    + intro p. rewrite H3, series_get_add_to_group by exact Hasc.
      destruct (period_eqb p (month_of r)) eqn:E.
      * apply period_eqb_eq in E. subst p. rewrite period_eqb_refl.
        unfold total_expense. simpl. apply add64_assoc.
      * assert (period_eqb (month_of r) p = false) as ->.
        { destruct (period_eqb (month_of r) p) eqn:E'; [| reflexivity].
          apply period_eqb_eq in E'. subst p.
          rewrite period_eqb_refl in E. discriminate. }
        reflexivity.
Qed.

Lemma monthly_total_ascending (df : list ledger_row) :
  ascending (monthly_total df).
Proof. apply (monthly_total_from df [] (SSorted_nil _) (Forall_nil _)). Qed.

Lemma monthly_total_sum (df : list ledger_row) :
  series_sum (monthly_total df) = total_expense df.
Proof.
  destruct (monthly_total_from df [] (SSorted_nil _) (Forall_nil _))
    as (_ & H & _).
  unfold monthly_total. rewrite H. unfold series_sum, add64. simpl.
  apply sum64_wrapped.
Qed.

Lemma monthly_total_of_month (df : list ledger_row) (p : period) :
  series_get p (monthly_total df) =
    total_expense (filter (fun r => period_eqb (month_of r) p) df).
Proof.
  destruct (monthly_total_from df [] (SSorted_nil _) (Forall_nil _))
    as (_ & _ & H).
  unfold monthly_total. rewrite H. unfold add64. simpl.
  apply sum64_wrapped.
Qed.

Lemma add_to_group_keys (k : period) (v : Z) (groups : list (period * Z)) (p : period) :
  In p (map fst (add_to_group k v groups)) <-> p = k \/ In p (map fst groups).
Proof.
  induction groups as [| [k' s] t IH]; simpl.
  - intuition.
  - destruct (period_eqb k k') eqn:E.
    + apply period_eqb_eq in E. subst k'. simpl. intuition.
    + destruct (period_ltb k k'); simpl; [intuition |].
      rewrite IH. intuition.
Qed.

Lemma monthly_total_keys (df : list ledger_row) (p : period) :
  In p (map fst (monthly_total df)) <-> In p (map month_of df).
Proof.
  unfold monthly_total.
  assert (forall groups,
            In p (map fst (fold_left
                             (fun g r => add_to_group (month_of r) (amount r) g)
                             df groups)) <->
            In p (map fst groups) \/ In p (map month_of df)) as H.
  { induction df as [| r t IH]; intro groups; simpl.
    - intuition.
    - rewrite IH, add_to_group_keys. intuition. }
  rewrite H. simpl. intuition.
Qed.

(** Without overflow the sums of the groups are plain sums. *)
Lemma add_to_group_exact (k : period) (v : Z) (groups : list (period * Z)) :
  Forall (fun g => (0 <= snd g)%Z) groups -> (0 <= v)%Z ->
  (fold_right Z.add 0 (map snd groups) + v <= int64_max)%Z ->
  Forall (fun g => (0 <= snd g)%Z) (add_to_group k v groups) /\
  fold_right Z.add 0%Z (map snd (add_to_group k v groups)) =
    (fold_right Z.add 0 (map snd groups) + v)%Z.
Proof.
  intros Hg Hv. induction Hg as [| [k' s] t Hs Ht IH]; simpl; intro Hmax.
  - unfold add64. rewrite wrap64_small by (unfold int64_min; lia).
    split; [repeat constructor; simpl; lia | lia].
  - simpl in Hs.
    assert (0 <= fold_right Z.add 0 (map snd t))%Z as H0.
    { apply sum_nonneg. apply Forall_map. exact Ht. }
    destruct (period_eqb k k'); [| destruct (period_ltb k k')]; simpl.
    + unfold add64. rewrite wrap64_small by (unfold int64_min; lia).
      split; [constructor; [simpl; lia | exact Ht] | lia].
    + unfold add64. rewrite wrap64_small by (unfold int64_min; lia).
      split; [| simpl; lia].
      constructor; [simpl; lia |]. constructor; assumption.
    + destruct IH as [IH1 IH2]; [lia |].
      split; [constructor; assumption | rewrite IH2; lia].
Qed.

Lemma monthly_total_exact (df : list ledger_row) :
  forall groups,
    Forall (fun g => (0 <= snd g)%Z) groups ->
    Forall (fun r => (0 <= amount r)%Z) df ->
    (fold_right Z.add 0 (map snd groups) +
     fold_right Z.add 0 (map amount df) <= int64_max)%Z ->
    fold_right Z.add 0%Z
      (map snd (fold_left (fun g r => add_to_group (month_of r) (amount r) g)
                          df groups)) =
      (fold_right Z.add 0 (map snd groups) +
       fold_right Z.add 0 (map amount df))%Z.
Proof.
  induction df as [| r t IH]; intros groups Hg Hdf Hmax; simpl.
  - lia.
  - inversion Hdf as [| r' t' Hr Ht]; subst. simpl in Hmax.
    assert (0 <= fold_right Z.add 0 (map amount t))%Z as H0.
    { apply sum_nonneg. apply Forall_map. exact Ht. }
    destruct (add_to_group_exact (month_of r) (amount r) groups Hg Hr)
      as [Hg' He]; [lia |].
    rewrite IH; [rewrite He; lia | exact Hg' | exact Ht | rewrite He; lia].
Qed.

(** C9. The monthly totals add up to the total: the sum of the series
    [groupby('月份')['金額'].sum()] is [df['金額'].sum()], both taken as the
    program takes them, on 64-bit integers.  The series has one group for
    each year and month in which a line is dated and no other, in ascending
    order, and the amount of a year and month is the sum of the amounts of
    the lines dated in that year and month.  When no amount is negative and
    their plain sum fits in 64 bits, the total and the sum of the monthly
    totals are that plain sum. *)
Theorem monthly_total_sums_to_total (df : list ledger_row) :
  series_sum (monthly_total df) = total_expense df /\
  ascending (monthly_total df) /\
  (forall y m,
      series_get (y, m) (monthly_total df) =
        total_expense
          (filter (fun r => andb (Z.eqb (year (date r)) y)
                                 (Z.eqb (month (date r)) m)) df)) /\
  (forall y m,
      In (y, m) (map fst (monthly_total df)) <->
      exists r, In r df /\ year (date r) = y /\ month (date r) = m) /\
  (Forall (fun r => (0 <= amount r)%Z) df ->
   (fold_right Z.add 0 (map amount df) <= int64_max)%Z ->
   total_expense df = fold_right Z.add 0%Z (map amount df) /\
   fold_right Z.add 0%Z (map snd (monthly_total df)) =
     fold_right Z.add 0%Z (map amount df)).
Proof.
  split; [| split; [| split; [| split]]].
  - apply monthly_total_sum.
  - apply monthly_total_ascending.
  - intros y m. apply (monthly_total_of_month df (y, m)).
  - intros y m.
    rewrite (monthly_total_keys df (y, m)), in_map_iff. unfold month_of.
    split.
    + intros (r & He & Hin). injection He as <- <-. eauto.
    + intros (r & Hin & <- & <-). eauto.
  - intros Hpos Hmax. split.
    + unfold total_expense. apply sum64_exact; [| exact Hmax].
      apply Forall_map. exact Hpos.
    + unfold monthly_total. rewrite monthly_total_exact; simpl; auto; lia.
Qed.

Lemma monthly_total_sums_to_total_witness :
  monthly_total [amy_row "Tea" 2024 4 2 35; amy_row "Milk" 2024 3 1 80;
                 amy_row "Rice" 2024 4 9 120] =
    [((2024, 3), 80); ((2024, 4), 155)]%Z
  /\ total_expense [amy_row "Tea" 2024 4 2 35; amy_row "Milk" 2024 3 1 80;
                    amy_row "Rice" 2024 4 9 120] = 235%Z.
Proof.
  split; [vm_compute; reflexivity |].
  destruct (monthly_total_sums_to_total
              [amy_row "Tea" 2024 4 2 35; amy_row "Milk" 2024 3 1 80;
               amy_row "Rice" 2024 4 9 120]) as (_ & _ & _ & _ & H).
  destruct H as [H _].
  - repeat constructor; simpl; lia.
  - vm_compute. discriminate.
  - rewrite H. reflexivity.
Defined.

(** A total beyond the largest 64-bit integer wraps around, and so does
    the sum of the monthly totals. *)
Example total_expense_wraps :
  total_expense [amy_row "Gold" 2024 3 1 9223372036854775807;
                 amy_row "Tea" 2024 4 2 1] = (-9223372036854775808)%Z
  /\ monthly_total [amy_row "Gold" 2024 3 1 9223372036854775807;
                    amy_row "Tea" 2024 4 2 1] =
       [((2024, 3), 9223372036854775807); ((2024, 4), 1)]%Z
  /\ series_sum [((2024, 3), 9223372036854775807); ((2024, 4), 1)]%Z =
       (-9223372036854775808)%Z.
Proof. repeat split; vm_compute; reflexivity. Qed.

(** ** Login *)

Section LoginFacts.

Variable hash_password : string -> string.

Lemma check_users_success (users : list Py.dict) (u hashed : string)
      (name : option value) :
  check_users users u hashed = LoginPair true name ->
  exists user,
    In user users /\ name = Py.get "username" user /\
    Py.lower (Py.str_opt (Py.get "username" user)) = Py.lower u /\
    Py.get "hashed_password" user = Some (VStr hashed).
Proof.
  induction users as [| user rest IH]; simpl; [discriminate |].
  destruct (String.eqb (Py.lower (Py.str_opt (Py.get "username" user)))
                       (Py.lower u)) eqn:En; simpl.
  - destruct (Py.get "hashed_password" user) as [v |] eqn:Eh.
    + destruct (value_eqb v (VStr hashed)) eqn:Ev.
      * intro H. injection H as <-. exists user.
        apply String.eqb_eq in En. apply value_eqb_eq in Ev. subst v.
        repeat split; auto.
      * intro H. destruct (IH H) as (user' & Hin & Hrest).
        exists user'. split; [right; exact Hin | exact Hrest].
    + intro H. destruct (IH H) as (user' & Hin & Hrest).
      exists user'. split; [right; exact Hin | exact Hrest].
  - intro H. destruct (IH H) as (user' & Hin & Hrest).
    exists user'. split; [right; exact Hin | exact Hrest].
Qed.

(** C10. A login that succeeds returns the name of a stored record: the
    record's name and the given name agree once both are lowered, its
    digest is the digest of the password, and the name returned is the
    record's own.  The password form stores that returned name, not the
    name it passed in, as the session's user. *)
Theorem check_login_returns_stored_name
    (sheet : option spreadsheet) (u password : string) (st : session)
    (sheet' : option spreadsheet) (name : option value) :
  check_login hash_password sheet u password = (sheet', LoginPair true name) ->
  (exists sh user,
      sheet = Some sh /\
      In user (Worksheet.get_all_records (snd (get_users_worksheet sh))) /\
      name = Py.get "username" user /\
      Py.lower (Py.str_opt (Py.get "username" user)) = Py.lower u /\
      Py.get "hashed_password" user = Some (VStr (hash_password password))) /\
  (selected_user st = Some (VStr u) -> u <> "" ->
   password_form_submit hash_password sheet st password =
     Some (sheet', {| logged_in := true; username := name;
                      selected_user := None |})).
Proof.
  intro Hlogin. split.
  - unfold check_login in Hlogin. destruct sheet as [sh |]; [| discriminate].
    destruct (get_users_worksheet sh) as [sh1 users] eqn:Eg.
    injection Hlogin as _ Hc. apply check_users_success in Hc.
    destruct Hc as (user & Hin & Hrest). exists sh, user.
    rewrite Eg. split; [reflexivity |]. split; [exact Hin | exact Hrest].
  - intros Hsel Hne. unfold password_form_submit. rewrite Hsel.
    assert (Py.truthy (VStr u) = true) as ->.
    { simpl. destruct (String.eqb u "") eqn:E; [| reflexivity].
      apply String.eqb_eq in E. contradiction. }
    rewrite Hlogin. reflexivity.
Qed.

End LoginFacts.

Lemma check_login_returns_stored_name_witness :
  password_form_submit toy_hash (Some amy_users)
    {| logged_in := false; username := None; selected_user := Some (VStr "AMY") |}
    "secret" =
    Some (Some amy_users,
          {| logged_in := true; username := Some (VStr "Amy");
             selected_user := None |}).
Proof.
  destruct (check_login_returns_stored_name toy_hash (Some amy_users) "AMY"
              "secret"
              {| logged_in := false; username := None;
                 selected_user := Some (VStr "AMY") |}
              (Some amy_users) (Some (VStr "Amy"))) as [_ H].
  - vm_compute. reflexivity.
  - apply H; [reflexivity | discriminate].
Defined.

(** ** Deleting a user *)

Lemma zip_fill_keys (keys : list string) :
  forall r, map fst (Worksheet.zip_fill keys r) = keys.
Proof.
  induction keys as [| k ks IH]; intro r; simpl; [reflexivity |].
  destruct r; simpl; rewrite IH; reflexivity.
Qed.

Lemma zip_fill_again (keys : list string) :
  forall r, Worksheet.zip_fill keys (map snd (Worksheet.zip_fill keys r)) =
            Worksheet.zip_fill keys r.
Proof.
  induction keys as [| k ks IH]; intro r; simpl; [reflexivity |].
  destruct r; simpl; rewrite IH; reflexivity.
Qed.

Lemma map_str_VStr (keys : list string) :
  map Py.str (map VStr keys) = keys.
Proof. induction keys; simpl; congruence. Qed.

(** The ledger part of [delete_user]: when it goes through, the records of
    the rewritten sheet are the records that were there, in their order,
    without those whose owner is the given name. *)
Lemma delete_records_filters (data data' : worksheet) (u : string) :
  delete_records data u = Some data' ->
  Worksheet.get_all_records data' =
    rows_not_owned_by u (Worksheet.get_all_records data).
Proof.
  unfold delete_records.
  destruct (Worksheet.get_all_records data) as [| d0 rest0] eqn:Erec.
  { intros [= <-]. rewrite Erec. reflexivity. }
  destruct data as [| header rows]; [discriminate |].
  cbn [Worksheet.get_all_records] in Erec.
  set (keys := map Py.str header) in *.
  assert (forall d, In d (d0 :: rest0) ->
                    exists r, d = Worksheet.zip_fill keys r) as Hall.
  { intros d Hin. rewrite <- Erec in Hin. apply in_map_iff in Hin.
    destruct Hin as (r & <- & _). eauto. }
  assert (forall d, In d (rows_not_owned_by u (d0 :: rest0)) ->
                    exists r, d = Worksheet.zip_fill keys r) as Hshape.
  { intros d Hin. apply filter_In in Hin. apply Hall, Hin. }
  destruct (Py.get col_owner d0); [| discriminate].
  destruct (rows_not_owned_by u (d0 :: rest0)) as [| d rest] eqn:E.
  - intros [= <-]. reflexivity.
  - intros [= <-]. cbn [Worksheet.clear Worksheet.update].
    unfold Worksheet.get_all_records, frame_columns, frame_values.
    destruct (Hshape d (or_introl eq_refl)) as (r & Hd).
    assert (map Py.str (map (fun kv : string * value => VStr (fst kv)) d) = keys)
      as ->.
    { rewrite <- (map_map fst VStr), map_str_VStr, Hd. apply zip_fill_keys. }
    change (map snd d :: map (map snd) rest) with (map (map snd) (d :: rest)).
    rewrite map_map. rewrite <- (map_id (d :: rest)) at 2.
    apply map_ext_in. intros d' Hin. destruct (Hshape d' Hin) as (r' & ->).
    apply zip_fill_again.
Qed.

(** Without a cell that shows the name, nothing is deleted, and no answer
    is given: the call raises. *)
Lemma delete_user_not_found (sh : spreadsheet) (u : string) :
  Worksheet.find (snd (get_users_worksheet sh)) u = None ->
  delete_user (Some sh) u = (Some (fst (get_users_worksheet sh)), DeleteRaised).
Proof.
  intro H. unfold delete_user.
  destruct (get_users_worksheet sh) as [sh1 users]. simpl in *.
  rewrite H. reflexivity.
Qed.

(** C2. The name "username" can be registered.  For the user registered
    under it the deletion goes through and removes that user's lines from
    the ledger, but the row it deletes from the Users sheet is the header
    row: the search for the name stops at the first cell of the sheet.  The
    row with the user's digest is still there, now as the first row. *)
Theorem delete_user_removes_header_row :
  (let book0 := {| users_ws := None; data_ws := Some header_name_ledger |} in
   let book1 := set_users book0
                  [users_header; [VStr "username"; VStr "sha:secret"; VStr ""]] in
   add_user toy_hash (Some book0) "username" "secret" "" =
     (Some book1, Registered)
   /\ add_user toy_hash (Some book1) "amy" "other" "" =
        (Some header_name_book, Registered))
  /\ Worksheet.find [users_header;
                     [VStr "username"; VStr "sha:secret"; VStr ""];
                     [VStr "amy"; VStr "sha:other"; VStr ""]] "username"
     = Some (1, 1)
  /\ delete_user (Some header_name_book) "username" =
       (Some {| users_ws := Some [[VStr "username"; VStr "sha:secret"; VStr ""];
                                  [VStr "amy"; VStr "sha:other"; VStr ""]];
                data_ws := Some [ledger_header;
                                 [VStr "2024-03-02"; VStr "Tea"; VInt 1;
                                  VStr "Food"; VInt 35; VStr "amy"]] |},
        Deleted).
Proof. repeat split; vm_compute; reflexivity. Qed.

(** * Further properties *)

(** ** The avatar crop *)

(** X1. For a picture of non-negative width and height the crop box is the
    centred square whose side is the smaller of the two: it lies inside the
    picture, its width and its height are that side, and the margins left
    and right, and above and below, are equal. *)
Theorem crop_to_square_centred (width height : Z) :
  (0 <= width)%Z -> (0 <= height)%Z ->
  let b := crop_to_square width height in
  let side := inject_Z (Z.min width height) in
  (box_right b - box_left b == side)%Q /\
  (box_bottom b - box_top b == side)%Q /\
  (0 <= box_left b)%Q /\ (box_right b <= inject_Z width)%Q /\
  (0 <= box_top b)%Q /\ (box_bottom b <= inject_Z height)%Q /\
  (box_left b == inject_Z width - box_right b)%Q /\
  (box_top b == inject_Z height - box_bottom b)%Q.
Proof.
  intros Hw Hh. cbv zeta. unfold crop_to_square. cbn [box_left box_top box_right box_bottom].
  assert (inject_Z (Z.min width height) <= inject_Z width)%Q as Hmw
      by (rewrite <- Zle_Qle; lia).
  assert (inject_Z (Z.min width height) <= inject_Z height)%Q as Hmh
      by (rewrite <- Zle_Qle; lia).
  assert (0 <= inject_Z (Z.min width height))%Q as Hm0
      by (change 0%Q with (inject_Z 0); rewrite <- Zle_Qle; lia).
  unfold Z.sub. rewrite !inject_Z_plus, !inject_Z_opp.
  set (w := inject_Z width) in *. set (h := inject_Z height) in *.
  set (m := inject_Z (Z.min width height)) in *.
  change (inject_Z 2) with 2%Q.
  split; [field |]. split; [field |].
  split; [apply Qle_shift_div_l; lra |].
  split; [apply Qle_shift_div_r; lra |].
  split; [apply Qle_shift_div_l; lra |].
  split; [apply Qle_shift_div_r; lra |].
  split; field.
Qed.

Lemma crop_to_square_centred_witness :
  (box_right (crop_to_square 400 300) - box_left (crop_to_square 400 300)
   == 300)%Q
  /\ (box_left (crop_to_square 400 300) == 50)%Q.
Proof.
  destruct (crop_to_square_centred 400 300) as (H1 & _ & _ & _ & _ & _ & H7 & _);
    [lia | lia |].
  split; [exact H1 | reflexivity].
Defined.

(** ** Cleaning the answer of the model *)

Lemma prefix_fence_inv (s : string) :
  String.prefix "```" s = true ->
  exists t, s = String "`" (String "`" (String "`" t)).
Proof.
  destruct s as [| a s]; cbn [String.prefix]; [discriminate |].
  destruct (ascii_dec "`" a) as [<- |]; [| discriminate].
  destruct s as [| b s]; cbn [String.prefix]; [discriminate |].
  destruct (ascii_dec "`" b) as [<- |]; [| discriminate].
  destruct s as [| c s]; cbn [String.prefix]; [discriminate |].
  destruct (ascii_dec "`" c) as [<- |]; [| discriminate].
  intros _. exists s. reflexivity.
Qed.

Lemma fence_at_zero (s : string) :
  fence_at s = 0 -> String.prefix "```" s = false.
Proof.
  unfold fence_at.
  destruct (String.prefix ("```json" ++ newline) s); [discriminate |].
  destruct (String.prefix "```json" s); [discriminate |].
  destruct (String.prefix "```" s); [discriminate | reflexivity].
Qed.

Lemma prefix_longer (p q s : string) :
  String.prefix (p ++ q) s = true -> String.prefix p s = true.
Proof.
  revert s. induction p as [| a p IH]; intro s.
  - destruct s; reflexivity.
  - change (String a p ++ q)%string with (String a (p ++ q))%string.
    destruct s as [| b s]; cbn [String.prefix]; [discriminate |].
    destruct (ascii_dec a b); [apply IH | discriminate].
Qed.

Lemma fence_at_pos (s : string) (k : nat) :
  fence_at s = S k -> String.prefix "```" s = true.
Proof.
  unfold fence_at.
  destruct (String.prefix ("```json" ++ newline) s) eqn:E1.
  { intros _. apply (prefix_longer "```" ("json" ++ newline)). exact E1. }
  destruct (String.prefix "```json" s) eqn:E2.
  { intros _. apply (prefix_longer "```" "json"). exact E2. }
  destruct (String.prefix "```" s); [reflexivity | discriminate].
Qed.

Lemma fence_at_other (c : ascii) (t : string) :
  Ascii.eqb c "`" = false -> fence_at (String c t) = 0.
Proof.
  intro Hc. destruct (fence_at (String c t)) as [| k] eqn:E; [reflexivity |].
  apply fence_at_pos in E. apply prefix_fence_inv in E.
  destruct E as (t' & E). injection E as -> _.
  rewrite Ascii.eqb_refl in Hc. discriminate.
Qed.

Lemma sub_fences_plain (a : string) :
  has_backquote a = false ->
  forall b, sub_fences_from 0 (a ++ b) = (a ++ sub_fences_from 0 b)%string.
Proof.
  induction a as [| c a IH]; intros Ha b.
  - reflexivity.
  - simpl in Ha. apply orb_false_iff in Ha. destruct Ha as [Hc Ha].
    change (String c a ++ b)%string with (String c (a ++ b))%string.
    cbn [sub_fences_from]. rewrite (fence_at_other c (a ++ b)%string Hc).
    rewrite IH by exact Ha. reflexivity.
Qed.

Lemma space_at_backquote (t : string) : Py.space_at (String "`" t) = 0.
Proof. destruct t as [| c2 [| c3 t]]; reflexivity. Qed.

Ltac split_byte_tests :=
  repeat match goal with
         | |- context [Nat.eqb (nat_of_ascii ?c) ?n] =>
             destruct (Nat.eqb (nat_of_ascii c) n)
         | |- context [Nat.leb (nat_of_ascii ?c) ?n] =>
             destruct (Nat.leb (nat_of_ascii c) n)
         | |- context [Nat.leb ?n (nat_of_ascii ?c)] =>
             destruct (Nat.leb n (nat_of_ascii c))
         end.

Lemma space_at_le (s : string) : Py.space_at s <= 3.
Proof.
  destruct s as [| c1 [| c2 [| c3 s]]]; unfold Py.space_at;
    try destruct (Py.is_space c1); try lia.
  - destruct (_ && _)%bool; lia.
  - destruct (_ && _)%bool; [lia |]. destruct (Py.is_space3 _ _ _); lia.
Qed.

Lemma space_at_second_backquote (c1 : ascii) (t : string) :
  Py.space_at (String c1 (String "`" t)) <= 1.
Proof.
  unfold Py.space_at, Py.is_space3. destruct (Py.is_space c1); [lia |].
  change (nat_of_ascii "`") with 96. cbn [Nat.eqb Nat.leb orb].
  destruct t as [| c3 t]; split_byte_tests; cbn [andb orb]; lia.
Qed.

Lemma space_at_third_backquote (c1 c2 : ascii) (t : string) :
  Py.space_at (String c1 (String c2 (String "`" t))) <= 2.
Proof.
  unfold Py.space_at, Py.is_space3. destruct (Py.is_space c1); [lia |].
  change (nat_of_ascii "`") with 96. cbn [Nat.eqb Nat.leb orb].
  split_byte_tests; cbn [andb orb]; lia.
Qed.

(** A text in front of a backquote is not white space up to its end. *)
Lemma spaces_from_backquote (t s : string) (skip : nat) :
  skip <= String.length s ->
  Py.spaces_from skip (s ++ String "`" t) = false.
Proof.
  revert skip. induction s as [| c s IH]; intros skip Hs.
  - simpl in Hs. replace skip with 0 by lia.
    change ("" ++ String "`" t)%string with (String "`" t).
    cbn [Py.spaces_from]. rewrite space_at_backquote. reflexivity.
  - change (String c s ++ String "`" t)%string
      with (String c (s ++ String "`" t))%string.
    cbn [Py.spaces_from]. destruct skip as [| k].
    + destruct (Py.space_at (String c (s ++ String "`" t))) as [| k] eqn:E;
        [reflexivity |].
      apply IH. destruct s as [| c2 [| c3 s]].
      * pose proof (space_at_second_backquote c t) as H.
        change ("" ++ String "`" t)%string with (String "`" t) in E.
        rewrite E in H. simpl. lia.
      * pose proof (space_at_third_backquote c c2 t) as H.
        change (String c2 "" ++ String "`" t)%string
          with (String c2 (String "`" t)) in E.
        rewrite E in H. simpl. lia.
      * pose proof (space_at_le (String c (String c2 (String c3 s) ++ String "`" t)))
          as H.
        rewrite E in H. simpl. lia.
    + apply IH. simpl in Hs. lia.
Qed.

Lemma rstrip_backquote (s : string) :
  Py.rstrip (s ++ "`") = (s ++ "`")%string.
Proof.
  induction s as [| c s IH]; [reflexivity |].
  change (String c s ++ "`")%string with (String c (s ++ "`"))%string.
  cbn [Py.rstrip].
  change (String c (s ++ "`"))%string with (String c s ++ "`")%string at 1.
  rewrite spaces_from_backquote by lia.
  rewrite IH. reflexivity.
Qed.

Lemma lstrip_from_no_backquote (s : string) (skip : nat) :
  has_backquote s = false -> has_backquote (Py.lstrip_from skip s) = false.
Proof.
  revert skip. induction s as [| c s IH]; intros skip H; [reflexivity |].
  pose proof H as H0. simpl in H0. apply orb_false_iff in H0.
  cbn [Py.lstrip_from]. destruct skip as [| k]; [| apply IH, H0].
  destruct (Py.space_at (String c s)); [exact H | apply IH, H0].
Qed.

Lemma rstrip_no_backquote (s : string) :
  has_backquote s = false -> has_backquote (Py.rstrip s) = false.
Proof.
  induction s as [| c s IH]; intro H; [reflexivity |].
  simpl in H. apply orb_false_iff in H. destruct H as [Hc Hs].
  cbn [Py.rstrip]. destruct (Py.spaces_from 0 (String c s)); [reflexivity |].
  simpl. rewrite Hc. apply IH, Hs.
Qed.

Lemma append_assoc (a b c : string) :
  ((a ++ b) ++ c)%string = (a ++ (b ++ c))%string.
Proof. induction a as [| x a IH]; simpl; congruence. Qed.

Lemma append_nil_r (s : string) : (s ++ "")%string = s.
Proof. induction s as [| c s IH]; simpl; congruence. Qed.

Lemma prefix_append (p s : string) : String.prefix p (p ++ s) = true.
Proof.
  induction p as [| a p IH].
  - destruct s; reflexivity.
  - change (String a p ++ s)%string with (String a (p ++ s))%string.
    cbn [String.prefix]. destruct (ascii_dec a a); [exact IH | contradiction].
Qed.

Lemma sub_fences_opening (s : string) :
  sub_fences_from 0 ("```json" ++ newline ++ s) = sub_fences_from 0 s.
Proof.
  assert (fence_at ("```json" ++ newline ++ s) = 8) as E.
  { unfold fence_at.
    change ("```json" ++ newline ++ s)%string
      with (("```json" ++ newline) ++ s)%string.
    rewrite prefix_append. reflexivity. }
  change ("```json" ++ newline ++ s)%string
    with (String "`" ("``json" ++ newline ++ s))%string in *.
  cbn [sub_fences_from]. rewrite E. reflexivity.
Qed.

(** X2. An answer wrapped in a fence, [```json], a line break, the body,
    [```], is cleaned to its body when the body holds no backquote; an
    answer without any backquote is only trimmed. *)
Theorem cleaned_response_unwraps (body : string) :
  has_backquote body = false ->
  cleaned_response ("```json" ++ newline ++ body ++ "```") = body /\
  cleaned_response body = Py.strip body.
Proof.
  intro Hb. split.
  - unfold cleaned_response.
    assert (Py.strip ("```json" ++ newline ++ body ++ "```") =
            ("```json" ++ newline ++ body ++ "```")%string) as ->.
    { unfold Py.strip, Py.lstrip.
      change ("```json" ++ newline ++ body ++ "```")%string
        with (String "`" ("``json" ++ newline ++ body ++ "```"))%string.
      cbn [Py.lstrip_from]. rewrite space_at_backquote.
      change (String "`" ("``json" ++ newline ++ body ++ "```"))%string
        with (("```json" ++ newline) ++ body ++ "``" ++ "`")%string.
      rewrite <- !append_assoc. apply rstrip_backquote. }
    rewrite sub_fences_opening, sub_fences_plain by exact Hb.
    change (sub_fences_from 0 "```") with "".
    apply append_nil_r.
  - unfold cleaned_response.
    assert (forall s, has_backquote s = false ->
                      sub_fences_from 0 s = s) as Hplain.
    { intros s Hs. rewrite <- (append_nil_r s) at 1.
      rewrite sub_fences_plain by exact Hs.
      rewrite append_nil_r. reflexivity. }
    apply Hplain. unfold Py.strip, Py.lstrip.
    apply rstrip_no_backquote, lstrip_from_no_backquote, Hb.
Qed.

(** White space beyond the ASCII range is trimmed as well. *)
Example cleaned_response_wide_space :
  cleaned_response (ideographic_space ++ "{}" ++ ideographic_space) = "{}".
Proof. vm_compute. reflexivity. Qed.

Lemma cleaned_response_unwraps_witness :
  cleaned_response ("```json" ++ newline ++ "{}" ++ "```") = "{}".
Proof.
  apply (cleaned_response_unwraps "{}"). reflexivity.
Defined.

Lemma sub_fences_head (s o : string) :
  sub_fences_from 0 s = String "`" o -> exists t, s = String "`" t.
Proof.
  destruct s as [| c t]; [discriminate |].
  cbn [sub_fences_from]. destruct (fence_at (String c t)) as [| k] eqn:E.
  - intro H. injection H as -> _. eauto.
  - intros _. apply fence_at_pos in E. apply prefix_fence_inv in E.
    destruct E as (t' & ->). eauto.
Qed.

Lemma sub_fences_no_match (c : ascii) (t : string) :
  fence_at (String c t) = 0 ->
  sub_fences_from 0 (String c t) = String c (sub_fences_from 0 t).
Proof. intro E. cbn [sub_fences_from]. rewrite E. reflexivity. Qed.

Lemma fence_at_after_backquote (t : string) :
  fence_at (String "`" t) = 0 -> fence_at t = 0 \/ t = EmptyString.
Proof.
  intro E. destruct (fence_at t) as [| k] eqn:Et; [left; reflexivity |].
  exfalso. apply fence_at_pos in Et. apply prefix_fence_inv in Et.
  destruct Et as (t' & ->). apply fence_at_zero in E.
  change (String "`" (String "`" (String "`" (String "`" t'))))
    with ("```" ++ String "`" t')%string in E.
  rewrite prefix_append in E. discriminate.
Qed.

(** X3. No fence is left in the cleaned text: whatever the answer, the
    text handed to the JSON parser has no three backquotes in a row. *)
Theorem cleaned_response_has_no_fence (text : string) :
  has_fence (cleaned_response text) = false.
Proof.
  unfold cleaned_response. generalize (Py.strip text) as s. clear text.
  intro s. generalize 0 as skip.
  induction s as [| c t IH]; intro skip; [reflexivity |].
  cbn [sub_fences_from]. destruct skip as [| k]; [| apply IH].
  destruct (fence_at (String c t)) as [| k] eqn:E; [| apply IH].
  cbn [has_fence]. rewrite (IH 0), orb_false_r.
  destruct (String.prefix "```" (String c (sub_fences_from 0 t))) eqn:P;
    [| reflexivity].
  exfalso. apply prefix_fence_inv in P. destruct P as (o & P).
  injection P as -> P.
  destruct (sub_fences_head _ _ P) as (t1 & ->).
  destruct (fence_at_after_backquote _ E) as [E1 | E1]; [| discriminate].
  rewrite (sub_fences_no_match _ _ E1) in P. injection P as P.
  destruct (sub_fences_head _ _ P) as (t2 & ->).
  apply fence_at_zero in E.
  change (String "`" (String "`" (String "`" t2)))
    with ("```" ++ t2)%string in E.
  rewrite prefix_append in E. discriminate.
Qed.

(** ** The Users sheet *)

Lemma contains_app (k : string) (l1 l2 : list string) :
  Py.contains k (l1 ++ l2) = orb (Py.contains k l1) (Py.contains k l2).
Proof. unfold Py.contains. apply existsb_app. Qed.

Lemma ensure_avatar_column_has_column (ws : worksheet) :
  Py.contains "avatar_base64"
    (Worksheet.row_values (ensure_avatar_column ws) 1) = true.
Proof.
  destruct (Py.contains "avatar_base64" (Worksheet.row_values ws 1)) eqn:E.
  - unfold ensure_avatar_column. rewrite E. exact E.
  - rewrite ensure_avatar_column_header by exact E.
    rewrite contains_app. apply orb_true_r.
Qed.

Lemma ensure_avatar_column_idempotent (ws : worksheet) :
  ensure_avatar_column (ensure_avatar_column ws) = ensure_avatar_column ws.
Proof.
  unfold ensure_avatar_column at 1.
  rewrite ensure_avatar_column_has_column. reflexivity.
Qed.

Lemma ensure_avatar_column_not_empty (ws : worksheet) :
  ensure_avatar_column ws <> [].
Proof.
  unfold ensure_avatar_column.
  destruct (Py.contains "avatar_base64" (Worksheet.row_values ws 1)) eqn:E.
  - destruct ws; [discriminate E | discriminate].
  - unfold Worksheet.update_cell. cbn [Nat.sub]. destruct ws; discriminate.
Qed.

Lemma get_users_worksheet_again (sh : spreadsheet) :
  get_users_worksheet (fst (get_users_worksheet sh)) = get_users_worksheet sh.
Proof.
  unfold get_users_worksheet. destruct (users_ws sh) as [ws |]; simpl.
  - rewrite ensure_avatar_column_idempotent. reflexivity.
  - reflexivity.
Qed.

Lemma users_sheet_has_column (sh : spreadsheet) :
  Py.contains "avatar_base64"
    (Worksheet.row_values (snd (get_users_worksheet sh)) 1) = true.
Proof.
  unfold get_users_worksheet. destruct (users_ws sh) as [ws |]; simpl.
  - apply ensure_avatar_column_has_column.
  - reflexivity.
Qed.

Lemma users_sheet_stored (sh : spreadsheet) :
  users_ws (fst (get_users_worksheet sh)) = Some (snd (get_users_worksheet sh)) /\
  data_ws (fst (get_users_worksheet sh)) = data_ws sh.
Proof.
  unfold get_users_worksheet. destruct (users_ws sh); split; reflexivity.
Qed.

(** X4. [get_users_worksheet] can be called any number of times: after the
    first call the Users sheet exists, is not empty and has the avatar
    column in its header, a second call changes nothing and hands back the
    same sheet, and the ledger is never touched. *)
Theorem get_users_worksheet_idempotent (sh : spreadsheet) :
  let sh1 := fst (get_users_worksheet sh) in
  let users := snd (get_users_worksheet sh) in
  get_users_worksheet sh1 = (sh1, users) /\
  users_ws sh1 = Some users /\
  users <> [] /\
  Py.contains "avatar_base64" (Worksheet.row_values users 1) = true /\
  data_ws sh1 = data_ws sh.
Proof.
  cbv zeta. rewrite get_users_worksheet_again.
  unfold get_users_worksheet. destruct (users_ws sh) as [ws |]; simpl.
  - repeat split; auto using ensure_avatar_column_not_empty,
      ensure_avatar_column_has_column.
  - repeat split; try reflexivity; discriminate.
Qed.

(** ** Registration and login *)

Lemma check_condition_spec (u hashed : string) (user : Py.dict) :
  andb (String.eqb (Py.lower (Py.str_opt (Py.get "username" user))) (Py.lower u))
       (match Py.get "hashed_password" user with
        | Some v => value_eqb v (VStr hashed)
        | None => false
        end) = true <-> credentials_match u hashed user.
Proof.
  unfold credentials_match, lowered_name.
  rewrite andb_true_iff, String.eqb_eq.
  destruct (Py.get "hashed_password" user) as [v |].
  - rewrite value_eqb_eq. split; intros [H1 H2]; split; congruence.
  - split; intros [_ H]; discriminate.
Qed.

Lemma check_users_first_match (u hashed : string) (pre : list Py.dict) :
  forall user post,
    (forall x, In x pre -> ~ credentials_match u hashed x) ->
    credentials_match u hashed user ->
    check_users (pre ++ user :: post) u hashed =
      LoginPair true (Py.get "username" user).
Proof.
  induction pre as [| x pre IH]; intros user post Hpre Hm; cbn [app check_users].
  - apply check_condition_spec in Hm. rewrite Hm. reflexivity.
  - destruct (andb _ _) eqn:E.
    + apply check_condition_spec in E. exfalso.
      apply (Hpre x); [left; reflexivity | exact E].
    + apply IH; [| exact Hm]. intros y Hy. apply Hpre. right. exact Hy.
Qed.

Lemma check_users_no_match (u hashed : string) (users : list Py.dict) :
  (forall x, In x users -> ~ credentials_match u hashed x) ->
  check_users users u hashed = LoginPair false None.
Proof.
  induction users as [| x users IH]; intro H; cbn [check_users]; [reflexivity |].
  destruct (andb _ _) eqn:E.
  - apply check_condition_spec in E. exfalso.
    apply (H x); [left; reflexivity | exact E].
  - apply IH. intros y Hy. apply H. right. exact Hy.
Qed.

Lemma header_keys (ws : worksheet) (k : string) (ks : list string) :
  Worksheet.row_values ws 1 = k :: ks ->
  exists header rows more,
    ws = header :: rows /\ map Py.str header = k :: ks ++ more.
Proof.
  unfold Worksheet.row_values. cbn [Nat.sub]. intro H.
  destruct ws as [| header rows]; [discriminate H |].
  cbn [nth] in H.
  destruct (rstrip_blank_split header) as (tail & Heq & _).
  exists header, rows, (map Py.str tail). split; [reflexivity |].
  rewrite Heq at 1. rewrite map_app, H. reflexivity.
Qed.

Lemma get_all_records_append (header : row) (rows : list row) (r : row) :
  Worksheet.get_all_records (Worksheet.append_row (header :: rows) r) =
    Worksheet.get_all_records (header :: rows)
    ++ [Worksheet.zip_fill (map Py.str header) r].
Proof.
  unfold Worksheet.append_row, Worksheet.append_rows. cbn [app].
  unfold Worksheet.get_all_records. rewrite map_app. reflexivity.
Qed.

Lemma name_taken_spec (u : string) (users : list Py.dict) :
  existsb (fun user =>
             String.eqb (Py.lower (Py.str_opt (Py.get "username" user)))
                        (Py.lower u)) users = false <->
  ~ In (Py.lower u) (map lowered_name users).
Proof.
  rewrite <- not_true_iff_false, existsb_exists, in_map_iff.
  unfold lowered_name. split; intros H (x & H1 & H2); apply H; exists x.
  - split; [exact H2 | apply String.eqb_eq; exact H1].
  - split; [apply String.eqb_eq; exact H2 | exact H1].
Qed.

(** The spreadsheet after a registration that went through is in the state
    [get_users_worksheet] leaves. *)
Lemma registered_sheet_is_healed (sh1 : spreadsheet) (header : row)
      (rows : list row) (r : row) :
  Py.contains "avatar_base64" (Worksheet.row_values (header :: rows) 1) = true ->
  get_users_worksheet (set_users sh1 (Worksheet.append_row (header :: rows) r)) =
    (set_users sh1 (Worksheet.append_row (header :: rows) r),
     Worksheet.append_row (header :: rows) r).
Proof.
  intro Hc. unfold get_users_worksheet. cbn [users_ws set_users].
  unfold ensure_avatar_column.
  change (Worksheet.row_values (Worksheet.append_row (header :: rows) r) 1)
    with (Worksheet.row_values (header :: rows) 1).
  rewrite Hc. reflexivity.
Qed.

Lemma NoDup_snoc {A : Type} (l : list A) (x : A) :
  NoDup l -> ~ In x l -> NoDup (l ++ [x]).
Proof.
  induction 1 as [| y l Hy Hl IH]; intro Hx; simpl.
  - constructor; [intros [] | constructor].
  - constructor.
    + rewrite in_app_iff. intros [H | [H | []]]; [exact (Hy H) |].
      apply Hx. left. symmetry. exact H.
    + apply IH. intro H. apply Hx. right. exact H.
Qed.

Lemma forallb_app_true {A : Type} (f : A -> bool) (l1 l2 : list A) :
  forallb f l1 = true -> forallb f l2 = true -> forallb f (l1 ++ l2) = true.
Proof. intros H1 H2. rewrite forallb_app, H1, H2. reflexivity. Qed.

(** A row of three cells fits under a header that has the avatar column
    behind the name and the digest. *)
Lemma readable_append (header : row) (rows : list row) (ks more : list string)
      (r : row) :
  map Py.str header = "username" :: "hashed_password" :: ks ++ more ->
  Py.contains "avatar_base64" ("username" :: "hashed_password" :: ks) = true ->
  List.length r = 3 ->
  readable (header :: rows) = true ->
  readable (Worksheet.append_row (header :: rows) r) = true.
Proof.
  intros Hkeys Hc Hr. unfold Worksheet.append_row, Worksheet.append_rows.
  cbn [app readable]. rewrite !andb_true_iff. intros (H1 & H2 & H3).
  split; [exact H1 |]. split; [exact H2 |].
  apply forallb_app_true; [exact H3 |]. cbn [forallb]. rewrite andb_true_r.
  apply Nat.leb_le. rewrite Hr.
  rewrite <- (length_map Py.str header), Hkeys. cbn [List.length].
  destruct ks as [| k ks]; [discriminate Hc |]. cbn [app List.length]. lia.
Qed.

Section AccountFacts.

Variable hash_password : string -> string.

(** X5. On a Users sheet that is read back as it is modelled, with an ASCII
    name typed and a digest that is read back as a text, a login returns
    the name of the first record whose name agrees with the given one up to
    the case of letters and whose digest is the digest of the password;
    when no record is like that, it returns the pair of [False] and
    [None]. *)
Theorem check_login_first_match (sh : spreadsheet) (u password : string) :
  readable (snd (get_users_worksheet sh)) = true ->
  forallb stored_name_ok (user_records sh) = true ->
  is_ascii u = true ->
  reads_as_text (hash_password password) = true ->
  (forall pre user post,
     user_records sh = pre ++ user :: post ->
     (forall x, In x pre -> ~ credentials_match u (hash_password password) x) ->
     credentials_match u (hash_password password) user ->
     snd (check_login hash_password (Some sh) u password) =
       LoginPair true (Py.get "username" user)) /\
  ((forall x, In x (user_records sh) ->
              ~ credentials_match u (hash_password password) x) ->
   snd (check_login hash_password (Some sh) u password) = LoginPair false None).
Proof.
  intros _ _ _ _. unfold user_records, check_login.
  destruct (get_users_worksheet sh) as [sh1 users]. cbn [snd]. split.
  - intros pre user post -> Hpre Hm. apply check_users_first_match; assumption.
  - apply check_users_no_match.
Qed.

(** X6. Registration keeps the names apart.  On a Users sheet that is read
    back as it is modelled and whose first two columns are the name and the
    digest, for a typed name that is read back as a text: if no two records
    have the same name up to the case of letters, the same holds after
    [add_user], whatever its answer, and the sheet is still read back as it
    is modelled.  A registration adds one record, under the typed name,
    which is not the administrator's; any other answer leaves the records
    as they were. *)
Theorem add_user_keeps_names_apart
    (sh sh' : spreadsheet) (u password avatar_base64 : string)
    (outcome : add_outcome) (ks : list string) :
  Worksheet.row_values (snd (get_users_worksheet sh)) 1 =
    "username" :: "hashed_password" :: ks ->
  readable (snd (get_users_worksheet sh)) = true ->
  forallb stored_name_ok (user_records sh) = true ->
  reads_as_text u = true ->
  NoDup (map lowered_name (user_records sh)) ->
  add_user hash_password (Some sh) u password avatar_base64 = (Some sh', outcome) ->
  NoDup (map lowered_name (user_records sh')) /\
  readable (snd (get_users_worksheet sh')) = true /\
  forallb stored_name_ok (user_records sh') = true /\
  (outcome = Registered ->
   Py.lower u <> Py.lower ADMIN_USERNAME /\
   map lowered_name (user_records sh') =
     map lowered_name (user_records sh) ++ [Py.lower u]) /\
  (outcome <> Registered -> user_records sh' = user_records sh).
Proof.
  intros Hk Hread Hok Hu Hnd Hadd. unfold add_user in Hadd.
  unfold user_records in *.
  pose proof (get_users_worksheet_again sh) as Hagain.
  pose proof (users_sheet_has_column sh) as Hc.
  destruct (get_users_worksheet sh) as [sh1 users] eqn:Eg.
  cbn [fst snd] in *.
  destruct (String.eqb (Py.lower u) (Py.lower ADMIN_USERNAME)) eqn:Ea.
  { injection Hadd as <- <-. rewrite Hagain. cbn [snd].
    repeat split; auto; discriminate. }
  destruct (existsb _ (Worksheet.get_all_records users)) eqn:Et.
  { injection Hadd as <- <-. rewrite Hagain. cbn [snd].
    repeat split; auto; discriminate. }
  injection Hadd as <- <-.
  destruct (header_keys _ _ _ Hk) as (header & rows & more & -> & Hkeys).
  rewrite registered_sheet_is_healed by exact Hc. cbn [snd].
  rewrite get_all_records_append, Hkeys.
  apply name_taken_spec in Et. apply String.eqb_neq in Ea.
  rewrite map_app. cbn [map Worksheet.zip_fill app].
  change (lowered_name (("username", VStr u)
            :: ("hashed_password", VStr (hash_password password))
            :: Worksheet.zip_fill (ks ++ more) [VStr avatar_base64]))
    with (Py.lower u).
  split; [apply NoDup_snoc; assumption |].
  split.
  { apply (readable_append header rows ks more); auto. rewrite <- Hk. exact Hc. }
  split.
  { apply forallb_app_true; [exact Hok |]. cbn [forallb]. rewrite andb_true_r.
    unfold stored_name_ok. cbn [Py.get String.eqb Ascii.eqb Bool.eqb].
    rewrite Hu. apply orb_true_r. }
  split; [intros _; split; [exact Ea | reflexivity] |].
  intro H. contradiction H. reflexivity.
Qed.

End AccountFacts.

Section RegistrationFacts.

Variable hash_password : string -> string.

(** X7. On a Users sheet that is read back as it is modelled and whose
    first two columns are the name and the digest, a registration that went
    through, under a name and with a digest that are read back as texts,
    can be used at once: logging in with the registered name and password
    succeeds and returns the name as registered, and a password with
    another digest is refused. *)
Theorem add_user_then_check_login
    (sh sh' : spreadsheet) (u password avatar_base64 : string)
    (ks : list string) :
  Worksheet.row_values (snd (get_users_worksheet sh)) 1 =
    "username" :: "hashed_password" :: ks ->
  readable (snd (get_users_worksheet sh)) = true ->
  forallb stored_name_ok (user_records sh) = true ->
  reads_as_text u = true ->
  reads_as_text (hash_password password) = true ->
  add_user hash_password (Some sh) u password avatar_base64 =
    (Some sh', Registered) ->
  check_login hash_password (Some sh') u password =
    (Some sh', LoginPair true (Some (VStr u))) /\
  (forall other,
     hash_password other <> hash_password password ->
     check_login hash_password (Some sh') u other =
       (Some sh', LoginPair false None)).
Proof.
  intros Hk _ _ _ _ Hadd. unfold add_user in Hadd.
  pose proof (users_sheet_has_column sh) as Hc.
  destruct (get_users_worksheet sh) as [sh1 users] eqn:Eg.
  cbn [fst snd] in *.
  destruct (String.eqb (Py.lower u) (Py.lower ADMIN_USERNAME)); [discriminate |].
  destruct (existsb _ (Worksheet.get_all_records users)) eqn:Et; [discriminate |].
  injection Hadd as <-.
  destruct (header_keys _ _ _ Hk) as (header & rows & more & -> & Hkeys).
  apply name_taken_spec in Et.
  assert (forall h x, In x (Worksheet.get_all_records (header :: rows)) ->
                      ~ credentials_match u h x) as Hold.
  { intros h x Hx [Hn _]. apply Et. apply in_map_iff. exists x. auto. }
  unfold check_login. rewrite registered_sheet_is_healed by exact Hc.
  rewrite get_all_records_append, Hkeys. cbn [Worksheet.zip_fill].
  split.
  - f_equal. apply check_users_first_match; [apply Hold |].
    split; reflexivity.
  - intros other Hne. f_equal. apply check_users_no_match.
    intros x Hx. apply in_app_iff in Hx. destruct Hx as [Hx | [<- | []]].
    + apply Hold, Hx.
    + intros [_ Hd]. cbn in Hd. injection Hd as Hd. apply Hne. symmetry. exact Hd.
Qed.

End RegistrationFacts.

Lemma check_login_first_match_witness :
  snd (check_login toy_hash (Some amy_users) "amy" "secret") =
    LoginPair true (Some (VStr "Amy"))
  /\ snd (check_login toy_hash (Some amy_users) "amy" "guess") =
       LoginPair false None.
Proof.
  destruct (check_login_first_match toy_hash amy_users "amy" "secret")
    as [H _]; try reflexivity.
  destruct (check_login_first_match toy_hash amy_users "amy" "guess")
    as [_ H']; try reflexivity.
  split.
  - apply (H [] [("username", VStr "Amy"); ("hashed_password", VStr "sha:secret");
                 ("avatar_base64", VStr "")] []).
    + reflexivity.
    + intros x [].
    + split; reflexivity.
  - apply H'. intros x [<- | []] [_ Hd]. discriminate Hd.
Defined.

Lemma add_user_keeps_names_apart_witness :
  NoDup (map lowered_name
           (user_records
              (set_users amy_users
                 [users_header; [VStr "Amy"; VStr "sha:secret"; VStr ""];
                  [VStr "Bob"; VStr "sha:pw"; VStr ""]])))
  /\ map lowered_name
       (user_records
          (set_users amy_users
             [users_header; [VStr "Amy"; VStr "sha:secret"; VStr ""];
              [VStr "Bob"; VStr "sha:pw"; VStr ""]])) = ["amy"; "bob"].
Proof.
  destruct (add_user_keeps_names_apart toy_hash amy_users
              (set_users amy_users
                 [users_header; [VStr "Amy"; VStr "sha:secret"; VStr ""];
                  [VStr "Bob"; VStr "sha:pw"; VStr ""]])
              "Bob" "pw" "" Registered ["avatar_base64"])
    as (H1 & _ & _ & H2 & _); try reflexivity.
  - repeat constructor. intros [].
  - split; [exact H1 |]. destruct (H2 eq_refl) as [_ ->]. reflexivity.
Defined.

Lemma add_user_then_check_login_witness :
  check_login toy_hash
    (Some (set_users amy_users
             [users_header; [VStr "Amy"; VStr "sha:secret"; VStr ""];
              [VStr "Bob"; VStr "sha:pw"; VStr ""]])) "Bob" "pw" =
    (Some (set_users amy_users
             [users_header; [VStr "Amy"; VStr "sha:secret"; VStr ""];
              [VStr "Bob"; VStr "sha:pw"; VStr ""]]),
     LoginPair true (Some (VStr "Bob"))).
Proof.
  apply (add_user_then_check_login toy_hash amy_users _ "Bob" "pw" ""
           ["avatar_base64"]); reflexivity.
Defined.

(** ** Searching the Users sheet *)

Lemma find_in_row_Some (query : string) (r : row) :
  forall c0 c, Worksheet.find_in_row query r c0 = Some c ->
               c0 <= c /\ c - c0 < List.length r /\
               Py.str (nth (c - c0) r blank) = query.
Proof.
  induction r as [| v t IH]; intros c0 c; cbn [Worksheet.find_in_row].
  - discriminate.
  - destruct (String.eqb (Py.str v) query) eqn:E.
    + intros [= <-]. rewrite Nat.sub_diag. apply String.eqb_eq in E.
      cbn [List.length]. repeat split; [lia | lia | exact E].
    + intro H. destruct (IH _ _ H) as (Hle & Hlt & Hs). cbn [List.length].
      split; [lia |]. split; [lia |].
      replace (c - c0) with (S (c - S c0)) by lia. exact Hs.
Qed.

Lemma find_in_row_None (query : string) (r : row) :
  forall c0, Worksheet.find_in_row query r c0 = None ->
             forall v, In v r -> Py.str v <> query.
Proof.
  induction r as [| v t IH]; intros c0; cbn [Worksheet.find_in_row].
  - intros _ v [].
  - destruct (String.eqb (Py.str v) query) eqn:E; [discriminate |].
    intros H w [<- | Hw]; [apply String.eqb_neq, E | eapply IH; eauto].
Qed.

Lemma find_from_Some (query : string) (ws : worksheet) :
  forall r0 r c, Worksheet.find_from query ws r0 = Some (r, c) ->
    r0 <= r /\ r - r0 < List.length ws /\ 1 <= c /\
    Py.str (nth (c - 1) (nth (r - r0) ws []) blank) = query.
Proof.
  induction ws as [| cells rest IH]; intros r0 r c; cbn [Worksheet.find_from].
  - discriminate.
  - destruct (Worksheet.find_in_row query cells 1) as [c' |] eqn:E.
    + intros [= <- <-]. apply find_in_row_Some in E. destruct E as (Hle & _ & Hs).
      rewrite Nat.sub_diag. cbn [List.length nth]. repeat split; try lia. exact Hs.
    + intro H. destruct (IH _ _ _ H) as (H1 & H2 & H3 & H4).
      cbn [List.length]. repeat split; try lia.
      replace (r - r0) with (S (r - S r0)) by lia. exact H4.
Qed.

Lemma find_from_None (query : string) (ws : worksheet) :
  forall r0, Worksheet.find_from query ws r0 = None ->
             forall cells v, In cells ws -> In v cells -> Py.str v <> query.
Proof.
  induction ws as [| cells rest IH]; intros r0; cbn [Worksheet.find_from].
  - intros _ cells v [].
  - destruct (Worksheet.find_in_row query cells 1) as [c' |] eqn:E; [discriminate |].
    intros H cells' v [<- | Hc] Hv.
    + eapply find_in_row_None; eauto.
    + eapply IH; eauto.
Qed.

Lemma find_from_complete (query : string) (ws : worksheet) :
  forall r0, (forall cells v, In cells ws -> In v cells -> Py.str v <> query) ->
             Worksheet.find_from query ws r0 = None.
Proof.
  induction ws as [| cells rest IH]; intros r0 H; cbn [Worksheet.find_from];
    [reflexivity |].
  destruct (Worksheet.find_in_row query cells 1) as [c' |] eqn:E.
  - exfalso. apply find_in_row_Some in E. destruct E as (Hle & Hlt & Hs).
    apply (H cells (nth (c' - 1) cells blank)); [left; reflexivity | | exact Hs].
    apply nth_In. exact Hlt.
  - apply IH. intros cells' v Hc Hv. apply (H cells' v); [right; exact Hc | exact Hv].
Qed.

Lemma find_Some (ws : worksheet) (u : string) (r c : nat) :
  Worksheet.find ws u = Some (r, c) ->
  1 <= r /\ r <= List.length ws /\ 1 <= c /\ Py.str (Worksheet.cell ws r c) = u.
Proof.
  unfold Worksheet.find, Worksheet.cell. intro H.
  apply find_from_Some in H. destruct H as (H1 & H2 & H3 & H4).
  repeat split; try lia. exact H4.
Qed.

Lemma cell_update_cell_same (ws : worksheet) (r c : nat) (v : value) :
  Worksheet.cell (Worksheet.update_cell ws r c v) r c = v.
Proof.
  unfold Worksheet.cell, Worksheet.update_cell.
  rewrite nth_set_nth, Nat.eqb_refl, nth_set_nth, Nat.eqb_refl. reflexivity.
Qed.

(** ** Changing an account *)

Section UpdateFacts.

Variable hash_password : string -> string.

(** X8. [update_user] never touches the ledger, and on the Users sheet it
    writes at most two cells, the second and third of the row where the
    name was found: every other cell keeps its content, a new password puts
    its digest in the second, a new picture its encoding in the third.
    When the name is not found, or the picture could not be processed,
    nothing is written, a new password included. *)
Theorem update_user_writes_two_cells
    (sh sh' : spreadsheet) (u : string) (new_password : option string)
    (new_avatar_file : avatar_input) (outcome : update_outcome) :
  update_user hash_password (Some sh) u new_password new_avatar_file =
    (Some sh', outcome) ->
  let users := snd (get_users_worksheet sh) in
  data_ws sh' = data_ws sh /\
  exists users',
    users_ws sh' = Some users' /\
    (outcome <> Updated -> users' = users) /\
    (outcome = Updated ->
     exists row_index col,
       Worksheet.find users u = Some (row_index, col) /\
       (forall r c, 1 <= r -> 1 <= c ->
                    r <> row_index \/ (c <> 2 /\ c <> 3) ->
                    Worksheet.cell users' r c = Worksheet.cell users r c) /\
       (forall p, new_password = Some p -> p <> "" ->
                  Worksheet.cell users' row_index 2 = VStr (hash_password p)) /\
       (forall a, new_avatar_file = Avatar a ->
                  Worksheet.cell users' row_index 3 = VStr a)).
Proof.
  intro H. cbv zeta. unfold update_user in H.
  destruct (users_sheet_stored sh) as (Hu & Hd).
  destruct (get_users_worksheet sh) as [sh1 users] eqn:Eg. cbn [fst snd] in *.
  destruct (Worksheet.find users u) as [[row_index col] |] eqn:Ef.
  2: { injection H as <- <-. split; [exact Hd |]. exists users.
       split; [exact Hu |]. split; [reflexivity | discriminate]. }
  destruct (find_Some _ _ _ _ Ef) as (Hr & _ & _ & _).
  assert (forall ws r c, 1 <= r -> 1 <= c ->
                         r <> row_index \/ (c <> 2 /\ c <> 3) ->
                         forall k v, (k = 2 \/ k = 3) ->
                         Worksheet.cell (Worksheet.update_cell ws row_index k v) r c =
                         Worksheet.cell ws r c) as Hother.
  { intros ws r c H1 H2 H3 k v Hk. apply update_cell_other; try lia.
    intros [= -> ->]. lia. }
  destruct new_avatar_file as [| | a].
  - (* no picture *)
    destruct new_password as [p |].
    + destruct (Py.truthy (VStr p)) eqn:Et; injection H as <- <-;
        (split; [exact Hd |]); eexists; (split; [reflexivity |]);
        (split; [intro Hn; exfalso; apply Hn; reflexivity |]); intros _;
        exists row_index, col; (split; [reflexivity |]).
      * split; [intros r c H1 H2 H3; apply Hother; auto |].
        split; [intros p' [= <-] _; apply cell_update_cell_same | discriminate].
      * split; [reflexivity |].
        split; [| discriminate]. intros p' [= <-] Hp. exfalso.
        simpl in Et. apply negb_false_iff, String.eqb_eq in Et. contradiction.
    + injection H as <- <-. split; [exact Hd |]. eexists. split; [reflexivity |].
      split; [intro Hn; exfalso; apply Hn; reflexivity |]. intros _.
      exists row_index, col. split; [reflexivity |].
      split; [reflexivity |]. split; discriminate.
  - (* the picture failed *)
    injection H as <- <-. split; [exact Hd |]. exists users.
    split; [exact Hu |]. split; [reflexivity | discriminate].
  - (* a picture *)
    destruct new_password as [p |].
    + destruct (Py.truthy (VStr p)) eqn:Et; injection H as <- <-;
        (split; [exact Hd |]); eexists; (split; [reflexivity |]);
        (split; [intro Hn; exfalso; apply Hn; reflexivity |]); intros _;
        exists row_index, col; (split; [reflexivity |]).
      * split; [intros r c H1 H2 H3; rewrite !Hother; auto |].
        split; [intros p' [= <-] _; apply cell_update_cell_same |].
        intros a' [= <-]. rewrite update_cell_other; try lia.
        -- apply cell_update_cell_same.
        -- intros [= ].
      * split; [intros r c H1 H2 H3; apply Hother; auto |].
        split; [| intros a' [= <-]; apply cell_update_cell_same].
        intros p' [= <-] Hp. exfalso.
        simpl in Et. apply negb_false_iff, String.eqb_eq in Et. contradiction.
    + injection H as <- <-. split; [exact Hd |]. eexists. split; [reflexivity |].
      split; [intro Hn; exfalso; apply Hn; reflexivity |]. intros _.
      exists row_index, col. split; [reflexivity |].
      split; [intros r c H1 H2 H3; apply Hother; auto |].
      split; [discriminate | intros a' [= <-]; apply cell_update_cell_same].
Qed.

End UpdateFacts.

Lemma set_nth_length {A : Type} (d x : A) (n : nat) :
  forall l, List.length l <= List.length (Worksheet.set_nth d n x l).
Proof.
  induction n as [| n IH]; intros [| h t]; simpl; try lia.
  specialize (IH t). lia.
Qed.

Lemma update_cell_below_header (header : row) (rows : list row)
      (r c : nat) (v : value) :
  2 <= r ->
  exists rows',
    Worksheet.update_cell (header :: rows) r c v = header :: rows' /\
    List.length rows <= List.length rows'.
Proof.
  intro Hr. unfold Worksheet.update_cell.
  replace (r - 1) with (S (r - 2)) by lia. cbn [Worksheet.set_nth nth].
  eexists. split; [reflexivity | apply set_nth_length].
Qed.

Lemma record_cells (header : row) (rows : list row) (ks : list string) (i : nat) :
  map Py.str header = "username" :: "hashed_password" :: ks ->
  i < List.length rows ->
  exists d,
    nth_error (Worksheet.get_all_records (header :: rows)) i = Some d /\
    Py.get "username" d = Some (Worksheet.cell (header :: rows) (i + 2) 1) /\
    Py.get "hashed_password" d = Some (Worksheet.cell (header :: rows) (i + 2) 2).
Proof.
  intros Hk Hi. unfold Worksheet.get_all_records. rewrite Hk.
  destruct (nth_error rows i) as [r |] eqn:E.
  2: { apply nth_error_None in E. lia. }
  exists (Worksheet.zip_fill ("username" :: "hashed_password" :: ks) r).
  split; [apply map_nth_error; exact E |].
  unfold Worksheet.cell. replace (i + 2 - 1) with (S i) by lia.
  cbn [nth Nat.sub]. rewrite (nth_error_nth _ _ _ E).
  destruct r as [| v1 [| v2 r]]; split; reflexivity.
Qed.

Lemma check_users_some_match (u hashed : string) (users : list Py.dict) :
  (exists x, In x users /\ credentials_match u hashed x) ->
  exists name, check_users users u hashed = LoginPair true name.
Proof.
  induction users as [| y users IH]; intros (x & Hin & Hm); [destruct Hin |].
  cbn [check_users]. destruct (andb _ _) eqn:E; [eauto |].
  destruct Hin as [<- | Hin].
  - apply check_condition_spec in Hm. congruence.
  - apply IH. eauto.
Qed.

Section PasswordFacts.

Variable hash_password : string -> string.

(** X9. A changed password works at once.  On a Users sheet that is read
    back as it is modelled and whose first two columns are the name and the
    digest, when the first cell showing the name is the name cell of a row
    below the header and the new digest is read back as a text, a
    successful [update_user] with a new password is followed by a
    successful login under that name with the new password, and the name it
    returns agrees with the given one up to the case of letters. *)
Theorem update_user_then_check_login
    (sh sh' : spreadsheet) (u p : string) (new_avatar_file : avatar_input)
    (ks : list string) (row_index : nat) :
  Worksheet.row_values (snd (get_users_worksheet sh)) 1 =
    "username" :: "hashed_password" :: ks ->
  readable (snd (get_users_worksheet sh)) = true ->
  forallb stored_name_ok (user_records sh) = true ->
  is_ascii u = true ->
  reads_as_text (hash_password p) = true ->
  Worksheet.find (snd (get_users_worksheet sh)) u = Some (row_index, 1) ->
  2 <= row_index ->
  p <> "" ->
  update_user hash_password (Some sh) u (Some p) new_avatar_file =
    (Some sh', Updated) ->
  exists name,
    check_login hash_password (Some sh') u p = (Some sh', LoginPair true name) /\
    Py.lower (Py.str_opt name) = Py.lower u.
Proof.
  intros Hk _ _ _ _ Hf Hr Hp Hupd. unfold update_user in Hupd.
  pose proof (users_sheet_has_column sh) as Hc.
  destruct (get_users_worksheet sh) as [sh1 users] eqn:Eg. cbn [fst snd] in *.
  rewrite Hf in Hupd.
  assert (Py.truthy (VStr p) = true) as Ht.
  { simpl. apply negb_true_iff, String.eqb_neq. exact Hp. }
  rewrite Ht in Hupd.
  destruct (header_keys _ _ _ Hk) as (header & rows & more & -> & Hkeys).
  destruct (find_Some _ _ _ _ Hf) as (_ & Hlen & _ & Hname).
  cbn [List.length] in Hlen.
  (* the sheet after the writes *)
  set (users1 := match new_avatar_file with
                 | Avatar a => Worksheet.update_cell (header :: rows) row_index 3 (VStr a)
                 | _ => header :: rows
                 end) in *.
  assert (exists rows1, users1 = header :: rows1 /\
                        List.length rows <= List.length rows1 /\
                        Worksheet.cell users1 row_index 1 =
                        Worksheet.cell (header :: rows) row_index 1) as (rows1 & E1 & L1 & C1).
  { unfold users1. destruct new_avatar_file as [| | a].
    - exists rows. auto.
    - exists rows. auto.
    - destruct (update_cell_below_header header rows row_index 3 (VStr a) Hr)
        as (rows1 & E & L).
      exists rows1. split; [exact E |]. split; [exact L |].
      apply update_cell_other; try lia. intros [= ]. }
  assert (sh' = set_users sh1 (Worksheet.update_cell users1 row_index 2
                                 (VStr (hash_password p)))) as ->.
  { destruct new_avatar_file; [| discriminate Hupd |];
      injection Hupd as <-; reflexivity. }
  rewrite E1 in *.
  destruct (update_cell_below_header header rows1 row_index 2
              (VStr (hash_password p)) Hr) as (rows2 & E2 & L2).
  assert (Worksheet.cell (header :: rows2) row_index 1 =
          Worksheet.cell (header :: rows) row_index 1) as C2.
  { rewrite <- E2, <- C1. apply update_cell_other; try lia. intros [= ]. }
  assert (Worksheet.cell (header :: rows2) row_index 2 = VStr (hash_password p))
    as C3 by (rewrite <- E2; apply cell_update_cell_same).
  rewrite E2.
  (* the record of that row matches *)
  destruct (record_cells header rows2 (ks ++ more) (row_index - 2) Hkeys)
    as (d & Hd & Hdn & Hdh); [lia |].
  replace (row_index - 2 + 2) with row_index in * by lia.
  assert (credentials_match u (hash_password p) d) as Hm.
  { split.
    - unfold lowered_name. rewrite Hdn, C2. cbn [Py.str_opt]. rewrite Hname.
      reflexivity.
    - rewrite Hdh, C3. reflexivity. }
  (* the login *)
  unfold check_login.
  assert (get_users_worksheet (set_users sh1 (header :: rows2)) =
          (set_users sh1 (header :: rows2), header :: rows2)) as ->.
  { unfold get_users_worksheet. cbn [users_ws set_users].
    unfold ensure_avatar_column.
    change (Worksheet.row_values (header :: rows2) 1)
      with (Worksheet.row_values (header :: rows) 1).
    rewrite Hc. reflexivity. }
  destruct (check_users_some_match u (hash_password p)
              (Worksheet.get_all_records (header :: rows2))) as (name & Hn).
  { exists d. split; [eapply nth_error_In; exact Hd | exact Hm]. }
  exists name. rewrite Hn. split; [reflexivity |].
  apply check_users_success in Hn. destruct Hn as (user & _ & -> & Hl & _).
  exact Hl.
Qed.

End PasswordFacts.

Lemma update_user_writes_two_cells_witness :
  exists users',
    users_ws (set_users amy_users
                [users_header; [VStr "Amy"; VStr "sha:new"; VStr ""]]) =
      Some users'
    /\ Worksheet.cell users' 2 1 = VStr "Amy"
    /\ Worksheet.cell users' 2 2 = VStr "sha:new".
Proof.
  destruct (update_user_writes_two_cells toy_hash amy_users
              (set_users amy_users
                 [users_header; [VStr "Amy"; VStr "sha:new"; VStr ""]])
              "Amy" (Some "new") NoAvatar Updated)
    as (_ & users' & Hu & _ & Hw); [reflexivity |].
  exists users'. split; [exact Hu |].
  destruct (Hw eq_refl) as (row_index & col & Hf & Hother & Hp & _).
  injection Hf as <- <-.
  split.
  - rewrite Hother; [reflexivity | lia | lia | right; split; lia].
  - apply (Hp "new"); [reflexivity | discriminate].
Defined.

Lemma update_user_then_check_login_witness :
  exists name,
    check_login toy_hash
      (Some (set_users amy_users
               [users_header; [VStr "Amy"; VStr "sha:new"; VStr ""]]))
      "Amy" "new" =
      (Some (set_users amy_users
               [users_header; [VStr "Amy"; VStr "sha:new"; VStr ""]]),
       LoginPair true name)
    /\ Py.lower (Py.str_opt name) = "amy".
Proof.
  apply (update_user_then_check_login toy_hash amy_users _ "Amy" "new"
           NoAvatar ["avatar_base64"] 2); try reflexivity; try lia.
  discriminate.
Defined.

(** ** Deleting a user, continued *)

(** X10. When [delete_user] reports success on a spreadsheet with a ledger
    that is read back as it is modelled, for a name that is read back as a
    text, the records of the ledger afterwards are the records it had, in
    their order, without those whose owner is exactly the given name: no
    record that is left has that owner, and the lines of every other owner
    are kept as they were. *)
Theorem delete_user_keeps_other_owners
    (sh sh' : spreadsheet) (u : string) (data : worksheet) :
  readable data = true ->
  reads_as_text u = true ->
  delete_user (Some sh) u = (Some sh', Deleted) ->
  data_ws sh = Some data ->
  exists data',
    data_ws sh' = Some data' /\
    Worksheet.get_all_records data' =
      rows_not_owned_by u (Worksheet.get_all_records data) /\
    (forall d, In d (Worksheet.get_all_records data') ->
               In d (Worksheet.get_all_records data) /\
               Py.get col_owner d <> Some (VStr u)) /\
    (forall d, In d (Worksheet.get_all_records data) ->
               Py.get col_owner d <> Some (VStr u) ->
               In d (Worksheet.get_all_records data')).
Proof.
  intros _ _ Hdel Hdata. unfold delete_user in Hdel.
  destruct (users_sheet_stored sh) as (_ & Hd).
  destruct (get_users_worksheet sh) as [sh1 users]. cbn [fst snd] in *.
  destruct (Worksheet.find users u) as [[r c] |]; [| discriminate].
  cbn [data_ws set_users] in Hdel. rewrite Hd, Hdata in Hdel.
  destruct (delete_records data u) as [data' |] eqn:E; [| discriminate].
  injection Hdel as <-. exists data'. split; [reflexivity |].
  pose proof (delete_records_filters _ _ _ E) as Hf. split; [exact Hf |].
  split.
  - intros d Hin. rewrite Hf in Hin. unfold rows_not_owned_by in Hin.
    apply filter_In in Hin. destruct Hin as [Hin Hb]. split; [exact Hin |].
    intro Ho. rewrite Ho in Hb.
    assert (value_eqb (VStr u) (VStr u) = true) as Hv
        by (apply value_eqb_eq; reflexivity).
    rewrite Hv in Hb. discriminate.
  - intros d Hin Hne. rewrite Hf. unfold rows_not_owned_by.
    apply filter_In. split; [exact Hin |].
    destruct (Py.get col_owner d) as [v |]; [| reflexivity].
    destruct (value_eqb v (VStr u)) eqn:Ev; [| reflexivity].
    apply value_eqb_eq in Ev. subst v. contradiction.
Qed.

Lemma delete_user_keeps_other_owners_witness :
  exists data',
    Worksheet.get_all_records data' =
      rows_not_owned_by "username"
        (Worksheet.get_all_records header_name_ledger)
    /\ forall d, In d (Worksheet.get_all_records data') ->
                 Py.get col_owner d <> Some (VStr "username").
Proof.
  destruct (delete_user_keeps_other_owners header_name_book
              {| users_ws := Some [[VStr "username"; VStr "sha:secret"; VStr ""];
                                   [VStr "amy"; VStr "sha:other"; VStr ""]];
                 data_ws := Some [ledger_header;
                                  [VStr "2024-03-02"; VStr "Tea"; VInt 1;
                                   VStr "Food"; VInt 35; VStr "amy"]] |}
              "username" header_name_ledger) as (data' & _ & H & H' & _).
  - reflexivity.
  - reflexivity.
  - vm_compute. reflexivity.
  - reflexivity.
  - exists data'. split; [exact H |]. intros d Hd. apply (H' d Hd).
Defined.

(** X11. The two halves of a deletion are not one step.  When the name is
    found on the Users sheet but the ledger has lines and no owner column,
    [delete_user] reports that the lines could not be deleted, leaves the
    ledger as it was, and has already deleted the row from the Users
    sheet. *)
Theorem delete_user_half_done
    (sh : spreadsheet) (u : string) (data : worksheet) (r c : nat)
    (d : Py.dict) (rest : list Py.dict) :
  Worksheet.find (snd (get_users_worksheet sh)) u = Some (r, c) ->
  data_ws sh = Some data ->
  Worksheet.get_all_records data = d :: rest ->
  Py.contains col_owner (map fst d) = false ->
  delete_user (Some sh) u =
    (Some {| users_ws := Some (Worksheet.delete_rows
                                 (snd (get_users_worksheet sh)) r);
             data_ws := Some data |},
     LedgerDeleteFailed).
Proof.
  intros Hf Hdata Hrec Hcol. unfold delete_user.
  destruct (users_sheet_stored sh) as (_ & Hd).
  destruct (get_users_worksheet sh) as [sh1 users]. cbn [fst snd] in *.
  rewrite Hf. cbn [data_ws set_users]. rewrite Hd, Hdata.
  unfold delete_records. rewrite Hrec.
  assert (Py.get col_owner d = None) as ->.
  { clear -Hcol. induction d as [| [k v] t IH]; [reflexivity |].
    cbn [map fst Py.get] in *. unfold Py.contains in *. cbn [existsb] in Hcol.
    apply orb_false_iff in Hcol. destruct Hcol as [Hk Ht].
    rewrite Hk. apply IH, Ht. }
  unfold set_users. cbn [data_ws]. rewrite Hd, Hdata. reflexivity.
Qed.

(** A ledger that never got the owner column. *)
Lemma delete_user_half_done_witness :
  delete_user
    (Some {| users_ws := Some [users_header; [VStr "amy"; VStr "sha:pw"; VStr ""]];
             data_ws := Some [[VStr col_date; VStr col_name; VStr col_amount];
                              [VStr "2024-03-01"; VStr "Milk"; VInt 80]] |})
    "amy" =
    (Some {| users_ws := Some [users_header];
             data_ws := Some [[VStr col_date; VStr col_name; VStr col_amount];
                              [VStr "2024-03-01"; VStr "Milk"; VInt 80]] |},
     LedgerDeleteFailed).
Proof.
  apply (delete_user_half_done
           {| users_ws := Some [users_header; [VStr "amy"; VStr "sha:pw"; VStr ""]];
              data_ws := Some [[VStr col_date; VStr col_name; VStr col_amount];
                               [VStr "2024-03-01"; VStr "Milk"; VInt 80]] |}
           "amy" _ 2 1
           [(col_date, VStr "2024-03-01"); (col_name, VStr "Milk");
            (col_amount, VInt 80)] []); reflexivity.
Defined.

(** X12. [delete_user] never answers that the user was not found.  When no
    cell of the Users sheet shows the given name, in whatever row or
    column, the call raises instead: no row is deleted and the ledger is
    not read.  When some cell shows the name, a row is deleted and the
    answer is a success or the failure of the ledger half. *)
Theorem delete_user_not_found_iff (sh : spreadsheet) (u : string) :
  (snd (delete_user (Some sh) u) = DeleteRaised <->
   forall cells v, In cells (snd (get_users_worksheet sh)) -> In v cells ->
                   Py.str v <> u) /\
  (snd (delete_user (Some sh) u) = DeleteRaised ->
   fst (delete_user (Some sh) u) = Some (fst (get_users_worksheet sh))) /\
  (forall sheet, snd (delete_user sheet u) <> UserNotFound) /\
  (snd (delete_user (Some sh) u) <> DeleteRaised ->
   snd (delete_user (Some sh) u) = Deleted \/
   snd (delete_user (Some sh) u) = LedgerDeleteFailed).
Proof.
  assert (forall sh0, snd (delete_user (Some sh0) u) = DeleteRaised \/
                      snd (delete_user (Some sh0) u) = Deleted \/
                      snd (delete_user (Some sh0) u) = LedgerDeleteFailed) as Hall.
  { intro sh0. unfold delete_user.
    destruct (get_users_worksheet sh0) as [sh1 users].
    destruct (Worksheet.find users u) as [[r c] |]; [| left; reflexivity].
    destruct (data_ws (set_users sh1 (Worksheet.delete_rows users r)));
      [destruct (delete_records _ u) |]; auto. }
  split; [| split; [| split]].
  - unfold delete_user.
    destruct (get_users_worksheet sh) as [sh1 users]. cbn [fst snd].
    destruct (Worksheet.find users u) as [[r c] |] eqn:Ef.
    + split.
      * destruct (data_ws (set_users sh1 (Worksheet.delete_rows users r)));
          [destruct (delete_records _ u) |]; discriminate.
      * intro Hno. exfalso. unfold Worksheet.find in Ef.
        rewrite (find_from_complete u users 1 Hno) in Ef. discriminate.
    + split; [| reflexivity]. intros _. apply (find_from_None u users 1 Ef).
  - unfold delete_user.
    destruct (get_users_worksheet sh) as [sh1 users]. cbn [fst snd].
    destruct (Worksheet.find users u) as [[r c] |]; [| reflexivity].
    destruct (data_ws (set_users sh1 (Worksheet.delete_rows users r)));
      [destruct (delete_records _ u) |]; discriminate.
  - intros [sh0 |]; [| discriminate].
    destruct (Hall sh0) as [H | [H | H]]; rewrite H; discriminate.
  - intro Hne. destruct (Hall sh) as [H | H]; [contradiction | exact H].
Qed.

Lemma delete_user_not_found_iff_witness :
  delete_user (Some amy_users) "bob" = (Some amy_users, DeleteRaised).
Proof.
  destruct (delete_user_not_found_iff amy_users "bob") as ([_ H] & H' & _).
  assert (snd (delete_user (Some amy_users) "bob") = DeleteRaised) as E.
  { apply H. intros cells v Hc Hv. vm_compute in Hc.
    destruct Hc as [<- | [<- | []]]; vm_compute in Hv;
      repeat (destruct Hv as [<- | Hv]; [discriminate |]); destruct Hv. }
  specialize (H' E).
  destruct (delete_user (Some amy_users) "bob") as [s o]. cbn [fst snd] in *.
  subst. reflexivity.
Defined.

(** ** The save step, continued *)

Lemma check_row_valid (owner : value) (e : edited_row) :
  line_is_valid e = true <-> exists r, check_row owner e = Some r.
Proof.
  unfold line_is_valid, check_row.
  destruct (e_amount e), (e_name e) as [n |], (e_quantity e);
    try (split; [discriminate | intros [r H]; discriminate]).
  destruct (negb (String.eqb (Py.strip n) "")); split; eauto;
    try discriminate. intros [r H]. discriminate.
Qed.

Lemma final_df_to_save_filter (owner : value) (edited_df : list edited_row) :
  Forall2 (fun e r => check_row owner e = Some r)
          (filter line_is_valid edited_df) (final_df_to_save owner edited_df).
Proof.
  induction edited_df as [| e t IH]; cbn [filter final_df_to_save]; [constructor |].
  destruct (check_row owner e) as [r |] eqn:E.
  - assert (line_is_valid e = true) as -> by (apply (check_row_valid owner); eauto).
    constructor; assumption.
  - assert (line_is_valid e = false) as ->.
    { destruct (line_is_valid e) eqn:V; [| reflexivity].
      apply (check_row_valid owner) in V. destruct V as [r V]. congruence. }
    exact IH.
Qed.

(** X13. A line that cannot be saved never holds back the others.  The
    lines written by the save step are, in the order of the table, the
    casts of exactly those corrected lines whose amount, name and quantity
    are not null and whose name is not blank.  With at least one such line
    and a ledger worksheet the save goes through and touches only the
    ledger; with none, nothing is written. *)
Theorem save_button_saves_valid_lines
    (sh : spreadsheet) (ws : worksheet) (owner : value)
    (edited_df : list edited_row) :
  data_ws sh = Some ws ->
  let valid := filter line_is_valid edited_df in
  let final := final_df_to_save owner edited_df in
  Forall2 (fun e r => check_row owner e = Some r) valid final /\
  (valid <> [] ->
   save_button (Some sh) owner edited_df =
     (Some {| users_ws := users_ws sh;
              data_ws := Some (write_rows ws (map to_cells final)) |}, Saved)) /\
  (valid = [] ->
   fst (save_button (Some sh) owner edited_df) = Some sh /\
   snd (save_button (Some sh) owner edited_df) <> Saved).
Proof.
  intros Hws. cbv zeta.
  pose proof (final_df_to_save_filter owner edited_df) as HF.
  split; [exact HF |]. unfold save_button. split.
  - intro Hne. destruct edited_df as [| e t]; [contradiction Hne; reflexivity |].
    destruct (final_df_to_save owner (e :: t)) as [| r l] eqn:Ef.
    + inversion HF as [E |]; subst. contradiction Hne. symmetry. exact E.
    + rewrite Hws. reflexivity.
  - intro He. rewrite He in HF. inversion HF as [E |]; subst.
    destruct edited_df; split; try reflexivity; discriminate.
Qed.

Lemma save_button_saves_valid_lines_witness :
  save_button (Some fresh_ledger) (VStr "amy") [no_amount_line; milk_line] =
    (Some (set_data fresh_ledger [ledger_header; milk_cells "Milk"]), Saved).
Proof.
  destruct (save_button_saves_valid_lines fresh_ledger [ledger_header]
              (VStr "amy") [no_amount_line; milk_line]) as (_ & H & _).
  - reflexivity.
  - rewrite H; [vm_compute; reflexivity | discriminate].
Defined.

Lemma row_values_first_row (header : row) (rows more : list row) :
  Worksheet.row_values ((header :: rows) ++ more) 1 =
    Worksheet.row_values (header :: rows) 1.
Proof. reflexivity. Qed.

(** X14. The header is written at most once.  Whatever the sheet was,
    after one write of the save step its header has the owner column, so a
    second write only adds its lines below everything the first one
    left. *)
Theorem write_rows_twice (ws : worksheet) (first second : list row) :
  write_rows (write_rows ws first) second = write_rows ws first ++ second /\
  Py.contains col_owner (Worksheet.row_values (write_rows ws first) 1) = true.
Proof.
  assert (Py.contains col_owner
            (Worksheet.row_values (write_rows ws first) 1) = true /\
          Worksheet.row_values (write_rows ws first) 1 <> []) as [Hc Hne].
  { unfold write_rows.
    destruct (Worksheet.row_values ws 1) as [| k ks] eqn:Eh.
    - cbn [orb]. split; [reflexivity | discriminate].
    - destruct (Py.contains col_owner (k :: ks)) eqn:Ec; cbn [orb negb].
      + unfold Worksheet.append_rows. destruct ws as [| header rows].
        * discriminate Eh.
        * rewrite row_values_first_row, Eh. split; [exact Ec | discriminate].
      + split; [reflexivity | discriminate]. }
  split; [| exact Hc].
  unfold write_rows at 1. rewrite Hc.
  destruct (Worksheet.row_values (write_rows ws first) 1); [contradiction |].
  reflexivity.
Qed.

(** ** The loader, continued *)

Lemma subseq_In {A : Type} (l1 l2 : list A) (x : A) :
  subseq l1 l2 -> In x l1 -> In x l2.
Proof.
  induction 1 as [| y l1 l2 _ IH | y l1 l2 _ IH]; intro H.
  - exact H.
  - right. apply IH, H.
  - destruct H as [<- | H]; [left; reflexivity | right; apply IH, H].
Qed.

Section LoaderRows.

Variable to_datetime : value -> option Date.

Lemma coerce_keeps_record (d : Py.dict) (r : ledger_row) :
  coerce to_datetime d = Some r -> fields r = d.
Proof.
  unfold coerce.
  destruct (Py.get col_date d) as [dt |]; [| discriminate].
  destruct (Py.get col_name d); [| discriminate].
  destruct (Py.get col_quantity d) as [qty |]; [| discriminate].
  destruct (Py.get col_amount d) as [amt |]; [| discriminate].
  destruct (Py.get col_owner d); [| discriminate].
  destruct (to_datetime dt); [| discriminate].
  destruct (to_numeric qty); [| discriminate].
  destruct (to_numeric amt); [| discriminate].
  intros [= <-]. reflexivity.
Qed.

Lemma dropna_In (data : list Py.dict) (r : ledger_row) :
  In r (dropna to_datetime data) ->
  In (fields r) data /\ coerce to_datetime (fields r) = Some r.
Proof.
  induction data as [| d t IH]; cbn [dropna]; [intros [] |].
  destruct (coerce to_datetime d) as [r' |] eqn:E.
  - intros [<- | H].
    + rewrite (coerce_keeps_record _ _ E). split; [left; reflexivity | exact E].
    + destruct (IH H). split; [right |]; assumption.
  - intro H. destruct (IH H). split; [right |]; assumption.
Qed.

(** X15. What the loader hands to the dashboard, on a ledger sheet that
    [get_all_records] reads without raising (the names of the header
    distinct and not blank, no row wider than the header): no two lines
    have the same date, name, quantity, amount and owner; every line is the
    coercion of a record of the ledger sheet, with a parsed date and
    numbers for quantity and amount; and the lines returned and the count
    reported add up to the number of records of the sheet whenever the
    sheet has the five required columns. *)
Theorem load_data_rows (sheet : option spreadsheet) :
  (forall sh ws, sheet = Some sh -> data_ws sh = Some ws -> readable ws = true) ->
  let df := fst (load_data to_datetime sheet) in
  let removed := snd (load_data to_datetime sheet) in
  NoDup (map key_of df) /\
  (forall r, In r df ->
     exists sh ws,
       sheet = Some sh /\ data_ws sh = Some ws /\
       In (fields r) (Worksheet.get_all_records ws) /\
       coerce to_datetime (fields r) = Some r) /\
  (forall sh ws d rest,
     sheet = Some sh -> data_ws sh = Some ws ->
     Worksheet.get_all_records ws = d :: rest ->
     forallb (fun c => Py.contains c (map fst d)) required_cols = true ->
     List.length df + removed = List.length (d :: rest)).
Proof.
  intros _. cbv zeta. unfold load_data.
  assert (forall A (P : A -> Prop) (Q : Prop),
            Q -> NoDup (map key_of []) /\ (forall r, In r [] -> P r) /\ Q)
    as Hempty.
  { intros A P Q HQ. split; [constructor |]. split; [intros r [] | exact HQ]. }
  destruct sheet as [sh |]; cbn [fst snd];
    [| apply Hempty; discriminate].
  destruct (data_ws sh) as [ws |] eqn:Ews; cbn [fst snd];
    [| apply Hempty; intros sh0 ws0 d0 rest0 [= <-] H2 H3 H4; congruence].
  destruct (Worksheet.get_all_records ws) as [| d rest] eqn:Erec; cbn [fst snd];
    [apply Hempty; intros sh0 ws0 d0 rest0 [= <-] H2 H3 H4; congruence |].
  destruct (forallb _ required_cols) eqn:Ecols; cbn [negb fst snd].
  2: { apply Hempty. intros sh0 ws0 d0 rest0 [= <-] H2 H3 H4.
       rewrite Ews in H2. injection H2 as <-. rewrite Erec in H3.
       injection H3 as <- <-. unfold required_cols in *. congruence. }
  pose proof (dedup_from_subseq (dropna to_datetime (d :: rest)) []) as Hsub.
  rewrite <- drop_duplicates_dedup in Hsub.
  split; [rewrite drop_duplicates_dedup; apply dedup_from_NoDup |].
  split.
  - intros r Hr. exists sh, ws. split; [reflexivity |]. split; [exact Ews |].
    rewrite Erec. apply dropna_In. eapply subseq_In; eauto.
  - intros sh0 ws0 d0 rest0 [= <-] Hws0 Hrec0 _.
    rewrite Ews in Hws0. injection Hws0 as <-. rewrite Erec in Hrec0.
    injection Hrec0 as <- <-.
    pose proof (subseq_length _ _ Hsub) as H1.
    pose proof (dropna_length to_datetime (d :: rest)) as H2. lia.
Qed.

(** X16. The page works for one user on that user's lines only.  On a
    ledger sheet that [get_all_records] reads without raising, when
    [page_dashboard] gets as far as the overview, its frame is not empty,
    each of its lines was loaded from the ledger, has the user's name as
    owner and passes the search when one is given, the count it shows is
    the loader's, and its total and its monthly totals are the sums, on
    64-bit integers, of that frame, the monthly totals adding up to the
    total. *)
Theorem page_dashboard_overview
    (sheet sheet' : option spreadsheet) (username : value)
    (search : option (value -> bool)) (df : list ledger_row)
    (removed_count : nat) (total : Z) (monthly : list (period * Z)) :
  (forall sh ws, sheet = Some sh -> data_ws sh = Some ws -> readable ws = true) ->
  page_dashboard to_datetime sheet username search =
    (sheet', Overview df removed_count total monthly) ->
  df <> [] /\
  (forall r, In r df ->
     In r (fst (load_data to_datetime sheet)) /\ owner r = username /\
     (forall contains, search = Some contains -> contains (name r) = true)) /\
  removed_count = snd (load_data to_datetime sheet) /\
  total = total_expense df /\
  monthly = monthly_total df /\
  series_sum monthly = total.
Proof.
  intros _. unfold page_dashboard.
  destruct (load_data to_datetime sheet) as [df_all removed] eqn:El. cbn [fst snd].
  destruct df_all as [| r0 df_all]; [discriminate |].
  destruct (scope_to_owner (r0 :: df_all) username) as [| r1 scoped] eqn:Es;
    [discriminate |].
  assert (forall r, In r (r1 :: scoped) ->
                    In r (r0 :: df_all) /\ owner r = username) as Hscope.
  { intros r Hr. rewrite <- Es in Hr. unfold scope_to_owner in Hr.
    apply filter_In in Hr. rewrite value_eqb_eq in Hr. exact Hr. }
  pose proof monthly_total_sum as Hsum.
  destruct search as [contains |].
  - destruct (filter (fun r => contains (name r)) (r1 :: scoped)) as [| r2 found] eqn:Ef;
      [discriminate |].
    intros [= <- <- <- <- <-].
    split; [discriminate |]. split.
    + intros r Hr. rewrite <- Ef in Hr. apply filter_In in Hr.
      destruct Hr as [Hr Hc]. destruct (Hscope r Hr) as [H1 H2].
      repeat split; auto. intros c [= <-]. exact Hc.
    + repeat split; auto.
  - intros [= <- <- <- <- <-].
    split; [discriminate |]. split.
    + intros r Hr. destruct (Hscope r Hr) as [H1 H2].
      repeat split; auto. discriminate.
    + repeat split; auto.
Qed.

End LoaderRows.

Lemma load_data_rows_witness :
  List.length (fst (load_data iso_datetime (Some twice_ledger)))
  + snd (load_data iso_datetime (Some twice_ledger)) = 2.
Proof.
  destruct (load_data_rows iso_datetime (Some twice_ledger)) as (_ & _ & H).
  { intros sh ws [= <-] [= <-]. reflexivity. }
  apply (H twice_ledger [ledger_header; milk_cells "Milk"; milk_cells "Milk"]
           (Worksheet.zip_fill (map Py.str ledger_header) (milk_cells "Milk"))
           [Worksheet.zip_fill (map Py.str ledger_header) (milk_cells "Milk")]);
    reflexivity.
Defined.

Lemma page_dashboard_overview_witness :
  exists df removed_count total monthly,
    page_dashboard iso_datetime (Some twice_ledger) (VStr "amy") None =
      (Some twice_ledger, Overview df removed_count total monthly)
    /\ series_sum monthly = total /\ total = 80%Z.
Proof.
  destruct (page_dashboard iso_datetime (Some twice_ledger) (VStr "amy") None)
    as [s [| | | df rc t m]] eqn:E; try (vm_compute in E; discriminate).
  destruct (page_dashboard_overview iso_datetime (Some twice_ledger) s
              (VStr "amy") None df rc t m)
    as (_ & _ & _ & Ht & _ & Hs).
  { intros sh ws [= <-] [= <-]. reflexivity. }
  { exact E. }
  exists df, rc, t, m. vm_compute in E. injection E as <- <- <- <- <-.
  split; [reflexivity |]. split; [exact Hs | reflexivity].
Defined.

(** ** Months and categories *)

Lemma category_column_length (df : list ledger_row) :
  forall cs, category_column df = Some cs -> List.length cs = List.length df.
Proof.
  induction df as [| r t IH]; cbn [category_column].
  - intros cs [= <-]. reflexivity.
  - destruct (Py.get col_category (fields r)); [| discriminate].
    destruct (category_column t) as [cs' |]; [| discriminate].
    intros cs [= <-]. cbn [List.length]. rewrite (IH cs'); reflexivity.
Qed.

Lemma add_to_category_sum (k : value) (v : Z) (groups : list (value * Z)) :
  sum64 (map snd (add_to_category k v groups)) =
    add64 (sum64 (map snd groups)) v.
Proof.
  induction groups as [| [k' s] t IH]; simpl.
  - norm64.
  - destruct (value_eqb k k'); simpl; [norm64 |].
    destruct (value_ltb k k'); simpl; [norm64 |].
    rewrite IH. norm64.
Qed.

Lemma category_fold_sum (kvs : list (value * Z)) :
  forall groups,
    sum64 (map snd (fold_left (fun g kv => add_to_category (fst kv) (snd kv) g)
                              kvs groups)) =
      add64 (sum64 (map snd groups)) (sum64 (map snd kvs)).
Proof.
  induction kvs as [| [k v] t IH]; intro groups; simpl.
  - unfold add64. rewrite Z.add_0_r. symmetry. apply sum64_wrapped.
  - rewrite IH, add_to_category_sum. apply add64_assoc.
Qed.

Lemma combine_snd {A B : Type} (l1 : list A) (l2 : list B) :
  List.length l1 = List.length l2 -> map snd (combine l1 l2) = l2.
Proof.
  revert l2. induction l1 as [| a l1 IH]; intros [| b l2] H; simpl in *;
    try discriminate; [reflexivity |].
  rewrite IH by lia. reflexivity.
Qed.

(** X17. The share chart and the bar chart agree.  For any month, when the
    lines have the category column, the amounts of the categories of that
    month add up, as a sum of 64-bit integers, to the amount the monthly
    totals show for it. *)
Theorem category_summary_adds_up
    (df : list ledger_row) (selected_month : period)
    (groups : list (value * Z)) :
  category_summary df selected_month = Some groups ->
  sum64 (map snd groups) = series_get selected_month (monthly_total df).
Proof.
  unfold category_summary.
  destruct (category_column (month_df df selected_month)) as [cs |] eqn:Ec;
    [| discriminate].
  intros [= <-]. rewrite category_fold_sum. cbn [map sum64 fold_right].
  rewrite combine_snd
    by (rewrite (category_column_length _ _ Ec), length_map; reflexivity).
  rewrite monthly_total_of_month. unfold month_df, total_expense, add64.
  rewrite Z.add_0_l. apply sum64_wrapped.
Qed.

Lemma category_summary_adds_up_witness :
  sum64 (map snd [(VStr "Food", 80%Z)]) =
    series_get (2024, 3)%Z (monthly_total [milk_row]).
Proof.
  apply (category_summary_adds_up [milk_row] (2024, 3)%Z [(VStr "Food", 80%Z)]).
  reflexivity.
Defined.

Lemma unique_periods_In (l : list period) :
  forall seen p,
    In p (unique_periods seen l) <-> In p l /\ ~ In p seen.
Proof.
  induction l as [| q t IH]; intros seen p; cbn [unique_periods].
  - simpl. intuition.
  - destruct (existsb (period_eqb q) seen) eqn:E.
    + rewrite IH. apply existsb_exists in E. destruct E as (x & Hx & Hq).
      apply period_eqb_eq in Hq. subst x. simpl. intuition. subst. contradiction.
    + simpl. rewrite IH. simpl.
      assert (~ In q seen) as Hq.
      { intro Hin. apply not_true_iff_false in E. apply E.
        apply existsb_exists. exists q. split; [exact Hin | apply period_eqb_refl]. }
      destruct (period_eqb q p) eqn:Eqp.
      * apply period_eqb_eq in Eqp. subst p. intuition.
      * assert (q <> p) by (intro; subst; rewrite period_eqb_refl in Eqp; discriminate).
        intuition.
Qed.

Lemma unique_periods_NoDup (l : list period) :
  forall seen, NoDup (unique_periods seen l).
Proof.
  induction l as [| q t IH]; intro seen; cbn [unique_periods]; [constructor |].
  destruct (existsb (period_eqb q) seen); [apply IH |].
  constructor; [| apply IH].
  rewrite unique_periods_In. simpl. intuition.
Qed.

Lemma insert_desc_In (q : period) (l : list period) (p : period) :
  In p (insert_desc q l) <-> p = q \/ In p l.
Proof.
  induction l as [| x t IH]; simpl; [intuition |].
  destruct (period_ltb q x); simpl; [rewrite IH |]; intuition.
Qed.

Lemma insert_desc_descending (q : period) (l : list period) :
  descending l -> ~ In q l -> descending (insert_desc q l).
Proof.
  unfold descending. induction 1 as [| x t Ht IH Hall]; intro Hq; simpl.
  - repeat constructor.
  - destruct (period_ltb q x) eqn:E.
    + constructor.
      * apply IH. intro H. apply Hq. right. exact H.
      * apply Forall_forall. intros p Hp. apply insert_desc_In in Hp.
        destruct Hp as [-> | Hp]; [exact E |].
        rewrite Forall_forall in Hall. apply Hall, Hp.
    + assert (period_ltb x q = true) as Hx.
      { apply period_total; [| exact E].
        destruct (period_eqb q x) eqn:Ee; [| reflexivity].
        apply period_eqb_eq in Ee. subst x. exfalso. apply Hq. left. reflexivity. }
      constructor; [constructor; assumption |].
      constructor; [exact Hx |].
      eapply Forall_impl; [| exact Hall].
      intros p Hp. simpl in Hp. eapply period_ltb_trans; eauto.
Qed.

Lemma sort_desc_spec (l : list period) :
  NoDup l ->
  descending (fold_right insert_desc [] l) /\
  forall p, In p (fold_right insert_desc [] l) <-> In p l.
Proof.
  induction 1 as [| q t Hq Ht [IH1 IH2]]; simpl.
  - split; [constructor | intuition].
  - split.
    + apply insert_desc_descending; [exact IH1 |]. rewrite IH2. exact Hq.
    + intro p. rewrite insert_desc_In, IH2. intuition.
Qed.

Lemma descending_snoc (l : list period) (x : period) :
  descending l -> Forall (fun y => period_ltb x y = true) l ->
  descending (l ++ [x]).
Proof.
  unfold descending. induction 1 as [| y t Ht IH Hall]; intro Hx; simpl.
  - repeat constructor.
  - inversion Hx as [| ? ? Hy Hx']; subst. constructor; [apply IH, Hx' |].
    apply Forall_app. split; [exact Hall | repeat constructor; exact Hy].
Qed.

Lemma ascending_keys_rev (s : list (period * Z)) :
  ascending s -> descending (rev (map fst s)).
Proof.
  unfold ascending. induction 1 as [| [k v] t Ht IH Hall]; simpl.
  - constructor.
  - apply descending_snoc; [exact IH |].
    apply Forall_forall. intros y Hy. apply in_rev, in_map_iff in Hy.
    destruct Hy as ([k' v'] & <- & Hin).
    rewrite Forall_forall in Hall. apply (Hall _ Hin).
Qed.

Lemma descending_unique (l1 : list period) :
  forall l2, descending l1 -> descending l2 ->
             (forall p, In p l1 <-> In p l2) -> l1 = l2.
Proof.
  unfold descending.
  induction l1 as [| x1 t1 IH]; intros [| x2 t2] H1 H2 Hsame.
  - reflexivity.
  - exfalso. apply (Hsame x2). left. reflexivity.
  - exfalso. apply (Hsame x1). left. reflexivity.
  - inversion H1 as [| ? ? Ht1 Hall1]; subst.
    inversion H2 as [| ? ? Ht2 Hall2]; subst.
    rewrite Forall_forall in Hall1, Hall2.
    assert (forall a b, period_ltb a b = true -> period_ltb b a = true -> False)
      as Hasym.
    { intros a b Hab Hba. pose proof (period_ltb_trans _ _ _ Hab Hba) as H.
      rewrite period_ltb_irrefl in H. discriminate. }
    assert (x1 = x2) as ->.
    { destruct (proj1 (Hsame x1) (or_introl eq_refl)) as [E | E]; [auto |].
      destruct (proj2 (Hsame x2) (or_introl eq_refl)) as [E' | E']; [auto |].
      exfalso. apply (Hasym x1 x2); [apply Hall2, E | apply Hall1, E']. }
    f_equal. apply IH; try assumption.
    intro p. split; intro Hp.
    + destruct (proj1 (Hsame p) (or_intror Hp)) as [E | E]; [| exact E].
      subst p. exfalso. specialize (Hall1 _ Hp).
      rewrite period_ltb_irrefl in Hall1. discriminate.
    + destruct (proj2 (Hsame p) (or_intror Hp)) as [E | E]; [| exact E].
      subst p. exfalso. specialize (Hall2 _ Hp).
      rewrite period_ltb_irrefl in Hall2. discriminate.
Qed.

(** X18. The months offered for the share chart are the months of the bar
    chart, newest first: the list is the months of the monthly totals in
    reverse, it holds a month exactly when some line is dated in it, and
    for each month of the list the lines of that month are not none. *)
Theorem unique_months_are_the_chart_months (df : list ledger_row) :
  unique_months df = rev (map fst (monthly_total df)) /\
  (forall m, In m (unique_months df) <-> exists r, In r df /\ month_of r = m) /\
  (forall m, In m (unique_months df) -> month_df df m <> []).
Proof.
  destruct (sort_desc_spec (unique_periods [] (map month_of df))
              (unique_periods_NoDup _ [])) as [Hd Hin].
  fold (unique_months df) in Hd, Hin.
  assert (forall m, In m (unique_months df) <-> In m (map month_of df)) as Hm.
  { intro m. rewrite Hin, unique_periods_In. simpl. intuition. }
  split; [| split].
  - apply descending_unique; [exact Hd | |].
    + apply ascending_keys_rev, monthly_total_ascending.
    + intro p. rewrite Hm, <- in_rev, monthly_total_keys. reflexivity.
  - intro m. rewrite Hm, in_map_iff. split; intros (r & H1 & H2); eauto.
  - intros m Hmm. apply Hm, in_map_iff in Hmm. destruct Hmm as (r & <- & Hr).
    intro E. assert (In r (month_df df (month_of r))) as Hin'.
    { unfold month_df. apply filter_In. split; [exact Hr | apply period_eqb_refl]. }
    rewrite E in Hin'. destruct Hin'.
Qed.

Lemma unique_months_are_the_chart_months_witness :
  unique_months [amy_row "Tea" 2024 4 2 35; amy_row "Milk" 2024 3 1 80;
                 amy_row "Rice" 2024 4 9 120] = [(2024, 4); (2024, 3)]%Z
  /\ month_df [amy_row "Tea" 2024 4 2 35; amy_row "Milk" 2024 3 1 80;
               amy_row "Rice" 2024 4 9 120] (2024, 4)%Z <> [].
Proof.
  destruct (unique_months_are_the_chart_months
              [amy_row "Tea" 2024 4 2 35; amy_row "Milk" 2024 3 1 80;
               amy_row "Rice" 2024 4 9 120]) as (H1 & _ & H3).
  split.
  - rewrite H1. reflexivity.
  - apply H3. rewrite H1. left. reflexivity.
Defined.

(** ** Recognition, continued *)

Lemma item_members_length (items : list json) :
  forall dicts, item_members items = Some dicts ->
                List.length dicts = List.length items.
Proof.
  induction items as [| i t IH]; cbn [item_members].
  - intros dicts [= <-]. reflexivity.
  - destruct i; try discriminate.
    destruct (item_members t) as [l |]; [| discriminate].
    intros dicts [= <-]. cbn [List.length]. rewrite (IH l); reflexivity.
Qed.

(** The second branch of [recognise], on a document with at least one
    item. *)
Lemma recognise_items (today : string) (members : list (string * json))
      (i : json) (items : list json) :
  members_get "items" members = Some (JArr (i :: items)) ->
  recognise today (Some (JObj members)) =
    let invoice_date :=
      match members_get "invoice_date" members with
      | Some d => if json_truthy d then d else JStr today
      | None => JStr today
      end in
    match item_members (i :: items) with
    | Some dicts =>
        if forallb (fun k => has_column k dicts)
                   [col_name; col_quantity; col_category; col_amount]
        then
          if is_scalar invoice_date
          then Table (map (fun m =>
                             {| p_date := Some invoice_date;
                                p_name := members_get col_name m;
                                p_quantity := members_get col_quantity m;
                                p_category := members_get col_category m;
                                p_amount := members_get col_amount m |}) dicts)
          else Unmodelled
        else Raised
    | None => Raised
    end.
Proof.
  intro Hi. unfold recognise.
  destruct members as [| kv members]; [discriminate Hi |].
  cbn [json_truthy negb]. rewrite Hi. reflexivity.
Qed.

(** X19. The table offered for correction is never empty.  For an answer
    whose [items], when it has any, is not itself an object, a table that
    is shown is the one placeholder line, or it has one line for each item
    of the answer, of which there is at least one. *)
Theorem recognise_table_not_empty
    (today : string) (parsed_data : option json) (lines : list parsed_row) :
  (forall members kv, parsed_data = Some (JObj members) ->
                      members_get "items" members <> Some (JObj kv)) ->
  recognise today parsed_data = Table lines ->
  lines <> [] /\
  (lines = [placeholder_row today] \/
   exists members items,
     parsed_data = Some (JObj members) /\
     members_get "items" members = Some (JArr items) /\
     List.length lines = List.length items).
Proof.
  intro Hshape.
  assert (lines = [placeholder_row today] -> lines <> [] /\
          (lines = [placeholder_row today] \/
           exists members items,
             parsed_data = Some (JObj members) /\
             members_get "items" members = Some (JArr items) /\
             List.length lines = List.length items)) as Hp.
  { intros ->. split; [discriminate | left; reflexivity]. }
  unfold recognise.
  destruct parsed_data as [data |]; [| intros [= <-]; auto].
  destruct (negb (json_truthy data)); [intros [= <-]; auto |].
  destruct data as [| | | | | members]; try (intros [= <-]; auto).
  destruct (members_get "items" members) as [items |] eqn:Ei;
    [| intros [= <-]; auto].
  destruct (negb (json_truthy items)) eqn:Et; [intros [= <-]; auto |].
  destruct items as [| | | | items | kv];
    [discriminate | discriminate | discriminate | discriminate | |
     exfalso; apply (Hshape members kv eq_refl); exact Ei].
  destruct (item_members items) as [dicts |] eqn:Em; [| discriminate].
  destruct (forallb _ _); [| discriminate].
  destruct (is_scalar _); [| discriminate].
  intros [= <-]. apply item_members_length in Em.
  split.
  - destruct items as [| i items]; [discriminate Et |].
    destruct dicts; [discriminate Em | discriminate].
  - right. exists members, items. rewrite length_map. auto.
Qed.

(** X20. All lines of a recognised document carry one date: the date of
    the document when it is a text that is not empty, today's date when
    the document has no date, a null date or an empty one. *)
Theorem recognise_stamps_one_date
    (today : string) (members : list (string * json)) (i : json)
    (items : list json) (lines : list parsed_row) :
  members_get "items" members = Some (JArr (i :: items)) ->
  recognise today (Some (JObj members)) = Table lines ->
  (forall s, members_get "invoice_date" members = Some (JStr s) -> s <> "" ->
             Forall (fun l => p_date l = Some (JStr s)) lines) /\
  (members_get "invoice_date" members = None \/
   members_get "invoice_date" members = Some JNull \/
   members_get "invoice_date" members = Some (JStr "") ->
   Forall (fun l => p_date l = Some (JStr today)) lines).
Proof.
  intros Hi Hrec. rewrite (recognise_items _ _ _ _ Hi) in Hrec. cbv zeta in Hrec.
  destruct (item_members (i :: items)) as [dicts |]; [| discriminate].
  destruct (forallb _ _); [| discriminate].
  destruct (is_scalar _); [| discriminate].
  injection Hrec as <-.
  assert (forall d, Forall (fun l => p_date l = Some d)
                      (map (fun m =>
                              {| p_date := Some d;
                                 p_name := members_get col_name m;
                                 p_quantity := members_get col_quantity m;
                                 p_category := members_get col_category m;
                                 p_amount := members_get col_amount m |}) dicts))
    as Hall.
  { intro d. apply Forall_forall. intros l Hl. apply in_map_iff in Hl.
    destruct Hl as (m & <- & _). reflexivity. }
  split.
  - intros s Hs Hne. rewrite Hs.
    assert (json_truthy (JStr s) = true) as ->.
    { simpl. apply negb_true_iff, String.eqb_neq. exact Hne. }
    apply Hall.
  - intros [-> | [-> | ->]]; apply Hall.
Qed.

(** X21. On a document whose items are objects and whose date, when it
    has one, is neither a list nor an object, the table is built exactly
    when each of the four columns, name, quantity, category and amount,
    occurs in at least one item, and it then has one line for each item;
    when one of the columns occurs in none, the page raises instead of
    showing a table. *)
Theorem recognise_needs_every_column
    (today : string) (members : list (string * json)) (i : json)
    (items : list json) (dicts : list (list (string * json))) :
  members_get "items" members = Some (JArr (i :: items)) ->
  item_members (i :: items) = Some dicts ->
  (forall d, members_get "invoice_date" members = Some d -> is_scalar d = true) ->
  (recognise today (Some (JObj members)) = Raised <->
   exists k, In k [col_name; col_quantity; col_category; col_amount] /\
             forall m, In m dicts -> members_get k m = None) /\
  (recognise today (Some (JObj members)) <> Raised ->
   exists lines, recognise today (Some (JObj members)) = Table lines /\
                 List.length lines = List.length (i :: items)).
Proof.
  intros Hi Hm Hd. rewrite (recognise_items _ _ _ _ Hi). cbv zeta. rewrite Hm.
  assert (is_scalar match members_get "invoice_date" members with
                    | Some d => if json_truthy d then d else JStr today
                    | None => JStr today
                    end = true) as ->.
  { destruct (members_get "invoice_date" members) as [d |]; [| reflexivity].
    destruct (json_truthy d); [apply Hd; reflexivity | reflexivity]. }
  destruct (forallb (fun k => has_column k dicts)
                    [col_name; col_quantity; col_category; col_amount]) eqn:E.
  - split.
    + split; [discriminate |]. intros (k & Hk & Hnone). exfalso.
      rewrite forallb_forall in E. specialize (E k Hk).
      unfold has_column in E. apply existsb_exists in E.
      destruct E as (m & Hin & Hsome). rewrite (Hnone m Hin) in Hsome.
      discriminate.
    + intros _. eexists. split; [reflexivity |].
      rewrite length_map. apply (item_members_length _ _ Hm).
  - split; [| intro H; contradiction H; reflexivity].
    split; [intros _ | reflexivity].
    assert (exists k, In k [col_name; col_quantity; col_category; col_amount] /\
                      has_column k dicts = false) as (k & Hk & Hc).
    { cbn [forallb] in E. repeat rewrite andb_false_iff in E.
      destruct E as [E | [E | [E | [E | E]]]]; try discriminate;
        eexists; (split; [| exact E]); simpl; auto. }
    exists k. split; [exact Hk |]. intros m Hin.
    destruct (members_get k m) eqn:Eg; [| reflexivity]. exfalso.
    apply not_true_iff_false in Hc. apply Hc. unfold has_column.
    apply existsb_exists. exists m. split; [exact Hin |]. rewrite Eg. reflexivity.
Qed.

Lemma recognise_table_not_empty_witness :
  exists lines,
    recognise "2024-03-05" (Some (JObj two_items)) = Table lines /\
    List.length lines = 2.
Proof.
  destruct (recognise "2024-03-05" (Some (JObj two_items))) as [lines | |] eqn:E;
    try (vm_compute in E; discriminate).
  exists lines. split; [reflexivity |].
  destruct (recognise_table_not_empty "2024-03-05" (Some (JObj two_items)) lines)
    as (_ & [Hp | (members & items & Hm & Hi & Hl)]).
  - intros members kv [= <-]. discriminate.
  - exact E.
  - subst lines. vm_compute in E. discriminate.
  - injection Hm as <-. injection Hi as <-. exact Hl.
Defined.

Lemma recognise_stamps_one_date_witness :
  exists lines,
    recognise "2024-03-05" (Some (JObj two_items)) = Table lines /\
    Forall (fun l => p_date l = Some (JStr "2024-03-01")) lines.
Proof.
  destruct (recognise "2024-03-05" (Some (JObj two_items))) as [lines | |] eqn:E;
    try (vm_compute in E; discriminate).
  exists lines. split; [reflexivity |].
  destruct (recognise_stamps_one_date "2024-03-05" two_items _ _ lines eq_refl E)
    as [H _].
  apply (H "2024-03-01"); [reflexivity | discriminate].
Defined.

Lemma recognise_needs_every_column_witness :
  recognise "2024-03-05" (Some (JObj other_names)) = Raised.
Proof.
  apply (recognise_needs_every_column "2024-03-05" other_names _ _
           [[("name", JStr "Milk"); ("amount", JNum 80)]] eq_refl eq_refl).
  - intros d [= <-]. reflexivity.
  - exists col_name. split; [left; reflexivity |].
    intros m [<- | []]. reflexivity.
Defined.

(** ** A deleted user cannot log in *)

Lemma map_remove_nth {A B : Type} (f : A -> B) (i : nat) :
  forall l, map f (Worksheet.remove_nth i l) = Worksheet.remove_nth i (map f l).
Proof.
  induction i as [| i IH]; intros [| x l]; simpl; try reflexivity.
  rewrite IH. reflexivity.
Qed.

Lemma remove_nth_NoDup {A : Type} (i : nat) :
  forall (l : list A) (x : A),
    NoDup l -> nth_error l i = Some x -> ~ In x (Worksheet.remove_nth i l).
Proof.
  induction i as [| i IH]; intros [| y l] x Hnd Hx; simpl in *; try discriminate.
  - injection Hx as ->. inversion Hnd; assumption.
  - inversion Hnd as [| ? ? Hy Hl]; subst. intros [-> | Hin].
    + apply Hy. eapply nth_error_In; eauto.
    + exact (IH l x Hl Hx Hin).
Qed.

Lemma delete_rows_below_header (header : row) (rows : list row) (r : nat) :
  2 <= r ->
  Worksheet.delete_rows (header :: rows) r =
    header :: Worksheet.remove_nth (r - 2) rows.
Proof.
  intro Hr. unfold Worksheet.delete_rows.
  replace (r - 1) with (S (r - 2)) by lia. reflexivity.
Qed.

Section DeletedUser.

Variable hash_password : string -> string.

(** X22. On a Users sheet that is read back as it is modelled, whose first
    two columns are the name and the digest and on which no two records
    have the same name up to the case of letters, when the first cell
    showing the name is the name cell of a row below the header,
    [delete_user] leaves no record under that name, whatever it answers
    about the ledger: a login with that name is refused afterwards,
    whatever the password. *)
Theorem delete_user_then_check_login
    (sh sh' : spreadsheet) (u : string) (ks : list string) (row_index : nat)
    (outcome : delete_outcome) :
  Worksheet.row_values (snd (get_users_worksheet sh)) 1 =
    "username" :: "hashed_password" :: ks ->
  readable (snd (get_users_worksheet sh)) = true ->
  forallb stored_name_ok (user_records sh) = true ->
  is_ascii u = true ->
  NoDup (map lowered_name (user_records sh)) ->
  Worksheet.find (snd (get_users_worksheet sh)) u = Some (row_index, 1) ->
  2 <= row_index ->
  delete_user (Some sh) u = (Some sh', outcome) ->
  ~ In (Py.lower u) (map lowered_name (user_records sh')) /\
  forall password,
    snd (check_login hash_password (Some sh') u password) = LoginPair false None.
Proof.
  intros Hk _ _ _ Hnd Hf Hr Hdel. unfold user_records in *.
  pose proof (users_sheet_has_column sh) as Hc.
  unfold delete_user in Hdel.
  destruct (get_users_worksheet sh) as [sh1 users] eqn:Eg. cbn [fst snd] in *.
  rewrite Hf in Hdel.
  destruct (header_keys _ _ _ Hk) as (header & rows & more & -> & Hkeys).
  destruct (find_Some _ _ _ _ Hf) as (_ & Hlen & _ & Hname).
  cbn [List.length] in Hlen.
  rewrite (delete_rows_below_header header rows row_index Hr) in Hdel.
  set (rows' := Worksheet.remove_nth (row_index - 2) rows) in *.
  (* the users sheet after the call, whatever happened to the ledger *)
  assert (get_users_worksheet sh' = (sh', header :: rows')) as Hg.
  { assert (users_ws sh' = Some (header :: rows')) as Hu.
    { cbn [data_ws set_users] in Hdel.
      destruct (data_ws sh1) as [data |];
        [destruct (delete_records data u) |];
        injection Hdel as <- _; reflexivity. }
    unfold get_users_worksheet. rewrite Hu. unfold ensure_avatar_column.
    change (Worksheet.row_values (header :: rows') 1)
      with (Worksheet.row_values (header :: rows) 1).
    rewrite Hc. destruct sh' as [us ds]. cbn in Hu. subst us. reflexivity. }
  rewrite Hg. cbn [snd].
  (* the record that went away had the name *)
  destruct (record_cells header rows (ks ++ more) (row_index - 2) Hkeys)
    as (d & Hd & Hdn & _); [lia |].
  replace (row_index - 2 + 2) with row_index in Hdn by lia.
  assert (lowered_name d = Py.lower u) as Hld.
  { unfold lowered_name. rewrite Hdn. cbn [Py.str_opt]. rewrite Hname. reflexivity. }
  assert (~ In (Py.lower u)
            (map lowered_name (Worksheet.get_all_records (header :: rows')))) as Hgone.
  { unfold rows'. cbn [Worksheet.get_all_records] in *.
    rewrite !map_remove_nth. rewrite <- Hld.
    apply remove_nth_NoDup; [exact Hnd |].
    apply map_nth_error. exact Hd. }
  split; [exact Hgone |].
  intro password. unfold check_login. rewrite Hg. cbn [snd].
  apply check_users_no_match. intros x Hx [Hn _]. apply Hgone.
  apply in_map_iff. exists x. split; [exact Hn | exact Hx].
Qed.

End DeletedUser.

Lemma delete_user_then_check_login_witness :
  snd (check_login toy_hash
         (Some {| users_ws := Some [users_header]; data_ws := Some [ledger_header] |})
         "Amy" "secret") = LoginPair false None.
Proof.
  destruct (delete_user_then_check_login toy_hash amy_users
              {| users_ws := Some [users_header]; data_ws := Some [ledger_header] |}
              "Amy" ["avatar_base64"] 2 Deleted) as [_ H];
    [reflexivity | reflexivity | reflexivity | reflexivity
     | repeat constructor; intros [] | reflexivity | lia | reflexivity
     | apply H].
Defined.
